(** * GemStrategy: the 12-month return engine, its cache and the GEM selector

    A shallow embedding of the core of the GemStrategy application:

    - [error_handling.py]: [validate_ticker], [validate_date_string],
      [safe_divide], [safe_float_conversion];
    - [main.py]: [StooqDataFetcher._get_12m_return_stooq_cached] and
      [StooqDataFetcher.get_return] together with the [lru_cache] that
      memoises the former;
    - [services/strategy_service.py]: [StrategyService.calculate_gem_strategy];
    - [config.py]: the instruments and the two sets;
    - [services/data_service.py]: [DataService.get_all_etf_returns],
      [get_benchmark_data], [prepare_chart_data], [prepare_template_data],
      [validate_data_quality];
    - [main.py]: [form_get] and [calculate], up to the context they hand to
      the template.

    Modelling conventions.

    - A Python [str] is a Rocq [string]; a character is a code point below 256.
    - A Python [float] is an IEEE 754 binary64 number: Rocq's primitive [float],
      with the same rounding, infinities and NaN.
    - A [datetime] at midnight / a pandas [Timestamp] of a daily quote is a
      calendar [date]; years are confined to [MINYEAR .. MAXYEAR] and an
      operation that leaves that range raises, as [datetime.replace] does
      (a [Timestamp] built from a [datetime] covers that whole range since
      pandas 2.0).
    - A call either returns a value or raises: type [result].  Log records and
      HTTP requests are collected in a trace of [event]s.
    - The outside world (clock readings, the answer of the quote source) is an
      explicit argument of every call: type [env]. *)

From Stdlib Require Import ZArith List String Ascii Bool Lia Floats.
From Stdlib Require Import Sorting.Sorted Sorting.Permutation.
Import ListNotations.

Local Open Scope string_scope.
Local Open Scope list_scope.
Local Open Scope Z_scope.

(* ================================================================== *)
(** * Python values: exceptions and results *)

Inductive exn : Type :=
| ValueError (msg : string)
| KeyError (key : string)
| OverflowError (msg : string)
| StrategyCalculationError (msg : string) (strategy : string).

Inductive result (A : Type) : Type :=
| Returned (a : A)
| Raised (e : exn).

Arguments Returned {A} a.
Arguments Raised {A} e.

Definition bind {A B : Type} (m : result A) (k : A -> result B) : result B :=
  match m with
  | Returned a => k a
  | Raised e => Raised e
  end.

Notation "x <- m ;; k" := (bind m (fun x => k))
  (at level 61, m at next level, right associativity).

Definition returns {A : Type} (m : result A) : bool :=
  match m with Returned _ => true | Raised _ => false end.

(** [str(e)] of an exception, as interpolated into log messages. *)
Definition str_exn (e : exn) : string :=
  match e with
  | ValueError m => m
  | KeyError k => ("'" ++ k ++ "'")%string
  | OverflowError m => m
  | StrategyCalculationError m _ => m
  end.

(* ================================================================== *)
(** * Calendar dates ([datetime], [relativedelta], [pd.DateOffset]) *)

Module Calendar.

Record date : Type := mkdate { year : Z; month : Z; day : Z }.

Definition MINYEAR : Z := 1.
Definition MAXYEAR : Z := 9999.

Definition is_leap (y : Z) : bool :=
  ((y mod 4 =? 0) && negb (y mod 100 =? 0)) || (y mod 400 =? 0).

(** [calendar.monthrange(y, m)[1]] for a month in [1..12]. *)
Definition days_in_month (y m : Z) : Z :=
  if m =? 2 then (if is_leap y then 29 else 28)
  else if (m =? 4) || (m =? 6) || (m =? 9) || (m =? 11) then 30
  else 31.

(** The dates a [datetime] can hold. *)
Definition valid_date (d : date) : bool :=
  (MINYEAR <=? year d) && (year d <=? MAXYEAR)
  && (1 <=? month d) && (month d <=? 12)
  && (1 <=? day d) && (day d <=? days_in_month (year d) (month d)).

(** [datetime(y, m, d)] / [dt.replace(year=y, month=m, day=d)]:
    [ValueError] outside the representable range. *)
Definition make_date (y m d : Z) : result date :=
  if valid_date (mkdate y m d) then Returned (mkdate y m d)
  else if (y <? MINYEAR) || (MAXYEAR <? y)
       then Raised (ValueError "year is out of range")
       else if (m <? 1) || (12 <? m)
            then Raised (ValueError "month must be in 1..12")
            else Raised (ValueError "day is out of range for month").

(** Chronological order. *)
Definition date_ltb (a b : date) : bool :=
  (year a <? year b)
  || ((year a =? year b)
      && ((month a <? month b)
          || ((month a =? month b) && (day a <? day b)))).

Definition date_eqb (a b : date) : bool :=
  (year a =? year b) && (month a =? month b) && (day a =? day b).

Definition date_leb (a b : date) : bool := date_ltb a b || date_eqb a b.

(** The calendar month before / the calendar year before, on the unbounded
    proleptic calendar: the target month is the previous one, the day is
    kept, or clipped to the last day of the target month.  This is
    [relativedelta(months=-1)] resp. [relativedelta(years=-1)] before the
    final [replace]. *)
Definition month_before (d : date) : date :=
  let y := if month d - 1 <? 1 then year d - 1 else year d in
  let m := if month d - 1 <? 1 then month d - 1 + 12 else month d - 1 in
  mkdate y m (Z.min (days_in_month y m) (day d)).

Definition year_before (d : date) : date :=
  let y := year d - 1 in
  mkdate y (month d) (Z.min (days_in_month y (month d)) (day d)).

(** The next calendar day. *)
Definition day_after (d : date) : date :=
  if day d <? days_in_month (year d) (month d)
  then mkdate (year d) (month d) (day d + 1)
  else if month d <? 12
       then mkdate (year d) (month d + 1) 1
       else mkdate (year d + 1) 1 1.

(** [d - pd.DateOffset(months=1)]. *)
Definition sub_months_1 (d : date) : result date :=
  let t := month_before d in make_date (year t) (month t) (day t).

(** [d - pd.DateOffset(years=1)]. *)
Definition sub_years_1 (d : date) : result date :=
  let t := year_before d in make_date (year t) (month t) (day t).

(** [d + pd.DateOffset(days=1)]. *)
Definition add_days_1 (d : date) : result date :=
  let t := day_after d in
  if MAXYEAR <? year t then Raised (OverflowError "date value out of range")
  else Returned t.

End Calendar.
Import Calendar.

(* ================================================================== *)
(** * Input validation ([error_handling.py]) *)

Module Validation.

Definition code (c : ascii) : nat := nat_of_ascii c.

Definition between (lo hi : nat) (c : ascii) : bool :=
  (lo <=? code c)%nat && (code c <=? hi)%nat.

(** [\d] on code points below 256. *)
Definition is_digit : ascii -> bool := between 48 57.
Definition is_char (x : ascii) (c : ascii) : bool := (code c =? code x)%nat.

(** [int(s)] on a string of decimal digits, leading blanks skipped. *)
Fixpoint int_acc (acc : Z) (s : string) : Z :=
  match s with
  | EmptyString => acc
  | String c rest =>
      if is_digit c then int_acc (10 * acc + (Z.of_nat (code c) - 48)) rest
      else int_acc acc rest
  end.
Definition int (s : string) : Z := int_acc 0 s.

(** ** A fragment of [re]: sequences of character classes, ordered
    alternation with backtracking into the continuation. *)

(** One alternative: a fixed sequence of character classes.  Gives the
    matched text and the unread rest. *)
Fixpoint classes (cs : list (ascii -> bool)) (s : string)
  : option (string * string) :=
  match cs with
  | [] => Some (EmptyString, s)
  | p :: cs' =>
      match s with
      | EmptyString => None
      | String c rest =>
          if p c then
            match classes cs' rest with
            | Some (m, r) => Some (String c m, r)
            | None => None
            end
          else None
      end
  end.

(** [a1|a2|...] followed by the continuation [k]: the first alternative, in
    the order written, after which the rest of the pattern matches. *)
Fixpoint alternation {A : Type} (alts : list (list (ascii -> bool)))
  (k : string -> string -> option A) (s : string) : option A :=
  match alts with
  | [] => None
  | a :: more =>
      match classes a s with
      | Some (m, rest) =>
          match k m rest with
          | Some r => Some r
          | None => alternation more k s
          end
      | None => alternation more k s
      end
  end.

(** [_strptime]'s regular expressions of the directives. *)
Definition re_Y := [[is_digit; is_digit; is_digit; is_digit]].
Definition re_m :=
  [ [is_char "1"; between 48 50];       (* 1[0-2] *)
    [is_char "0"; between 49 57];       (* 0[1-9] *)
    [between 49 57] ].                  (* [1-9]  *)
Definition re_d :=
  [ [is_char "3"; between 48 49];       (* 3[0-1]  *)
    [between 49 50; is_digit];          (* [1-2]\d *)
    [is_char "0"; between 49 57];       (* 0[1-9]  *)
    [between 49 57];                    (* [1-9]   *)
    [is_char " "; between 49 57] ].     (* " [1-9]" *)

Definition literal (x : ascii) {A : Type} (k : string -> option A)
  (s : string) : option A :=
  match s with
  | String c rest => if is_char x c then k rest else None
  | EmptyString => None
  end.

(** [format_regex.match(data_string)] for the format ['%Y-%m-%d']: the three
    groups and what is left after the match. *)
Definition match_Ymd (s : string) : option (string * string * string * string) :=
  alternation re_Y (fun Y r1 =>
    literal "-" (alternation re_m (fun m r2 =>
      literal "-" (alternation re_d (fun d r3 =>
        Some (Y, m, d, r3))) r2)) r1) s.

(** [datetime.strptime(date_str, '%Y-%m-%d')]. *)
Definition strptime (date_str : string) : result date :=
  match match_Ymd date_str with
  | None => Raised (ValueError "time data does not match format '%Y-%m-%d'")
  | Some (Y, m, d, rest) =>
      match rest with
      | EmptyString => make_date (int Y) (int m) (int d)
      | String _ _ => Raised (ValueError "unconverted data remains")
      end
  end.

(** [validate_date_string]: [True] unless [strptime] raises [ValueError]. *)
Definition validate_date_string (date_str : string) : bool :=
  match strptime date_str with
  | Returned _ => true
  | Raised _ => false     (* [except ValueError]: [strptime] raises nothing else *)
  end.

(** The character class [[A-Za-z0-9.]]. *)
Definition ticker_char (c : ascii) : bool :=
  between 65 90 c || between 97 122 c || between 48 57 c || is_char "." c.

(** The greedy [[A-Za-z0-9.]+]: how many characters it takes, and the rest. *)
Fixpoint greedy_class (p : ascii -> bool) (s : string) : nat * string :=
  match s with
  | EmptyString => (O, EmptyString)
  | String c rest =>
      if p c then let (n, r) := greedy_class p rest in (S n, r)
      else (O, s)
  end.

Definition newline : ascii := ascii_of_nat 10.
Definition newline_string : string := String newline EmptyString.

(** [$] without [re.MULTILINE]: the end of the string, or just before a
    newline that is the last character. *)
Definition at_dollar (rest : string) : bool :=
  match rest with
  | EmptyString => true
  | String c EmptyString => is_char newline c
  | String _ (String _ _) => false
  end.

(** [re.match(r'^[A-Za-z0-9.]+$', ticker)] is not [None].  The class never
    matches a newline, so giving characters back cannot help [$]. *)
Definition re_match_ticker (ticker : string) : bool :=
  let (n, rest) := greedy_class ticker_char ticker in
  (1 <=? n)%nat && at_dollar rest.

(** [validate_ticker]. *)
Definition validate_ticker (ticker : string) : bool :=
  match ticker with
  | EmptyString => false            (* [not ticker] *)
  | String _ _ => re_match_ticker ticker
  end.

(** The words of the ticker rule: every character is a letter, a digit or a
    dot, and there is at least one. *)
Fixpoint all_chars (p : ascii -> bool) (s : string) : bool :=
  match s with
  | EmptyString => true
  | String c rest => p c && all_chars p rest
  end.

Definition well_formed_ticker (ticker : string) : bool :=
  match ticker with
  | EmptyString => false
  | String _ _ => all_chars ticker_char ticker
  end.

End Validation.
Import Validation.

(* ================================================================== *)
(** * Numbers ([error_handling.py]) and price tables ([pandas]) *)

Module Prices.

(** A value found in a price column. *)
Inductive cell : Type :=
| Num (f : float)      (* a number; [float(value)] is [f] (NaN for a blank field) *)
| NoneValue            (* [None] *)
| Unconvertible.       (* [float(value)] raises [ValueError] or [TypeError] *)

(** [safe_float_conversion(value, default=0.0)]. *)
Definition safe_float_conversion (value : cell) (default : float) : float :=
  match value with
  | NoneValue => default
  | Num f => f
  | Unconvertible => default
  end.

(** [safe_divide(numerator, denominator, default)]. *)
Definition safe_divide (numerator denominator default : float) : float :=
  if PrimFloat.eqb denominator 0%float then default
  else PrimFloat.div numerator denominator.

(** A value found in the date column, before [pd.to_datetime]. *)
Inductive date_cell : Type :=
| Day (d : date)       (* text that [pd.to_datetime] reads as the day [d] *)
| Blank                (* a missing value: becomes [NaT] *)
| Unparseable.         (* [pd.to_datetime] raises *)

(** One line of the quote table: its date and the two columns a closing
    price can be in (whichever of them the table has). *)
Record quote : Type := mkquote
  { Data : date_cell; Close : cell; Zamkniecie : cell }.

(** The table [pd.read_csv] returns: header and lines. *)
Record DataFrame : Type := mkframe
  { columns : list string; records : list quote }.

Definition has_column (name : string) (df : DataFrame) : bool :=
  existsb (String.eqb name) (columns df).

(** [df.empty]: no line or no column. *)
Definition empty (df : DataFrame) : bool :=
  match columns df, records df with
  | [], _ => true
  | _, [] => true
  | _ :: _, _ :: _ => false
  end.

(** A line whose date went through [pd.to_datetime]: [None] is [NaT]. *)
Definition dated : Type := option date * quote.

Definition to_datetime_cell (c : date_cell) : result (option date) :=
  match c with
  | Day d => Returned (Some d)
  | Blank => Returned None
  | Unparseable => Raised (ValueError "Unknown datetime string format")
  end.

(** [df["Data"] = pd.to_datetime(df["Data"])]. *)
Fixpoint to_datetime (rows : list quote) : result (list dated) :=
  match rows with
  | [] => Returned []
  | q :: rest =>
      t <- to_datetime_cell (Data q) ;;
      ts <- to_datetime rest ;;
      Returned ((t, q) :: ts)
  end.

(** Order of the sort keys: by date, [NaT] last. *)
Definition key_leb (a b : option date) : bool :=
  match a, b with
  | Some x, Some y => date_leb x y
  | Some _, None => true
  | None, Some _ => false
  | None, None => true
  end.

Fixpoint insert_sorted (x : dated) (l : list dated) : list dated :=
  match l with
  | [] => [x]
  | y :: l' =>
      if key_leb (fst x) (fst y) then x :: y :: l'
      else y :: insert_sorted x l'
  end.

(** [df.sort_values(by="Data")]: ascending, [NaT] last.  pandas does not fix
    the order of lines of one date; here they stay in file order.  The
    properties below that speak of a sorted series hold for every series in
    ascending order of date, whatever the order among equal dates. *)
Fixpoint sort_values (l : list dated) : list dated :=
  match l with
  | [] => []
  | x :: l' => insert_sorted x (sort_values l')
  end.

(** [df[(df["Data"] >= start_date) & (df["Data"] <= end_date)]]: a
    comparison with [NaT] is false. *)
Fixpoint select_window (start_date end_date : date) (rows : list dated)
  : list (date * quote) :=
  match rows with
  | [] => []
  | (Some d, q) :: rest =>
      if date_leb start_date d && date_leb d end_date
      then (d, q) :: select_window start_date end_date rest
      else select_window start_date end_date rest
  | (None, _) :: rest => select_window start_date end_date rest
  end.

End Prices.
Import Prices.

(* ================================================================== *)
(** * Traces: log records and HTTP requests *)

Inductive level : Type := DEBUG | INFO | WARNING | ERROR.

(** The log messages of [StooqDataFetcher], one constructor per format string,
    with the values interpolated into it. *)
Inductive message : Type :=
| InvalidTickerFormat (ticker : string)
| InvalidDateFormat (date_str : string)
| FailedToParseDate (date_str : string) (e : string)
| FetchingData (ticker url : string)
| NetworkErrorWhileFetching (ticker : string) (e : string)
| DataProcessingError (ticker : string) (e : string)
| NoDataOrInvalidFormat (ticker : string)
| ErrorProcessingDateColumn (ticker : string) (e : string)
| AnalyzingPeriod (start_date end_date : date) (ticker : string)
| NoDataInPeriod (start_date end_date : date) (ticker : string)
| InvalidPrices (ticker : string) (first last : float)
| SuccessfullyCalculated (ticker : string) (return_percentage : float)
| CacheHasBeenReset.

Inductive event : Type :=
| Log (lvl : level) (msg : message)
| HttpGet (url : string).

Definition is_fetch (e : event) : bool :=
  match e with HttpGet _ => true | Log _ _ => false end.

(** Number of requests sent to the quote source in a trace. *)
Definition fetches (evs : list event) : nat := List.length (filter is_fetch evs).

(* ================================================================== *)
(** * The return computation and its cache ([main.py]) *)

Module Fetcher.

(** The four values a call returns: return in percent, first and last day of
    the selection, and the selected (date, price) records. *)
Definition ReturnTuple : Type :=
  option float * option date * option date * option (list (date * cell)).

(** [return None, None, None, None]. *)
Definition absent : ReturnTuple := (None, None, None, None).

Definition percentage (r : ReturnTuple) : option float := fst (fst (fst r)).
Definition period_start (r : ReturnTuple) : option date := snd (fst (fst r)).
Definition period_end (r : ReturnTuple) : option date := snd (fst r).
Definition historical (r : ReturnTuple) : option (list (date * cell)) := snd r.

(** What the [try] block around the request can end in. [request_exception]
    tells whether the exception raised is an instance of
    [requests.exceptions.RequestException]. *)
Inductive fetch_outcome : Type :=
| TransportFailure (request_exception : bool) (e : string)
    (* [cffi_requests.get] raised *)
| StatusFailure (request_exception : bool) (e : string)
    (* [response.raise_for_status()] raised *)
| ParserFailure (e : string)
    (* [pd.read_csv] raised *)
| Table (df : DataFrame).
    (* [pd.read_csv] returned [df] *)

(** The world a call runs in: two readings of [datetime.now()] (the one
    compared with the TTL, and the one stored on a reset), and the answer
    of the quote source to a GET of a URL. *)
Record env : Type := mkenv
  { now_checked : Z; now_stored : Z; stooq : string -> fetch_outcome }.

Definition url_of (ticker : string) : string :=
  ("https://stooq.pl/q/d/l/?s=" ++ ticker ++ "&i=d")%string.

(** Lines 125-126: [end_date] and [start_date].  Not inside a [try]. *)
Definition window (reference_date : date) : result (date * date) :=
  end_date <- sub_months_1 reference_date ;;
  a_year_before <- sub_years_1 end_date ;;
  start_date <- add_days_1 a_year_before ;;
  Returned (start_date, end_date).

(** The price column in use: ["Close"] if the table has it, else
    ["Zamkniecie"]. *)
Definition close_col (df : DataFrame) : string :=
  if has_column "Close" df then "Close" else "Zamkniecie".

Definition price_in (col : string) (q : quote) : cell :=
  if String.eqb col "Close" then Close q else Zamkniecie q.

(** [df_12m[['Data', close_col]].rename(...).to_dict('records')]. *)
Definition to_records (col : string) (df_12m : list (date * quote))
  : list (date * cell) :=
  map (fun r => (fst r, price_in col (snd r))) df_12m.

(** Lines 124-155: the return over the window before [reference_date], from
    the table sorted by date.  Nothing in the last [try] block raises on
    these values ([safe_divide] handles a zero denominator itself), so its
    [except] branch is never taken. *)
Definition return_over_window (ticker col : string) (df : list dated)
  (reference_date : date) : list event * result ReturnTuple :=
  match window reference_date with
  | Raised e => ([], Raised e)
  | Returned (start_date, end_date) =>
      let analyzing := Log DEBUG (AnalyzingPeriod start_date end_date ticker) in
      let df_12m := select_window start_date end_date df in
      match df_12m with
      | [] =>
          ([analyzing; Log WARNING (NoDataInPeriod start_date end_date ticker)],
           Returned absent)
      | first_row :: _ =>
          let last_row := last df_12m first_row in
          let first_price :=
            safe_float_conversion (price_in col (snd first_row)) 0%float in
          let last_price :=
            safe_float_conversion (price_in col (snd last_row)) 0%float in
          if PrimFloat.leb first_price 0%float || PrimFloat.leb last_price 0%float
          then ([analyzing; Log WARNING (InvalidPrices ticker first_price last_price)],
                Returned absent)
          else
            let return_percentage :=
              PrimFloat.mul
                (PrimFloat.sub (safe_divide last_price first_price 1%float) 1%float)
                100%float in
            let historical_data := to_records col df_12m in
            ([analyzing; Log INFO (SuccessfullyCalculated ticker return_percentage)],
             Returned (Some return_percentage, Some (fst first_row),
                       Some (fst last_row), Some historical_data))
      end
  end.

(** Lines 111-122: the checks on the table, the date column and the sort. *)
Definition normalize (df : DataFrame) : result (list dated) :=
  if has_column "Data" df then
    rows <- to_datetime (records df) ;;
    Returned (sort_values rows)
  else Raised (KeyError "Data").

Definition unusable (df : DataFrame) : bool :=
  empty df || (negb (has_column "Close" df) && negb (has_column "Zamkniecie" df)).

(** The body of [_get_12m_return_stooq_cached] (without the [lru_cache]). *)
Definition _get_12m_return_stooq (w : env) (ticker reference_date_str : string)
  : list event * result ReturnTuple :=
  if negb (validate_ticker ticker) then
    ([Log ERROR (InvalidTickerFormat ticker)], Returned absent)
  else if negb (validate_date_string reference_date_str) then
    ([Log ERROR (InvalidDateFormat reference_date_str)], Returned absent)
  else
    match strptime reference_date_str with
    | Raised e =>
        ([Log ERROR (FailedToParseDate reference_date_str (str_exn e))],
         Returned absent)
    | Returned reference_date =>
        let url := url_of ticker in
        let sent := [Log DEBUG (FetchingData ticker url); HttpGet url] in
        match stooq w url with
        | TransportFailure true e | StatusFailure true e =>
            (sent ++ [Log ERROR (NetworkErrorWhileFetching ticker e)],
             Returned absent)
        | TransportFailure false e | StatusFailure false e | ParserFailure e =>
            (sent ++ [Log ERROR (DataProcessingError ticker e)],
             Returned absent)
        | Table df =>
            if unusable df then
              (sent ++ [Log ERROR (NoDataOrInvalidFormat ticker)],
               Returned absent)
            else
              match normalize df with
              | Raised e =>
                  (sent ++ [Log ERROR (ErrorProcessingDateColumn ticker (str_exn e))],
                   Returned absent)
              | Returned sorted =>
                  let (evs, r) :=
                    return_over_window ticker (close_col df) sorted reference_date in
                  (sent ++ evs, r)
              end
        end
    end.

(** ** [functools.lru_cache(maxsize=32)] *)

Definition key : Type := string * string.

Definition key_eqb (a b : key) : bool :=
  String.eqb (fst a) (fst b) && String.eqb (snd a) (snd b).

Definition maxsize : nat := 32.

(** The memo table, most recently used entry first. *)
Definition memo_table : Type := list (key * ReturnTuple).

Fixpoint cache_find (k : key) (c : memo_table) : option ReturnTuple :=
  match c with
  | [] => None
  | (k', v) :: c' => if key_eqb k k' then Some v else cache_find k c'
  end.

Fixpoint cache_remove (k : key) (c : memo_table) : memo_table :=
  match c with
  | [] => []
  | (k', v) :: c' => if key_eqb k k' then c' else (k', v) :: cache_remove k c'
  end.

(** A hit makes the entry the most recently used one. *)
Definition cache_touch (k : key) (v : ReturnTuple) (c : memo_table) : memo_table :=
  (k, v) :: cache_remove k c.

(** A miss stores the new entry; a full table first drops its least recently
    used entry. *)
Definition cache_store (k : key) (v : ReturnTuple) (c : memo_table) : memo_table :=
  if (maxsize <=? List.length c)%nat then (k, v) :: removelast c
  else (k, v) :: c.

(** The wrapper [lru_cache] puts around a function of the key.  A call that
    raises stores nothing. *)
Definition lru_cache (f : key -> list event * result ReturnTuple)
  (c : memo_table) (k : key) : memo_table * list event * result ReturnTuple :=
  match cache_find k c with
  | Some v => (cache_touch k v c, [], Returned v)
  | None =>
      match f k with
      | (evs, Returned v) => (cache_store k v c, evs, Returned v)
      | (evs, Raised e) => (c, evs, Raised e)
      end
  end.

(** ** [StooqDataFetcher] *)

(** The object, with the memo table of its cached method.  Times are in
    microseconds, the resolution of [datetime] and [timedelta]. *)
Record StooqDataFetcher : Type := mkfetcher
  { CACHE_TTL : Z; last_cache_reset : Z; memo : memo_table }.

Definition hours (h : Z) : Z := h * 3600 * 1000000.

(** [StooqDataFetcher(cache_ttl_hours)] built at time [now]. *)
Definition __init__ (cache_ttl_hours : Z) (now : Z) : StooqDataFetcher :=
  mkfetcher (hours cache_ttl_hours) now [].

Definition _get_12m_return_stooq_cached (self : StooqDataFetcher) (w : env)
  (ticker reference_date_str : string)
  : StooqDataFetcher * list event * result ReturnTuple :=
  let '(c, evs, r) :=
    lru_cache (fun k => _get_12m_return_stooq w (fst k) (snd k))
              (memo self) (ticker, reference_date_str) in
  (mkfetcher (CACHE_TTL self) (last_cache_reset self) c, evs, r).

(** [cache_clear()] and the new [last_cache_reset]. *)
Definition reset (self : StooqDataFetcher) (now : Z) : StooqDataFetcher :=
  mkfetcher (CACHE_TTL self) now [].

Definition expired (self : StooqDataFetcher) (now : Z) : bool :=
  CACHE_TTL self <? now - last_cache_reset self.

(** [get_return]. *)
Definition get_return (self : StooqDataFetcher) (w : env)
  (ticker ref_date_str : string)
  : StooqDataFetcher * list event * result ReturnTuple :=
  if expired self (now_checked w) then
    let '(self', evs, r) :=
      _get_12m_return_stooq_cached (reset self (now_stored w)) w ticker ref_date_str in
    (self', Log INFO CacheHasBeenReset :: evs, r)
  else _get_12m_return_stooq_cached self w ticker ref_date_str.

(** The states the fetcher can be in: built by [__init__], then used through
    [get_return] only. *)
Inductive reachable : StooqDataFetcher -> Prop :=
| reach_init : forall cache_ttl_hours now,
    reachable (__init__ cache_ttl_hours now)
| reach_call : forall self w ticker ref_date_str self' evs r,
    reachable self ->
    get_return self w ticker ref_date_str = (self', evs, r) ->
    reachable self'.

End Fetcher.
Import Fetcher.

(* ================================================================== *)
(** * The GEM decision rule ([services/strategy_service.py]) *)

Module Strategy.

(** A value of [results_data]: a dict that has a ["return"] entry, holding a
    float or [None], or one on which [v["return"]] raises [KeyError]. *)
Inductive entry : Type :=
| Entry (ret : option float)
| NoReturnKey.

(** A dict is the list of its items in insertion order. *)
Definition results : Type := list (string * entry).

(** The four texts [calculate_gem_strategy] can return (its log records are
    not part of the model):
    - [InvestInEquity n]: "Zainwestuj w n";
    - [InvestInBond n]: "Zainwestuj w n (ochrona kapitalu)";
    - [NoEquityData]: "Brak danych do podjecia decyzji.";
    - [NoBondDataNegativeEquity]: "Brak danych dla obligacji, ale akcje
      maja ujemna stope zwrotu. Rozwaz gotowke." *)
Inductive recommendation : Type :=
| InvestInEquity (name : string)
| InvestInBond (name : string)
| NoEquityData
| NoBondDataNegativeEquity.

(** [k in names]. *)
Definition member (k : string) (names : list string) : bool :=
  existsb (String.eqb k) names.

(** [{k: v["return"] for k, v in results_data.items()
      if k in names and v["return"] is not None}].
    [v["return"]] is only evaluated for a [k] in [names]. *)
Fixpoint present_returns (names : list string) (results_data : results)
  : result (list (string * float)) :=
  match results_data with
  | [] => Returned []
  | (k, v) :: rest =>
      if member k names then
        match v with
        | NoReturnKey => Raised (KeyError "return")
        | Entry None => present_returns names rest
        | Entry (Some r) =>
            more <- present_returns names rest ;;
            Returned ((k, r) :: more)
        end
      else present_returns names rest
  end.

(** [max(d, key=d.get)] after its first item: a later item replaces the
    current one only if its value is greater ([>]). *)
Fixpoint max_from (best : string * float) (l : list (string * float))
  : string * float :=
  match l with
  | [] => best
  | x :: l' =>
      if PrimFloat.ltb (snd best) (snd x) then max_from x l'
      else max_from best l'
  end.

(** The body of the [try] block. *)
Definition gem_decision (results_data : results)
  (equity_etfs bond_etfs : list string) : result recommendation :=
  equity_returns <- present_returns equity_etfs results_data ;;
  match equity_returns with
  | [] => Returned NoEquityData
  | e :: es =>
      let best_equity := max_from e es in
      if PrimFloat.ltb 0%float (snd best_equity)
      then Returned (InvestInEquity (fst best_equity))
      else
        bond_returns <- present_returns bond_etfs results_data ;;
        match bond_returns with
        | b :: bs => Returned (InvestInBond (fst (max_from b bs)))
        | [] => Returned NoBondDataNegativeEquity
        end
  end.

(** [calculate_gem_strategy]: any exception of the body is raised again as a
    [StrategyCalculationError]. *)
Definition calculate_gem_strategy (results_data : results)
  (equity_etfs bond_etfs : list string) : result recommendation :=
  match gem_decision results_data equity_etfs bond_etfs with
  | Returned recommendation => Returned recommendation
  | Raised e =>
      Raised (StrategyCalculationError
                ("Error calculating GEM strategy: " ++ str_exn e)%string "GEM")
  end.

End Strategy.
Import Strategy.

(* ================================================================== *)
(** * The statements of the specification *)

Module Spec.

(** ** Results *)

Definition all_absent (r : ReturnTuple) : Prop :=
  percentage r = None /\ period_start r = None
  /\ period_end r = None /\ historical r = None.

Definition all_present (r : ReturnTuple) : Prop :=
  percentage r <> None /\ period_start r <> None
  /\ period_end r <> None /\ historical r <> None.

(** The four fields are present together or absent together. *)
Definition jointly (r : ReturnTuple) : Prop := all_absent r \/ all_present r.

(** ** The trailing window *)

(** A series in ascending order of date (undated lines last). *)
Definition chronological (series : list dated) : Prop :=
  StronglySorted (fun a b => key_leb (fst a) (fst b) = true) series.

Definition ascending (ds : list date) : Prop :=
  StronglySorted (fun a b => date_leb a b = true) ds.

(** The points of a series dated within [[window_start, window_end]]. *)
Definition in_period (window_start window_end : date) (p : dated) : bool :=
  match fst p with
  | Some d => date_leb window_start d && date_leb d window_end
  | None => false
  end.

Definition points_in_period (window_start window_end : date)
  (series : list dated) : list dated :=
  filter (in_period window_start window_end) series.

Definition as_dated (p : date * quote) : dated := (Some (fst p), snd p).

(** The price of a selected point, as the computation reads it. *)
Definition price_of (col : string) (p : date * quote) : float :=
  safe_float_conversion (price_in col (snd p)) 0%float.

Definition positive (f : float) : Prop := PrimFloat.ltb 0%float f = true.

(** [(lastPrice / firstPrice - 1) * 100] in binary64 arithmetic. *)
Definition percentage_return (first_price last_price : float) : float :=
  PrimFloat.mul (PrimFloat.sub (PrimFloat.div last_price first_price) 1%float)
                100%float.

(** The window rule and the return formula, for one series and one
    reference date. *)
Definition window_return_claim (ticker col : string) (series : list dated)
  (reference_date : date) : Prop :=
  let window_end := month_before reference_date in
  let window_start := day_after (year_before window_end) in
  exists evs r selected,
    return_over_window ticker col series reference_date = (evs, Returned r)
    /\ map as_dated selected = points_in_period window_start window_end series
    /\ ascending (map fst selected)
    /\ (selected = [] -> r = absent)
    /\ (forall first rest,
           selected = first :: rest ->
           positive (price_of col first) ->
           positive (price_of col (last selected first)) ->
           r = (Some (percentage_return (price_of col first)
                                        (price_of col (last selected first))),
                Some (fst first), Some (fst (last selected first)),
                Some (to_records col selected))).

(** ** The selector *)

(** A mapping of instrument names to returns, present or absent. *)
Definition returns_map : Type := list (string * option float).

Definition as_results (m : returns_map) : results :=
  map (fun kv => (fst kv, Entry (snd kv))) m.

(** The entries of [m] named in [names] whose return is present. *)
Definition present (names : list string) (m : returns_map)
  : list (string * float) :=
  flat_map (fun kv =>
              match snd kv with
              | Some r => if member (fst kv) names then [(fst kv, r)] else []
              | None => []
              end) m.

(** [best] is the maximum of [l], the first one among equals: every entry
    before it is smaller, no entry after it is greater. *)
Definition first_maximum (l : list (string * float)) (best : string * float)
  : Prop :=
  exists before after,
    l = before ++ best :: after
    /\ Forall (fun x => PrimFloat.ltb (snd x) (snd best) = true) before
    /\ Forall (fun x => PrimFloat.leb (snd x) (snd best) = true) after.

Definition selector_claim (m : returns_map) (equity_set bond_set : list string)
  : Prop :=
  let out := calculate_gem_strategy (as_results m) equity_set bond_set in
  (present equity_set m = [] -> out = Returned NoEquityData)
  /\ (present equity_set m <> [] ->
      exists best,
        first_maximum (present equity_set m) best
        /\ (PrimFloat.ltb 0%float (snd best) = true ->
            out = Returned (InvestInEquity (fst best)))
        /\ (PrimFloat.ltb 0%float (snd best) = false ->
            (present bond_set m = [] -> out = Returned NoBondDataNegativeEquity)
            /\ (present bond_set m <> [] ->
                exists best_bond,
                  first_maximum (present bond_set m) best_bond
                  /\ out = Returned (InvestInBond (fst best_bond))))).

Definition is_nan (f : float) : bool := negb (PrimFloat.eqb f f).

(** No present return is NaN. *)
Definition numeric (m : returns_map) : Prop :=
  Forall (fun kv => match snd kv with
                    | Some r => is_nan r = false
                    | None => True
                    end) m.

Definition not_nan (l : list (string * float)) : Prop :=
  Forall (fun x => is_nan (snd x) = false) l.

(** ** The cache *)

(** Two calls in a row with the same arguments, the second one within the
    TTL: same result, no request. *)
Definition idempotence_claim (self : StooqDataFetcher) (w1 w2 : env)
  (ticker ref_date_str : string) : Prop :=
  forall self1 evs1 r1 self2 evs2 r2,
    get_return self w1 ticker ref_date_str = (self1, evs1, r1) ->
    expired self1 (now_checked w2) = false ->
    get_return self1 w2 ticker ref_date_str = (self2, evs2, r2) ->
    r2 = r1 /\ fetches evs2 = 0%nat.

(** What a call leaves in a memo table that was cleared first. *)
Definition only_this_call (k : key) (r : result ReturnTuple) : memo_table :=
  match r with
  | Returned v => [(k, v)]
  | Raised _ => []
  end.

(** A call after the TTL has elapsed, for a key of the memo table: the table
    is cleared and the reset time stored first, and [n] requests are sent. *)
Definition expiry_claim (n : nat) (self : StooqDataFetcher) (w : env)
  (ticker ref_date_str : string) : Prop :=
  forall self' evs r,
    get_return self w ticker ref_date_str = (self', evs, r) ->
    last_cache_reset self' = now_stored w
    /\ memo self' = only_this_call (ticker, ref_date_str) r
    /\ fetches evs = n.

(** ** Failures of the fetch *)

Inductive failure_condition : Type :=
| NetworkError
| BadStatus
| UnparseableBody
| MissingPriceColumn
| EmptyResult.

(** The outcome of the request shows the failure condition [c]. *)
Definition shows (c : failure_condition) (o : fetch_outcome) : Prop :=
  match c with
  | NetworkError => exists b e, o = TransportFailure b e
  | BadStatus => exists b e, o = StatusFailure b e
  | UnparseableBody => exists e, o = ParserFailure e
  | MissingPriceColumn =>
      exists df, o = Table df /\ empty df = false
                 /\ has_column "Close" df = false
                 /\ has_column "Zamkniecie" df = false
  | EmptyResult => exists df, o = Table df /\ empty df = true
  end.

(** One of the five failures. *)
Definition fetch_failure (o : fetch_outcome) : bool :=
  match o with
  | Table df => unusable df
  | TransportFailure _ _ | StatusFailure _ _ | ParserFailure _ => true
  end.

(** Different failure conditions give different outcomes of the call. *)
Definition distinct_outcomes_claim : Prop :=
  forall c1 c2 w1 w2 ticker ref_date_str,
    validate_ticker ticker = true ->
    validate_date_string ref_date_str = true ->
    shows c1 (stooq w1 (url_of ticker)) ->
    shows c2 (stooq w2 (url_of ticker)) ->
    c1 <> c2 ->
    _get_12m_return_stooq w1 ticker ref_date_str
    <> _get_12m_return_stooq w2 ticker ref_date_str.

(** The error report of a failed fetch. *)
Definition failure_report (ticker : string) (o : fetch_outcome) : message :=
  match o with
  | TransportFailure true e | StatusFailure true e =>
      NetworkErrorWhileFetching ticker e
  | TransportFailure false e | StatusFailure false e | ParserFailure e =>
      DataProcessingError ticker e
  | Table _ => NoDataOrInvalidFormat ticker
  end.

(** ** Runs *)

Definition call : Type := env * key.

Definition step (self : StooqDataFetcher) (c : call) : StooqDataFetcher :=
  fst (fst (get_return self (fst c) (fst (snd c)) (snd (snd c)))).

(** The fetcher after a sequence of calls. *)
Definition run (self : StooqDataFetcher) (calls : list call) : StooqDataFetcher :=
  fold_left step calls self.

(** No call of the run finds the TTL elapsed: the table is never cleared. *)
Fixpoint no_clear (self : StooqDataFetcher) (calls : list call) : Prop :=
  match calls with
  | [] => True
  | c :: rest =>
      expired self (now_checked (fst c)) = false /\ no_clear (step self c) rest
  end.

(** A failed lookup is answered from the memo table until the table is
    cleared: after a call that returned the absent result, and any calls
    that clear nothing, a call with the same arguments within the TTL
    returns the absent result again and does no work. *)
Definition negative_caching_claim (self : StooqDataFetcher) (w1 : env)
  (calls : list call) (w2 : env) (ticker ref_date_str : string) : Prop :=
  forall self1 evs1,
    get_return self w1 ticker ref_date_str = (self1, evs1, Returned absent) ->
    no_clear self1 calls ->
    expired (run self1 calls) (now_checked w2) = false ->
    exists self2,
      get_return (run self1 calls) w2 ticker ref_date_str
      = (self2, [], Returned absent).

(** The keys of a run other than [k] are all in [others]. *)
Definition keys_among (k : key) (others : list key) (calls : list call) : Prop :=
  Forall (fun c => snd c = k \/ In (snd c) others) calls.

End Spec.
Import Spec.

(* ================================================================== *)
(** * Invariants of the memo table *)

Module Invariant.

(** [v] is something the computation returned for the key [k], in some
    world. *)
Definition computed (k : key) (v : ReturnTuple) : Prop :=
  exists w evs, _get_12m_return_stooq w (fst k) (snd k) = (evs, Returned v).

Definition memo_ok (c : memo_table) : Prop :=
  Forall (fun kv => computed (fst kv) (snd kv)) c.

Definition keys (c : memo_table) : list key := map fst c.

(** The keys used more recently than [k]. *)
Fixpoint ahead (k : key) (c : memo_table) : list key :=
  match c with
  | [] => []
  | (k', _) :: c' => if key_eqb k k' then [] else k' :: ahead k c'
  end.

(** The entry of [k] is in the table with value [v], the table has no key
    twice, and the keys used more recently than [k] are among [others]. *)
Definition kept (k : key) (v : ReturnTuple) (others : list key)
  (c : memo_table) : Prop :=
  cache_find k c = Some v /\ NoDup (keys c) /\ incl (ahead k c) others.

(** Comparison of two binary64 numbers, through their specification. *)
Definition cmp (x y : float) : option comparison :=
  SFcompare (Prim2SF x) (Prim2SF y).

End Invariant.
Import Invariant.

(* ================================================================== *)
(** * Sample data *)

Module Sample.

Definition q (y m d : Z) (close : float) : quote :=
  mkquote (Day (mkdate y m d)) (Num close) NoneValue.

(** A table as the quote source serves it. *)
Definition table : DataFrame :=
  mkframe ["Data"; "Otwarcie"; "Zamkniecie"; "Close"]
          [ q 2023 3 1 100; q 2023 1 10 90; q 2023 6 1 105;
            q 2024 2 15 110; q 2024 2 16 120 ].

(** The same table with a blank closing price on its first day in 2023. *)
Definition blank_table : DataFrame :=
  mkframe ["Data"; "Close"]
          [ mkquote (Day (mkdate 2023 3 1)) (Num nan) NoneValue;
            q 2023 6 1 105; q 2024 2 15 110 ].

(** A table with a header and no line, and one without price column. *)
Definition empty_table : DataFrame := mkframe ["Data"; "Close"] [].
Definition volume_table : DataFrame :=
  mkframe ["Data"; "Wolumen"] [ q 2023 3 1 100 ].

Definition sorted_or_nil (r : result (list dated)) : list dated :=
  match r with Returned s => s | Raised _ => [] end.

(** The table after [normalize]. *)
Definition series : list dated := sorted_or_nil (normalize table).

(** A world where the clock reads [now] and every request ends in [o]. *)
Definition world_at (now : Z) (o : fetch_outcome) : env :=
  mkenv now now (fun _ => o).

Definition world (o : fetch_outcome) : env := world_at 0 o.

(** A fetcher with a TTL of four hours, built at time 0. *)
Definition fresh : StooqDataFetcher := __init__ 4 0.

(** Calls for 32 keys, one after the other, none of them a valid ticker,
    in a world where the clock stands still. *)
Definition thirty_two_keys : list call :=
  map (fun n => (world (ParserFailure "no data"),
                 (String (ascii_of_nat (33 + n)) EmptyString, "2024-03-15")))
      (seq 0 32).

(** ["ABC"] followed by a newline. *)
Definition abc_newline : string := "ABC" ++ String newline EmptyString.

End Sample.

(* ================================================================== *)
(** * The configuration ([config.py]) *)

Module Config.

(** [TICKERS]: a dict, as the list of its items in insertion order. *)
Definition TICKERS : list (string * string) :=
  [ ("IWDA", "iwda.uk"); ("EIMI", "eimi.uk"); ("CNDX", "cndx.uk");
    ("IB01", "ib01.uk"); ("CBU0", "cbu0.uk") ].

Definition BENCHMARK_TICKER : string := "spy.us".

Definition EQUITY_ETFS : list string := ["IWDA"; "EIMI"; "CNDX"].
Definition BOND_ETFS : list string := ["IB01"; "CBU0"].

End Config.
Import Config.

(* ================================================================== *)
(** * The form and its date ([main.py], [form_get]) *)

Module Form.

(** The decimal digit [n] as a character. *)
Definition digit (n : Z) : ascii := ascii_of_nat (48 + Z.to_nat n).

Definition zero_padded_2 (n : Z) : string :=
  String (digit (n / 10)) (String (digit (n mod 10)) EmptyString).

Definition zero_padded_4 (n : Z) : string :=
  String (digit (n / 1000))
    (String (digit ((n / 100) mod 10))
       (String (digit ((n / 10) mod 10))
          (String (digit (n mod 10)) EmptyString))).

(** [d.strftime('%Y-%m-%d')].  For a year below 1000 the C library decides
    whether [%Y] is padded with zeros; it is here. *)
Definition strftime (d : date) : string :=
  (zero_padded_4 (year d) ++ "-" ++ zero_padded_2 (month d) ++ "-"
   ++ zero_padded_2 (day d))%string.

End Form.
Import Form.

(* ================================================================== *)
(** * The data service ([services/data_service.py]) *)

Module DataService.

(** ** Values and dicts *)

(** The values the dicts of the service hold: [None], a float, a text, a
    date, a list of (date, price) records. *)
Inductive pyval : Type :=
| VNone
| VFloat (f : float)
| VStr (s : string)
| VDate (d : date)
| VRecords (l : list (date * cell)).

(** A dict with text keys: the list of its items in insertion order. *)
Definition pydict : Type := list (string * pyval).

Fixpoint lookup {V : Type} (k : string) (d : list (string * V)) : option V :=
  match d with
  | [] => None
  | (k', v) :: d' => if String.eqb k k' then Some v else lookup k d'
  end.

(** [d[k] = v]: the value of an existing key is replaced where it is, a new
    key goes last. *)
Fixpoint assign {V : Type} (k : string) (v : V) (d : list (string * V))
  : list (string * V) :=
  match d with
  | [] => [(k, v)]
  | (k', v') :: d' =>
      if String.eqb k k' then (k', v) :: d' else (k', v') :: assign k v d'
  end.

(** [d.get(k)]: [None] for a missing key. *)
Definition get (k : string) (d : pydict) : pyval :=
  match lookup k d with Some v => v | None => VNone end.

(** [d.get(k, default)]. *)
Definition get_or (k : string) (default : pyval) (d : pydict) : pyval :=
  match lookup k d with Some v => v | None => default end.

(** The exceptions the service catches itself: [KeyError(k)] of [d[k]], and
    the [TypeError] of an operation applied to a value that has not got it. *)
Inductive caught : Type :=
| MissingKey (k : string)
| BadOperand (operation : string) (v : pyval).

Inductive attempt (A : Type) : Type :=
| Done (a : A)
| Failed (e : caught).

Arguments Done {A} a.
Arguments Failed {A} e.

(** [d[k]]. *)
Definition subscript (k : string) (d : pydict) : attempt pyval :=
  match lookup k d with Some v => Done v | None => Failed (MissingKey k) end.

Definition is_none (v : pyval) : bool :=
  match v with VNone => true | _ => false end.

(** [bool(v)]: what [if v] tests. *)
Definition truthy (v : pyval) : bool :=
  match v with
  | VNone => false
  | VFloat f => negb (PrimFloat.eqb f 0%float)
  | VStr s => match s with EmptyString => false | String _ _ => true end
  | VDate _ => true
  | VRecords l => match l with [] => false | _ :: _ => true end
  end.

(** [len(v)]. *)
Definition len (v : pyval) : attempt nat :=
  match v with
  | VStr s => Done (String.length s)
  | VRecords l => Done (List.length l)
  | VNone | VFloat _ | VDate _ => Failed (BadOperand "len" v)
  end.

(** [round(v, 2)]; [round_2] is [round(x, 2)] on floats, which returns a
    float for every float. *)
Definition round_value (round_2 : float -> float) (v : pyval) : attempt pyval :=
  match v with
  | VFloat f => Done (VFloat (round_2 f))
  | VNone | VStr _ | VDate _ | VRecords _ => Failed (BadOperand "round" v)
  end.

Definition of_float (x : option float) : pyval :=
  match x with Some f => VFloat f | None => VNone end.
Definition of_date (x : option date) : pyval :=
  match x with Some d => VDate d | None => VNone end.
Definition of_records (x : option (list (date * cell))) : pyval :=
  match x with Some l => VRecords l | None => VNone end.

(** ** Log records *)

Inductive service_message : Type :=
| FetchingReturnsForAllETFs (ref_date_str : string)
| ProcessingETF (name ticker : string)
| SuccessfullyProcessed (name : string) (ret : option float)
    (start_date end_date : option date)
| ErrorProcessingETF (name : string) (e : string)
| CompletedFetchingReturns (n : nat)
| FetchingBenchmarkReturn (ticker ref_date_str : string)
| BenchmarkReturn (bench_ret_rounded : float) (bench_start bench_end : option date)
| BenchmarkReturnIsNone
| ErrorFetchingBenchmarkReturn (e : string)
| PreparedChartData (n : nat)
| ProcessedForTemplate (name : string) (return_value : pyval)
| ErrorProcessingTemplateData (name : string) (e : caught)
| TemplateDataPrepared (n : nat)
| ErrorValidatingDataQuality (e : caught).

(** What a call of the service leaves in the trace: the events of the
    fetcher it uses, and its own log records. *)
Inductive service_event : Type :=
| OfFetcher (e : event)
| ServiceLog (lvl : level) (msg : service_message).

Definition sent_request (e : service_event) : bool :=
  match e with OfFetcher e' => is_fetch e' | ServiceLog _ _ => false end.

(** Number of requests sent to the quote source in a trace of the service. *)
Definition requests (evs : list service_event) : nat :=
  List.length (filter sent_request evs).

(** ** [get_all_etf_returns] *)

(** The dict [get_all_etf_returns] stores under a name is written with the
    four values of a [ReturnTuple]: here the entry is that tuple, and
    [etf_dict] is the dict. *)
Definition etf_data : Type := list (string * ReturnTuple).

Definition etf_dict (name : string) (r : ReturnTuple) : pydict :=
  [ ("ticker", VStr name);
    ("return", of_float (percentage r));
    ("start", of_date (period_start r));
    ("end", of_date (period_end r));
    ("historical_data", of_records (historical r)) ].

(** [results_data] as a dict of dicts. *)
Definition dicts (results_data : etf_data) : list (string * pydict) :=
  map (fun kv => (fst kv, etf_dict (fst kv) (snd kv))) results_data.

(** [results_data] as [calculate_gem_strategy] reads it: every entry has
    the key ["return"]. *)
Definition strategy_view (results_data : etf_data) : results :=
  map (fun kv => (fst kv, Entry (percentage (snd kv)))) results_data.

(** The loop over [TICKERS.items()].  [worlds ticker] is the world in which
    the call of [get_return] for [ticker] runs.  Any exception of the call
    is caught and the entry is the absent one. *)
Fixpoint etf_returns_loop (data_fetcher : StooqDataFetcher)
  (worlds : string -> env) (ref_date_str : string)
  (items : list (string * string)) (results : etf_data)
  : StooqDataFetcher * list service_event * etf_data :=
  match items with
  | [] => (data_fetcher, [], results)
  | (name, ticker) :: rest =>
      let '(fetcher1, evs, r) :=
        get_return data_fetcher (worlds ticker) ticker ref_date_str in
      let '(logged, entry) :=
        match r with
        | Returned v =>
            ([ServiceLog DEBUG
                (SuccessfullyProcessed name (percentage v) (period_start v)
                                       (period_end v))], v)
        | Raised e =>
            ([ServiceLog ERROR (ErrorProcessingETF name (str_exn e))], absent)
        end in
      let '(fetcher2, later, out) :=
        etf_returns_loop fetcher1 worlds ref_date_str rest
                         (assign name entry results) in
      (fetcher2,
       ServiceLog DEBUG (ProcessingETF name ticker)
         :: map OfFetcher evs ++ logged ++ later,
       out)
  end.

Definition get_all_etf_returns (data_fetcher : StooqDataFetcher)
  (worlds : string -> env) (ref_date_str : string)
  : StooqDataFetcher * list service_event * etf_data :=
  let '(fetcher', evs, results) :=
    etf_returns_loop data_fetcher worlds ref_date_str TICKERS [] in
  (fetcher',
   ServiceLog INFO (FetchingReturnsForAllETFs ref_date_str)
     :: evs ++ [ServiceLog INFO (CompletedFetchingReturns (List.length results))],
   results).

(** ** [get_benchmark_data] *)

Definition benchmark_dict (ret : pyval) (r : ReturnTuple) : pydict :=
  [ ("name", VStr "S&P 500 (SPY)");
    ("return", ret);
    ("start", of_date (period_start r));
    ("end", of_date (period_end r));
    ("historical_data", of_records (historical r)) ].

Definition get_benchmark_data (round_2 : float -> float)
  (data_fetcher : StooqDataFetcher) (w : env) (ref_date_str : string)
  : StooqDataFetcher * list service_event * pydict :=
  let '(fetcher', evs, r) :=
    get_return data_fetcher w BENCHMARK_TICKER ref_date_str in
  let before :=
    ServiceLog INFO (FetchingBenchmarkReturn BENCHMARK_TICKER ref_date_str)
      :: map OfFetcher evs in
  match r with
  | Returned v =>
      match percentage v with
      | Some bench_ret =>
          let bench_ret_rounded := round_2 bench_ret in
          (fetcher',
           before ++ [ServiceLog DEBUG
                        (BenchmarkReturn bench_ret_rounded (period_start v)
                                         (period_end v))],
           benchmark_dict (VFloat bench_ret_rounded) v)
      | None =>
          (fetcher', before ++ [ServiceLog WARNING BenchmarkReturnIsNone],
           benchmark_dict VNone v)
      end
  | Raised e =>
      (fetcher',
       before ++ [ServiceLog ERROR (ErrorFetchingBenchmarkReturn (str_exn e))],
       benchmark_dict VNone absent)
  end.

(** ** [prepare_chart_data] *)

(** A chart dataset: [{"name": ..., "data": ...}]. *)
Definition dataset : Type := pyval * pyval.

(** The datasets of the instruments: those whose ["historical_data"] is
    there and true. *)
Fixpoint etf_datasets (results_data : list (string * pydict)) : list dataset :=
  match results_data with
  | [] => []
  | (name, data) :: rest =>
      if truthy (get "historical_data" data)
      then (VStr name, get "historical_data" data) :: etf_datasets rest
      else etf_datasets rest
  end.

(** [prepare_chart_data]: not inside a [try]; [benchmark_data["name"]] raises
    [KeyError] for a benchmark with data and no name. *)
Definition prepare_chart_data (results_data : list (string * pydict))
  (benchmark_data : pydict) : list service_event * result (list dataset) :=
  let chart_data := etf_datasets results_data in
  if truthy (get "historical_data" benchmark_data) then
    match lookup "name" benchmark_data with
    | Some name =>
        let chart_data' :=
          chart_data ++ [(name, get "historical_data" benchmark_data)] in
        ([ServiceLog DEBUG (PreparedChartData (List.length chart_data'))],
         Returned chart_data')
    | None => ([], Raised (KeyError "name"))
    end
  else
    ([ServiceLog DEBUG (PreparedChartData (List.length chart_data))],
     Returned chart_data).

(** ** [prepare_template_data] *)

Definition and_then {A B : Type} (m : attempt A) (k : A -> attempt B)
  : attempt B :=
  match m with Done a => k a | Failed e => Failed e end.

(** The body of the [try] block, up to the row that is appended. *)
Definition template_row (round_2 : float -> float) (name : string)
  (data : pydict) : attempt pydict :=
  and_then (subscript "return" data) (fun ret =>
  and_then (if is_none ret then Done VNone else round_value round_2 ret)
    (fun return_value =>
  and_then (subscript "start" data) (fun start_date =>
  and_then (subscript "end" data) (fun end_date =>
  Done [ ("ticker", VStr name); ("return", return_value);
         ("start", start_date); ("end", end_date) ])))).

Definition fallback_row (name : string) : pydict :=
  [ ("ticker", VStr name); ("return", VNone); ("start", VNone); ("end", VNone) ].

Fixpoint template_rows (round_2 : float -> float)
  (results_data : list (string * pydict)) : list service_event * list pydict :=
  match results_data with
  | [] => ([], [])
  | (name, data) :: rest =>
      let (later, rows) := template_rows round_2 rest in
      match template_row round_2 name data with
      | Done row =>
          (ServiceLog DEBUG (ProcessedForTemplate name (get "return" row))
             :: later,
           row :: rows)
      | Failed e =>
          (ServiceLog ERROR (ErrorProcessingTemplateData name e) :: later,
           fallback_row name :: rows)
      end
  end.

Definition prepare_template_data (round_2 : float -> float)
  (results_data : list (string * pydict)) : list service_event * list pydict :=
  let (evs, template_data) := template_rows round_2 results_data in
  (evs ++ [ServiceLog INFO (TemplateDataPrepared (List.length template_data))],
   template_data).

(** ** [validate_data_quality] *)

Record quality : Type := mkquality
  { has_returns : bool; has_dates : bool;
    has_historical_data : bool; data_complete : bool }.

Definition validate_data_quality (data : pydict)
  : list service_event * quality :=
  let returns_there := negb (is_none (get "return" data)) in
  let dates_there :=
    negb (is_none (get "start" data)) && negb (is_none (get "end" data)) in
  let history_there :=
    if negb (is_none (get "historical_data" data))
    then match len (get_or "historical_data" (VRecords []) data) with
         | Done n => Done (0 <? n)%nat
         | Failed e => Failed e
         end
    else Done false in
  match history_there with
  | Done h =>
      ([], mkquality returns_there dates_there h
                     (returns_there && dates_there && h))
  | Failed e =>
      ([ServiceLog ERROR (ErrorValidatingDataQuality e)],
       mkquality returns_there dates_there false false)
  end.

End DataService.
Import DataService.

(* ================================================================== *)
(** * The page of a calculation ([main.py], [calculate]) *)

Module Endpoint.

(** What the page shows as [choice]. *)
Inductive choice : Type :=
| Recommended (r : recommendation)
    (* the text [calculate_gem_strategy] returned *)
| ValidationFailed (message : string)
    (* "Blad: " followed by the message of the [ValidationError] *)
| UnexpectedError.
    (* "Wystapil nieoczekiwany blad. Sprobuj ponownie pozniej." *)

(** The value of ["chart_data"]. *)
Inductive chart : Type :=
| JsonOf (chart_data : list dataset)   (* [json.dumps(chart_data, default=str)] *)
| EmptyJsonList.                       (* ["[]"] *)

(** The context given to the template [index.html]. *)
Record template_context : Type := mkcontext
  { page_results : option (list pydict);
    page_choice : option choice;
    page_benchmark : option pydict;
    page_today_date : string;
    page_chart_data : option chart }.

Inductive endpoint_message : Type :=
| ProcessingCalculationRequest (reference_date_str : string)
| InvalidDateFormatSubmitted (reference_date_str : string)
| StrategyCalculationCompleted (r : recommendation)
| TemplateDataPreparedWith (n_results n_datasets : nat)
| ValidationErrorLogged (e : string)
| UnexpectedErrorInCalculation (e : string).

Inductive endpoint_event : Type :=
| OfService (e : service_event)
| EndpointLog (lvl : level) (msg : endpoint_message).

Definition request_sent (e : endpoint_event) : bool :=
  match e with OfService e' => sent_request e' | EndpointLog _ _ => false end.

(** Number of requests sent to the quote source while a page is built. *)
Definition page_requests (evs : list endpoint_event) : nat :=
  List.length (filter request_sent evs).

(** [form_get]: the empty form, with today's date preset. *)
Definition form_get (today : date) : template_context :=
  mkcontext None None None (strftime today) None.

Definition error_page (c : choice) (reference_date_str : string) : template_context :=
  mkcontext None (Some c) None reference_date_str (Some EmptyJsonList).

(** Lines 210-226 of [calculate]: from the data fetched to the context of
    the page; an exception leads to the page of the unexpected error. *)
Definition build_page (round_2 : float -> float) (reference_date_str : string)
  (results_data : etf_data) (benchmark_result : pydict)
  : list endpoint_event * template_context :=
  match calculate_gem_strategy (strategy_view results_data)
                               EQUITY_ETFS BOND_ETFS with
  | Raised e =>
      ([EndpointLog ERROR (UnexpectedErrorInCalculation (str_exn e))],
       error_page UnexpectedError reference_date_str)
  | Returned recommended =>
      let (evs3, results_for_template) :=
        prepare_template_data round_2 (dicts results_data) in
      let completed :=
        EndpointLog INFO (StrategyCalculationCompleted recommended)
          :: map OfService evs3 in
      match prepare_chart_data (dicts results_data) benchmark_result with
      | (evs4, Raised e) =>
          (completed ++ map OfService evs4
             ++ [EndpointLog ERROR (UnexpectedErrorInCalculation (str_exn e))],
           error_page UnexpectedError reference_date_str)
      | (evs4, Returned chart_data) =>
          (completed ++ map OfService evs4
             ++ [EndpointLog INFO
                   (TemplateDataPreparedWith
                      (List.length results_for_template)
                      (List.length chart_data))],
           mkcontext (Some results_for_template)
                     (Some (Recommended recommended))
                     (Some benchmark_result) reference_date_str
                     (Some (JsonOf chart_data)))
      end
  end.

(** [calculate], up to the context it hands to the template.  The fetcher is
    the one object of the application; [worlds ticker] is the world in which
    [get_return] is called for [ticker]. *)
Definition calculate (round_2 : float -> float)
  (data_fetcher : StooqDataFetcher) (worlds : string -> env)
  (reference_date_str : string)
  : StooqDataFetcher * list endpoint_event * template_context :=
  let received :=
    EndpointLog INFO (ProcessingCalculationRequest reference_date_str) in
  if negb (validate_date_string reference_date_str) then
    (data_fetcher,
     [ received;
       EndpointLog ERROR (InvalidDateFormatSubmitted reference_date_str);
       EndpointLog ERROR (ValidationErrorLogged "Invalid date format") ],
     error_page (ValidationFailed "Invalid date format") reference_date_str)
  else
    let '(fetcher1, evs1, results_data) :=
      get_all_etf_returns data_fetcher worlds reference_date_str in
    let '(fetcher2, evs2, benchmark_result) :=
      get_benchmark_data round_2 fetcher1 (worlds BENCHMARK_TICKER)
                         reference_date_str in
    let (evs, page) :=
      build_page round_2 reference_date_str results_data benchmark_result in
    (fetcher2, received :: map OfService (evs1 ++ evs2) ++ evs, page).

End Endpoint.
Import Endpoint.

(* ================================================================== *)
(** * Properties of results *)

Module Consistency.

(** A result is the absent one, or it has all four values and a history
    that is not empty. *)
Definition well_formed (r : ReturnTuple) : Prop :=
  r = absent
  \/ exists p s e first rest,
       r = (Some p, Some s, Some e, Some (first :: rest)).

Definition has_return (r : ReturnTuple) : bool :=
  match percentage r with Some _ => true | None => false end.

(** The row of the results table for an entry of [results_data]. *)
Definition row_of (round_2 : float -> float) (name : string) (r : ReturnTuple)
  : pydict :=
  [ ("ticker", VStr name);
    ("return", of_float (option_map round_2 (percentage r)));
    ("start", of_date (period_start r));
    ("end", of_date (period_end r)) ].

(** The chart dataset of an entry of [results_data]. *)
Definition dataset_of (name : string) (r : ReturnTuple) : dataset :=
  (VStr name, of_records (historical r)).

End Consistency.
Import Consistency.

(* ================================================================== *)
(** * Examples: the model on concrete inputs *)

Example strptime_ok : strptime "2024-03-31" = Returned (mkdate 2024 3 31).
Proof. reflexivity. Qed.

Example strptime_short : strptime "2024-3-1" = Returned (mkdate 2024 3 1).
Proof. reflexivity. Qed.

Example strptime_blank_day : strptime "2024-03- 7" = Returned (mkdate 2024 3 7).
Proof. reflexivity. Qed.

Example validate_date_bad : validate_date_string "2024-13-40" = false.
Proof. reflexivity. Qed.

Example validate_date_feb30 : validate_date_string "2023-02-29" = false.
Proof. reflexivity. Qed.

Example validate_date_year0 : validate_date_string "0000-01-01" = false.
Proof. reflexivity. Qed.

Example validate_date_trailing : validate_date_string "2024-01-015" = false.
Proof. reflexivity. Qed.

Example validate_ticker_ok : validate_ticker "iwda.uk" = true.
Proof. reflexivity. Qed.

Example validate_ticker_dollar : validate_ticker "ABC$" = false.
Proof. reflexivity. Qed.

Example validate_ticker_empty : validate_ticker "" = false.
Proof. reflexivity. Qed.

Example window_of_march_31 :
  window (mkdate 2024 3 31) = Returned (mkdate 2023 3 1, mkdate 2024 2 29).
Proof. reflexivity. Qed.

Example window_of_year_one : returns (window (mkdate 1 1 15)) = false.
Proof. reflexivity. Qed.

Example return_on_sample_table :
  snd (_get_12m_return_stooq (Sample.world (Table Sample.table))
                             "spy.us" "2024-03-15")
  = Returned (Some 0x1.4000000000005p+3%float, Some (mkdate 2023 3 1),
              Some (mkdate 2024 2 15),
              Some [ (mkdate 2023 3 1, Num 100%float);
                     (mkdate 2023 6 1, Num 105%float);
                     (mkdate 2024 2 15, Num 110%float) ]).
Proof. vm_compute. reflexivity. Qed.

Example no_request_for_a_bad_date :
  _get_12m_return_stooq (Sample.world (Table Sample.table)) "spy.us" "2024-13-40"
  = ([Log ERROR (InvalidDateFormat "2024-13-40")], Returned absent).
Proof. reflexivity. Qed.

Example gem_equity :
  calculate_gem_strategy
    [("A", Entry (Some 5%float)); ("B", Entry (Some (-3)%float));
     ("C", Entry (Some 1%float))] ["A"; "B"] ["C"]
  = Returned (InvestInEquity "A").
Proof. reflexivity. Qed.

Example gem_bond :
  calculate_gem_strategy
    [("A", Entry (Some (-5)%float)); ("B", Entry (Some (-3)%float));
     ("C", Entry (Some 1%float)); ("D", Entry (Some 2%float))]
    ["A"; "B"] ["C"; "D"]
  = Returned (InvestInBond "D").
Proof. reflexivity. Qed.

Example gem_cash :
  calculate_gem_strategy [("A", Entry (Some (-1)%float))] ["A"] ["C"]
  = Returned NoBondDataNegativeEquity.
Proof. reflexivity. Qed.

Example gem_no_equity :
  calculate_gem_strategy [("C", Entry (Some 1%float)); ("A", Entry None)] ["A"] ["C"]
  = Returned NoEquityData.
Proof. reflexivity. Qed.

(* ================================================================== *)
(** * Proofs: the calendar *)

Ltac case_compare :=
  repeat match goal with
    | |- context [Z.ltb ?a ?b] => destruct (Z.ltb_spec a b)
    | |- context [Z.eqb ?a ?b] => destruct (Z.eqb_spec a b)
    | |- context [Z.leb ?a ?b] => destruct (Z.leb_spec a b)
    end.

(** The order of dates, as a proposition over the three numbers. *)
Lemma date_leb_iff (a b : date) :
  date_leb a b = true <->
  year a < year b
  \/ (year a = year b
      /\ (month a < month b \/ (month a = month b /\ day a <= day b))).
Proof.
  unfold date_leb, date_ltb, date_eqb. destruct a, b. cbn [year month day].
  case_compare; cbn [orb andb]; split; intros; try reflexivity;
    try discriminate; lia.
Qed.

Lemma date_leb_refl (a : date) : date_leb a a = true.
Proof. apply date_leb_iff. lia. Qed.

Lemma date_leb_trans (a b c : date) :
  date_leb a b = true -> date_leb b c = true -> date_leb a c = true.
Proof. rewrite !date_leb_iff. lia. Qed.

Lemma date_leb_total (a b : date) : date_leb a b = true \/ date_leb b a = true.
Proof. rewrite !date_leb_iff. lia. Qed.

Lemma date_leb_antisym (a b : date) :
  date_leb a b = true -> date_leb b a = true -> a = b.
Proof.
  rewrite !date_leb_iff. destruct a, b. cbn [year month day].
  intros. f_equal; lia.
Qed.

Lemma key_leb_trans (a b c : option date) :
  key_leb a b = true -> key_leb b c = true -> key_leb a c = true.
Proof.
  destruct a, b, c; simpl; try discriminate; auto.
  apply date_leb_trans.
Qed.

Lemma key_leb_total (a b : option date) : key_leb a b = true \/ key_leb b a = true.
Proof. destruct a, b; simpl; auto. apply date_leb_total. Qed.

Lemma make_date_valid (y m d : Z) :
  valid_date (mkdate y m d) = true -> make_date y m d = Returned (mkdate y m d).
Proof. unfold make_date. intros ->. reflexivity. Qed.

Lemma make_date_returned (y m d : Z) (t : date) :
  make_date y m d = Returned t -> t = mkdate y m d /\ valid_date t = true.
Proof.
  unfold make_date. destruct (valid_date (mkdate y m d)) eqn:E.
  - intros [= <-]. auto.
  - destruct (_ || _); [discriminate|]. destruct (_ || _); discriminate.
Qed.

Lemma make_date_raises (y m d : Z) (e : exn) :
  make_date y m d = Raised e -> exists msg, e = ValueError msg.
Proof.
  unfold make_date. destruct (valid_date _); [discriminate|].
  destruct (_ || _); [intros [= <-]; eauto|].
  destruct (_ || _); intros [= <-]; eauto.
Qed.

Lemma days_in_month_bounds (y m : Z) : 28 <= days_in_month y m <= 31.
Proof.
  unfold days_in_month.
  destruct (m =? 2); [destruct (is_leap y); lia|].
  destruct (_ || _); lia.
Qed.

Ltac unfold_valid :=
  unfold valid_date, MINYEAR, MAXYEAR in *; cbn [year month day] in *;
  rewrite ?andb_true_iff, ?Z.leb_le in *.

(** The month before a date of year 2 or later is a date. *)
Lemma month_before_valid (d : date) :
  valid_date d = true -> 1 <= year (month_before d) ->
  valid_date (month_before d) = true.
Proof.
  intros Hv Hy. unfold month_before in *. destruct d as [y m dd].
  cbn [year month day] in *.
  destruct (m - 1 <? 1) eqn:E; [apply Z.ltb_lt in E | apply Z.ltb_ge in E];
    unfold_valid;
    match goal with |- context [days_in_month ?a ?b] =>
      pose proof (days_in_month_bounds a b) end; lia.
Qed.

Lemma year_before_valid (d : date) :
  valid_date d = true -> 2 <= year d -> valid_date (year_before d) = true.
Proof.
  intros Hv Hy. unfold year_before. destruct d as [y m dd].
  cbn [year month day] in *. unfold_valid.
  pose proof (days_in_month_bounds (y - 1) m). lia.
Qed.

Lemma day_after_valid (d : date) :
  valid_date d = true -> year d < MAXYEAR -> valid_date (day_after d) = true.
Proof.
  intros Hv Hy. unfold day_after. destruct d as [y m dd].
  cbn [year month day] in *.
  destruct (dd <? days_in_month y m) eqn:E1;
    [apply Z.ltb_lt in E1 | apply Z.ltb_ge in E1].
  - unfold_valid. lia.
  - destruct (m <? 12) eqn:E2; [apply Z.ltb_lt in E2 | apply Z.ltb_ge in E2];
      unfold_valid;
      match goal with |- context [days_in_month ?a ?b] =>
        pose proof (days_in_month_bounds a b) end; lia.
Qed.

Lemma year_month_before (d : date) :
  valid_date d = true -> year (month_before d) <= year d.
Proof.
  intros Hv. unfold month_before. destruct d as [y m dd]; cbn [year month day].
  destruct (m - 1 <? 1); lia.
Qed.

(** When the window exists, and what it is: its end is the month before the
    reference date, its start the day after the year before its end. *)
Lemma window_returns (reference_date : date) :
  valid_date reference_date = true ->
  2 <= year (month_before reference_date) ->
  window reference_date
  = Returned (day_after (year_before (month_before reference_date)),
              month_before reference_date).
Proof.
  intros Hv Hy. unfold window, sub_months_1, sub_years_1, add_days_1.
  pose proof (year_month_before _ Hv) as Hle.
  assert (Hy9 : year reference_date <= 9999) by (unfold_valid; lia).
  assert (Hm : valid_date (month_before reference_date) = true)
    by (apply month_before_valid; [assumption | lia]).
  rewrite make_date_valid by (destruct (month_before reference_date); exact Hm).
  cbn [bind].
  set (e := month_before reference_date) in *.
  assert (He : mkdate (year e) (month e) (day e) = e) by (destruct e; reflexivity).
  rewrite He.
  assert (Hyb : valid_date (year_before e) = true)
    by (apply year_before_valid; assumption).
  rewrite make_date_valid by (destruct (year_before e); exact Hyb).
  cbn [bind].
  set (b := year_before e) in *.
  assert (Hb : mkdate (year b) (month b) (day b) = b) by (destruct b; reflexivity).
  rewrite Hb.
  assert (Hyear_b : year b = year e - 1) by reflexivity.
  assert (Hda : year (day_after b) <= MAXYEAR).
  { unfold day_after.
    destruct (_ <? _); cbn [year]; [unfold MAXYEAR; lia|].
    destruct (_ <? _); cbn [year]; unfold MAXYEAR; lia. }
  apply Z.ltb_ge in Hda. rewrite Hda. reflexivity.
Qed.

Lemma window_raises (reference_date : date) :
  valid_date reference_date = true ->
  year (month_before reference_date) < 2 ->
  exists msg, window reference_date = Raised (ValueError msg).
Proof.
  intros Hv Hy. unfold window, sub_months_1.
  destruct (make_date _ _ _) as [e|ex] eqn:E.
  - apply make_date_returned in E as [-> He]. cbn [bind].
    unfold sub_years_1.
    destruct (make_date _ _ _) as [b|ex] eqn:E2.
    + apply make_date_returned in E2 as [-> Hb]. exfalso.
      revert Hb. unfold year_before. cbn [year month day].
      unfold_valid. intros; lia.
    + cbn [bind]. apply make_date_raises in E2 as [msg ->]. eauto.
  - cbn [bind]. apply make_date_raises in E as [msg ->]. eauto.
Qed.
Lemma valid_date_bounds (d : date) :
  valid_date d = true ->
  1 <= year d <= 9999 /\ 1 <= month d <= 12
  /\ 1 <= day d <= days_in_month (year d) (month d).
Proof.
  unfold valid_date, MINYEAR, MAXYEAR.
  rewrite !andb_true_iff, !Z.leb_le. lia.
Qed.

(** [day_after] is the next date: it is later, and no date lies in between. *)
Lemma day_after_next (d x : date) :
  valid_date d = true -> valid_date x = true ->
  date_leb x d = false -> date_leb (day_after d) x = true.
Proof.
  intros Hd Hx Hlt.
  apply valid_date_bounds in Hd, Hx.
  assert (Hn : ~ (date_leb x d = true)) by congruence.
  rewrite date_leb_iff in Hn. apply date_leb_iff.
  unfold day_after. destruct d as [y m dd], x as [y' m' d'].
  cbn [year month day] in *.
  destruct (Z.eq_dec y' y) as [->|Hy]; [destruct (Z.eq_dec m' m) as [->|Hm]|];
    (destruct (dd <? days_in_month y m) eqn:E1;
     [apply Z.ltb_lt in E1 | apply Z.ltb_ge in E1]; cbn [year month day];
     [lia|]);
    (destruct (m <? 12) eqn:E2;
     [apply Z.ltb_lt in E2 | apply Z.ltb_ge in E2]; cbn [year month day]; lia).
Qed.

Lemma day_after_later (d : date) :
  valid_date d = true -> date_leb (day_after d) d = false.
Proof.
  intros Hd. apply valid_date_bounds in Hd.
  destruct (date_leb (day_after d) d) eqn:E; [|reflexivity].
  apply date_leb_iff in E. unfold day_after in E. destruct d as [y m dd].
  cbn [year month day] in *.
  destruct (dd <? days_in_month y m) eqn:E1;
    [apply Z.ltb_lt in E1 | apply Z.ltb_ge in E1]; cbn [year month day] in E;
    [lia|].
  destruct (m <? 12) eqn:E2;
    [apply Z.ltb_lt in E2 | apply Z.ltb_ge in E2]; cbn [year month day] in E; lia.
Qed.

(* ================================================================== *)
(** * Proofs: the order of binary64 numbers *)

Module FloatOrder.

Lemma SFcompare_antisym (x y : spec_float) :
  SFcompare y x = option_map CompOpp (SFcompare x y).
Proof.
  destruct x as [sx|sx| |sx mx ex], y as [sy|sy| |sy my ey]; cbn;
    try destruct sx; try destruct sy; try reflexivity.
  - rewrite (Z.compare_antisym ex ey).
    destruct (ex ?= ey); cbn; try reflexivity.
    change (Pos.compare_cont Eq my mx) with (Pos.compare my mx).
    change (Pos.compare_cont Eq mx my) with (Pos.compare mx my).
    rewrite (Pos.compare_antisym mx my). reflexivity.
  - rewrite (Z.compare_antisym ex ey).
    destruct (ex ?= ey); cbn; try reflexivity.
    change (Pos.compare_cont Eq my mx) with (Pos.compare my mx).
    change (Pos.compare_cont Eq mx my) with (Pos.compare mx my).
    rewrite (Pos.compare_antisym mx my). reflexivity.
Qed.

Lemma ltb_cmp (x y : float) :
  PrimFloat.ltb x y = true <-> cmp x y = Some Lt.
Proof.
  rewrite ltb_spec. unfold SFltb, cmp.
  destruct (SFcompare _ _) as [[]|]; split; congruence.
Qed.

Lemma leb_cmp (x y : float) :
  PrimFloat.leb x y = true <-> cmp x y = Some Lt \/ cmp x y = Some Eq.
Proof.
  rewrite leb_spec. unfold SFleb, cmp.
  destruct (SFcompare _ _) as [[]|]; split; intros; try tauto;
    try congruence; destruct H; congruence.
Qed.

Lemma eqb_cmp (x y : float) :
  PrimFloat.eqb x y = true <-> cmp x y = Some Eq.
Proof.
  rewrite eqb_spec. unfold SFeqb, cmp.
  destruct (SFcompare _ _) as [[]|]; split; congruence.
Qed.

Lemma cmp_antisym (x y : float) : cmp y x = option_map CompOpp (cmp x y).
Proof. apply SFcompare_antisym. Qed.

(** A number greater than [y] is neither below nor equal to [y]. *)
Lemma ltb_not_leb (x y : float) :
  PrimFloat.ltb x y = true -> PrimFloat.leb y x = false.
Proof.
  intros H. apply ltb_cmp in H.
  destruct (PrimFloat.leb y x) eqn:E; [|reflexivity].
  apply leb_cmp in E. rewrite (cmp_antisym x y), H in E. cbn in E.
  destruct E; discriminate.
Qed.

Lemma ltb_not_eqb (x y : float) :
  PrimFloat.ltb x y = true -> PrimFloat.eqb y x = false.
Proof.
  intros H. apply ltb_cmp in H.
  destruct (PrimFloat.eqb y x) eqn:E; [|reflexivity].
  apply eqb_cmp in E. rewrite (cmp_antisym x y), H in E. discriminate.
Qed.

End FloatOrder.

(* ================================================================== *)
(** * Proofs: sorting and selecting *)

Lemma insert_sorted_perm (x : dated) (l : list dated) :
  Permutation (x :: l) (insert_sorted x l).
Proof.
  induction l as [|y l IH]; cbn; [reflexivity|].
  destruct (key_leb (fst x) (fst y)); [reflexivity|].
  rewrite perm_swap. constructor. exact IH.
Qed.

Lemma sort_values_perm (l : list dated) : Permutation l (sort_values l).
Proof.
  induction l as [|x l IH]; cbn; [constructor|].
  rewrite <- insert_sorted_perm. constructor. exact IH.
Qed.

Lemma insert_sorted_chronological (x : dated) (l : list dated) :
  chronological l -> chronological (insert_sorted x l).
Proof.
  unfold chronological. induction 1 as [|y l Hs IH Hy]; cbn.
  - repeat constructor.
  - destruct (key_leb (fst x) (fst y)) eqn:E.
    + constructor; [constructor; assumption|].
      constructor; [exact E|].
      eapply Forall_impl; [|exact Hy]. cbn. intros z Hz.
      eapply key_leb_trans; eassumption.
    + constructor; [exact IH|].
      eapply Permutation_Forall; [apply insert_sorted_perm|].
      constructor; [|exact Hy].
      destruct (key_leb_total (fst x) (fst y)); congruence.
Qed.

(** [sort_values] sorts: its result is in ascending order of date and has the
    lines of its argument. *)
Lemma sort_values_chronological (l : list dated) : chronological (sort_values l).
Proof.
  induction l as [|x l IH]; cbn; [constructor|].
  apply insert_sorted_chronological, IH.
Qed.

Lemma normalize_chronological (df : DataFrame) (series : list dated) :
  normalize df = Returned series -> chronological series.
Proof.
  unfold normalize. destruct (has_column "Data" df); [|discriminate].
  destruct (to_datetime (records df)); cbn; [|discriminate].
  intros [= <-]. apply sort_values_chronological.
Qed.

(** The selection is the filter of the series by the window. *)
Lemma select_window_filter (s e : date) (series : list dated) :
  map as_dated (select_window s e series) = points_in_period s e series.
Proof.
  induction series as [|[[d|] q] l IH]; cbn; [reflexivity| |exact IH].
  unfold in_period. cbn [fst].
  destruct (date_leb s d && date_leb d e); cbn; [f_equal|]; exact IH.
Qed.

Lemma select_window_in (s e : date) (series : list dated) (d : date) (q : quote) :
  In (d, q) (select_window s e series) <->
  In (Some d, q) series /\ date_leb s d = true /\ date_leb d e = true.
Proof.
  induction series as [|[[d'|] q'] l IH]; cbn.
  - tauto.
  - destruct (date_leb s d' && date_leb d' e) eqn:E; cbn; rewrite IH.
    + apply andb_true_iff in E. split.
      * intros [[= -> ->]|H]; tauto.
      * intros [[[= -> ->]|H] H']; tauto.
    + split; [tauto|]. intros [[[= -> ->]|H] [H1 H2]]; [|tauto].
      rewrite H1, H2 in E. discriminate.
  - rewrite IH. split; [tauto|]. intros [[H|H] H']; [discriminate|tauto].
Qed.

Lemma select_window_ascending (s e : date) (series : list dated) :
  chronological series -> ascending (map fst (select_window s e series)).
Proof.
  unfold chronological, ascending.
  induction 1 as [|[[d|] q] l Hs IH Hd]; cbn; [constructor| |exact IH].
  destruct (date_leb s d && date_leb d e); cbn; [|exact IH].
  constructor; [exact IH|].
  apply Forall_forall. intros d' Hin. apply in_map_iff in Hin as [[d'' q'] [<- Hin]].
  apply select_window_in in Hin as [Hin _].
  rewrite Forall_forall in Hd. exact (Hd _ Hin).
Qed.

(* ================================================================== *)
(** * Proofs: the return over the window *)

(** The three ways the computation ends once the window exists. *)
Lemma return_over_window_cases (ticker col : string) (series : list dated)
  (reference_date start_date end_date : date) :
  window reference_date = Returned (start_date, end_date) ->
  let selected := select_window start_date end_date series in
  exists evs r,
    return_over_window ticker col series reference_date = (evs, Returned r)
    /\ match selected with
       | [] => r = absent
       | first :: _ =>
           let first_price := price_of col first in
           let last_price := price_of col (last selected first) in
           if PrimFloat.leb first_price 0%float || PrimFloat.leb last_price 0%float
           then r = absent
           else r = (Some (PrimFloat.mul
                             (PrimFloat.sub
                                (safe_divide last_price first_price 1%float)
                                1%float) 100%float),
                     Some (fst first), Some (fst (last selected first)),
                     Some (to_records col selected))
       end.
Proof.
  intros Hw selected. unfold return_over_window. rewrite Hw.
  fold selected. destruct selected as [|first rest] eqn:E.
  - eauto.
  - cbv zeta. unfold price_of.
    destruct (PrimFloat.leb _ _ || PrimFloat.leb _ _); eauto.
Qed.

Lemma safe_divide_positive (numerator denominator default : float) :
  positive denominator ->
  safe_divide numerator denominator default = PrimFloat.div numerator denominator.
Proof.
  unfold positive, safe_divide. intros H.
  rewrite (FloatOrder.ltb_not_eqb _ _ H). reflexivity.
Qed.

(** C1 (as amended).  For every price series in ascending order of date and
    every valid reference date whose window does not start before year 1
    (the month before the reference date lies in year 2 or later), the
    return computation returns; its window ends on the reference date
    shifted back one calendar month and starts on that end shifted back one
    calendar year and forward one day; it selects exactly the points dated
    within the window, bounds included, in ascending order of date; an empty
    selection gives the absent result; and with positive first and last
    prices the result carries [(lastPrice / firstPrice - 1) * 100], computed
    in binary64, the first and last selected dates and the selected
    records. *)
Theorem window_return_correct (ticker col : string) (series : list dated)
  (reference_date : date) :
  chronological series ->
  valid_date reference_date = true ->
  2 <= year (month_before reference_date) ->
  window_return_claim ticker col series reference_date.
Proof.
  intros Hs Hv Hy. unfold window_return_claim.
  pose proof (window_returns _ Hv Hy) as Hw.
  set (window_end := month_before reference_date) in *.
  set (window_start := day_after (year_before window_end)) in *.
  destruct (return_over_window_cases ticker col series _ _ _ Hw)
    as (evs & r & Hrun & Hr).
  exists evs, r, (select_window window_start window_end series).
  split; [exact Hrun|].
  split; [apply select_window_filter|].
  split; [apply select_window_ascending, Hs|].
  destruct (select_window window_start window_end series) as [|first rest] eqn:E.
  - split; [auto|]. discriminate.
  - split; [discriminate|].
    intros first' rest' [= <- <-] Hf Hl. cbv zeta in Hr.
    unfold positive in Hf, Hl.
    rewrite (FloatOrder.ltb_not_leb _ _ Hf), (FloatOrder.ltb_not_leb _ _ Hl) in Hr.
    cbn [orb] in Hr. rewrite safe_divide_positive in Hr by exact Hf.
    exact Hr.
Qed.

Lemma series_chronological : chronological Sample.series.
Proof. apply (normalize_chronological Sample.table). reflexivity. Qed.

Lemma window_return_correct_witness :
  chronological Sample.series
  /\ valid_date (mkdate 2024 3 15) = true
  /\ 2 <= year (month_before (mkdate 2024 3 15))
  /\ window_return_claim "spy.us" "Close" Sample.series (mkdate 2024 3 15).
Proof.
  split; [exact series_chronological|].
  split; [reflexivity|].
  split; [vm_compute; discriminate|].
  apply window_return_correct;
    [exact series_chronological | reflexivity | vm_compute; discriminate].
Defined.

(** C1, counterexample.  "0001-01-15" is a valid reference date, but the
    month before it is not a date: the window computation raises
    [ValueError] and no return is computed. *)
Lemma window_return_fails_in_year_one :
  validate_date_string "0001-01-15" = true
  /\ strptime "0001-01-15" = Returned (mkdate 1 1 15)
  /\ chronological Sample.series
  /\ ~ window_return_claim "spy.us" "Close" Sample.series (mkdate 1 1 15).
Proof.
  split; [reflexivity|]. split; [reflexivity|].
  split; [exact series_chronological|].
  intros (evs & r & selected & Hrun & _).
  vm_compute in Hrun. discriminate.
Qed.

(** C3 (code defect).  A table whose first line in the window has a blank
    closing price: [float] of the blank is NaN, NaN passes the guard
    [first_price <= 0 or last_price <= 0], and the call returns a present
    result although the first price of the window is not strictly
    positive. *)
Theorem nan_boundary_price_is_accepted :
  PrimFloat.ltb 0%float (safe_float_conversion (Num nan) 0%float) = false
  /\ PrimFloat.leb (safe_float_conversion (Num nan) 0%float) 0%float = false
  /\ snd (get_return Sample.fresh (Sample.world (Table Sample.blank_table))
                     "spy.us" "2024-03-15")
     = Returned (Some nan, Some (mkdate 2023 3 1), Some (mkdate 2024 2 15),
                 Some [ (mkdate 2023 3 1, Num nan);
                        (mkdate 2023 6 1, Num 105%float);
                        (mkdate 2024 2 15, Num 110%float) ]).
Proof. repeat split; vm_compute; reflexivity. Qed.

(* ================================================================== *)
(** * Proofs: what the computation returns *)

Lemma absent_jointly : jointly absent.
Proof. left. repeat split. Qed.

Lemma return_over_window_jointly (ticker col : string) (series : list dated)
  (reference_date : date) (evs : list event) (r : ReturnTuple) :
  return_over_window ticker col series reference_date = (evs, Returned r) ->
  jointly r.
Proof.
  unfold return_over_window.
  destruct (window reference_date) as [[s e]|]; [|discriminate].
  destruct (select_window s e series) as [|first rest].
  - intros [= _ <-]. apply absent_jointly.
  - destruct (PrimFloat.leb _ _ || PrimFloat.leb _ _); intros [= _ <-].
    + apply absent_jointly.
    + right. repeat split; discriminate.
Qed.

Lemma strptime_validate (s : string) (d : date) :
  strptime s = Returned d -> validate_date_string s = true.
Proof. unfold validate_date_string. intros ->. reflexivity. Qed.

Lemma validate_strptime (s : string) :
  validate_date_string s = true -> exists d, strptime s = Returned d.
Proof.
  unfold validate_date_string. destruct (strptime s); [eauto|discriminate].
Qed.

(** A parsed date is a date. *)
Lemma strptime_valid (s : string) (d : date) :
  strptime s = Returned d -> valid_date d = true.
Proof.
  unfold strptime. destruct (match_Ymd s) as [[[[Y m] dd] rest]|]; [|discriminate].
  destruct rest; [|discriminate].
  intros H. apply make_date_returned in H. tauto.
Qed.

(** [strptime] raises nothing but [ValueError]. *)
Lemma strptime_raises (s : string) (e : exn) :
  strptime s = Raised e -> exists msg, e = ValueError msg.
Proof.
  unfold strptime. destruct (match_Ymd s) as [[[[Y m] dd] rest]|].
  - destruct rest; [apply make_date_raises|intros [= <-]; eauto].
  - intros [= <-]; eauto.
Qed.

(** A key that fails validation: the absent result, one error record, no
    request. *)
Lemma rejected_without_fetch (w : env) (ticker reference_date_str : string) :
  validate_ticker ticker = false \/ validate_date_string reference_date_str = false ->
  exists msg,
    _get_12m_return_stooq w ticker reference_date_str
    = ([Log ERROR msg], Returned absent).
Proof.
  unfold _get_12m_return_stooq. intros H.
  destruct (validate_ticker ticker); cbn [negb]; [|eauto].
  destruct H as [H|H]; [discriminate|]. rewrite H. cbn [negb]. eauto.
Qed.

(** A valid key: exactly one request is sent. *)
Lemma accepted_fetches_once (w : env) (ticker reference_date_str : string) :
  validate_ticker ticker = true ->
  validate_date_string reference_date_str = true ->
  fetches (fst (_get_12m_return_stooq w ticker reference_date_str)) = 1%nat.
Proof.
  unfold _get_12m_return_stooq. intros -> Hd. rewrite Hd. cbn [negb].
  apply validate_strptime in Hd as [d ->].
  destruct (stooq w (url_of ticker)) as [[] e|[] e|e|df]; try reflexivity.
  destruct (unusable df); [reflexivity|].
  destruct (normalize df) as [sorted|ex]; [|reflexivity].
  destruct (return_over_window _ _ _ _) as [evs r] eqn:E.
  cbn [fst]. unfold fetches. cbn.
  unfold return_over_window in E.
  destruct (window d) as [[s e]|]; [|injection E as <- _; reflexivity].
  destruct (select_window s e sorted).
  - injection E as <- _. reflexivity.
  - destruct (PrimFloat.leb _ _ || PrimFloat.leb _ _); injection E as <- _;
      reflexivity.
Qed.

Lemma body_jointly (w : env) (ticker reference_date_str : string)
  (evs : list event) (r : ReturnTuple) :
  _get_12m_return_stooq w ticker reference_date_str = (evs, Returned r) ->
  jointly r.
Proof.
  unfold _get_12m_return_stooq.
  destruct (negb (validate_ticker ticker));
    [intros [= _ <-]; apply absent_jointly|].
  destruct (negb (validate_date_string reference_date_str));
    [intros [= _ <-]; apply absent_jointly|].
  destruct (strptime reference_date_str) as [d|ex];
    [|intros [= _ <-]; apply absent_jointly].
  destruct (stooq w (url_of ticker)) as [[] e|[] e|e|df];
    try (intros [= _ <-]; apply absent_jointly).
  destruct (unusable df); [intros [= _ <-]; apply absent_jointly|].
  destruct (normalize df) as [sorted|ex];
    [|intros [= _ <-]; apply absent_jointly].
  destruct (return_over_window _ _ _ _) as [evs' r'] eqn:E.
  intros [= _ ->]. eapply return_over_window_jointly, E.
Qed.

(* ================================================================== *)
(** * Proofs: the memo table *)

Lemma key_eqb_eq (a b : key) : key_eqb a b = true <-> a = b.
Proof.
  destruct a as [a1 a2], b as [b1 b2]. unfold key_eqb. cbn [fst snd].
  rewrite andb_true_iff, !String.eqb_eq. split.
  - intros [-> ->]. reflexivity.
  - intros [= -> ->]. auto.
Qed.

Lemma key_eqb_refl (k : key) : key_eqb k k = true.
Proof. apply key_eqb_eq. reflexivity. Qed.

Lemma key_eqb_neq (a b : key) : key_eqb a b = false <-> a <> b.
Proof.
  rewrite <- key_eqb_eq. destruct (key_eqb a b); split; congruence.
Qed.

Lemma cache_find_touch (k : key) (v : ReturnTuple) (c : memo_table) :
  cache_find k (cache_touch k v c) = Some v.
Proof. unfold cache_touch. cbn. rewrite key_eqb_refl. reflexivity. Qed.

Lemma cache_find_store (k : key) (v : ReturnTuple) (c : memo_table) :
  cache_find k (cache_store k v c) = Some v.
Proof.
  unfold cache_store. destruct (maxsize <=? List.length c)%nat; cbn;
    rewrite key_eqb_refl; reflexivity.
Qed.

Lemma cache_find_in (k : key) (v : ReturnTuple) (c : memo_table) :
  cache_find k c = Some v -> In (k, v) c.
Proof.
  induction c as [|[k' v'] c IH]; cbn; [discriminate|].
  destruct (key_eqb k k') eqn:E.
  - apply key_eqb_eq in E as ->. intros [= ->]. auto.
  - auto.
Qed.

Lemma cache_remove_in (k : key) (c : memo_table) (x : key * ReturnTuple) :
  In x (cache_remove k c) -> In x c.
Proof.
  induction c as [|[k' v'] c IH]; cbn; [auto|].
  destruct (key_eqb k k'); cbn; intuition.
Qed.

Lemma removelast_in {A : Type} (l : list A) (x : A) :
  In x (removelast l) -> In x l.
Proof.
  induction l as [|a l IH]; cbn; [auto|].
  destruct l as [|b l]; [contradiction|].
  intros [->|H]; [auto|]. right. apply IH, H.
Qed.

Lemma cache_store_in (k : key) (v : ReturnTuple) (c : memo_table)
  (x : key * ReturnTuple) :
  In x (cache_store k v c) -> x = (k, v) \/ In x c.
Proof.
  unfold cache_store. destruct (maxsize <=? List.length c)%nat; cbn.
  - intros [<-|H]; [auto|]. right. apply removelast_in, H.
  - intros [<-|H]; auto.
Qed.

(** After a call that returned, the key is in the table with the value
    returned. *)
Lemma lru_cache_remembers (f : key -> list event * result ReturnTuple)
  (c c' : memo_table) (k : key) (evs : list event) (v : ReturnTuple) :
  lru_cache f c k = (c', evs, Returned v) -> cache_find k c' = Some v.
Proof.
  unfold lru_cache. destruct (cache_find k c) as [v0|].
  - intros [= <- _ <-]. apply cache_find_touch.
  - destruct (f k) as [evs0 [v0|e]]; [|discriminate].
    intros [= <- _ <-]. apply cache_find_store.
Qed.

(** A hit: the stored value, no event. *)
Lemma lru_cache_hit (f : key -> list event * result ReturnTuple)
  (c : memo_table) (k : key) (v : ReturnTuple) :
  cache_find k c = Some v ->
  lru_cache f c k = (cache_touch k v c, [], Returned v).
Proof. unfold lru_cache. intros ->. reflexivity. Qed.

Lemma lru_cache_memo_ok (w : env) (c c' : memo_table) (k : key)
  (evs : list event) (r : result ReturnTuple) :
  memo_ok c ->
  lru_cache (fun k => _get_12m_return_stooq w (fst k) (snd k)) c k = (c', evs, r) ->
  memo_ok c'.
Proof.
  unfold memo_ok, lru_cache. rewrite !Forall_forall. intros Hc.
  destruct (cache_find k c) as [v|] eqn:Ef.
  - intros [= <- _ _] x [<-|Hx].
    + apply (Hc (k, v)), cache_find_in, Ef.
    + apply Hc. eapply cache_remove_in, Hx.
  - destruct (_get_12m_return_stooq w (fst k) (snd k)) as [evs0 [v|e]] eqn:Eb.
    + intros [= <- _ _] x Hx. apply cache_store_in in Hx as [->|Hx].
      * exists w, evs0. exact Eb.
      * apply Hc, Hx.
    + intros [= <- _ _]. exact Hc.
Qed.

Lemma get_return_memo_ok (self self' : StooqDataFetcher) (w : env)
  (ticker ref_date_str : string) (evs : list event) (r : result ReturnTuple) :
  memo_ok (memo self) ->
  get_return self w ticker ref_date_str = (self', evs, r) ->
  memo_ok (memo self').
Proof.
  unfold get_return, _get_12m_return_stooq_cached. intros Hc.
  destruct (expired self (now_checked w)).
  - cbn [memo reset].
    destruct (lru_cache _ _ _) as [[c' evs'] r'] eqn:E.
    intros [= <- _ _]. cbn [memo].
    eapply lru_cache_memo_ok; [|exact E]. constructor.
  - destruct (lru_cache _ _ _) as [[c' evs'] r'] eqn:E.
    intros [= <- _ _]. cbn [memo].
    eapply lru_cache_memo_ok; [exact Hc|exact E].
Qed.

(** Every value in the memo table of a reachable fetcher was returned by the
    computation for its key. *)
Lemma reachable_memo_ok (self : StooqDataFetcher) :
  reachable self -> memo_ok (memo self).
Proof.
  induction 1 as [h now|self w t d self' evs r _ IH Hcall].
  - constructor.
  - eapply get_return_memo_ok; eassumption.
Qed.

Lemma computed_jointly (k : key) (v : ReturnTuple) : computed k v -> jointly v.
Proof. intros (w & evs & H). eapply body_jointly, H. Qed.

Lemma computed_rejected (k : key) (v : ReturnTuple) :
  validate_ticker (fst k) = false \/ validate_date_string (snd k) = false ->
  computed k v -> v = absent.
Proof.
  intros Hbad (w & evs & H).
  destruct (rejected_without_fetch w _ _ Hbad) as [msg Hr].
  rewrite Hr in H. congruence.
Qed.

(** [get_return], unfolded: the memo table consulted is the stored one, or
    the empty one after a reset. *)
Lemma get_return_unfold (self : StooqDataFetcher) (w : env)
  (ticker ref_date_str : string) :
  let c := if expired self (now_checked w) then [] else memo self in
  let t := if expired self (now_checked w) then now_stored w
           else last_cache_reset self in
  let pre := if expired self (now_checked w) then [Log INFO CacheHasBeenReset]
             else [] in
  let out := lru_cache (fun k => _get_12m_return_stooq w (fst k) (snd k))
                       c (ticker, ref_date_str) in
  get_return self w ticker ref_date_str
  = (mkfetcher (CACHE_TTL self) t (fst (fst out)), pre ++ snd (fst out), snd out).
Proof.
  unfold get_return, _get_12m_return_stooq_cached.
  destruct (expired self (now_checked w)); cbn [reset memo CACHE_TTL last_cache_reset];
    destruct (lru_cache _ _ _) as [[c' evs'] r']; reflexivity.
Qed.

(** C4.  Every result returned by the return computation, and every result
    returned by [get_return] from a state the fetcher can reach, has its four
    fields present together or absent together. *)
Theorem results_are_joint (self : StooqDataFetcher) (w : env)
  (ticker ref_date_str : string) (r : ReturnTuple) :
  reachable self ->
  snd (_get_12m_return_stooq w ticker ref_date_str) = Returned r
  \/ snd (get_return self w ticker ref_date_str) = Returned r ->
  jointly r.
Proof.
  intros Hreach [H|H].
  - destruct (_get_12m_return_stooq w ticker ref_date_str) as [evs r'] eqn:E.
    cbn in H. subst r'. eapply body_jointly, E.
  - destruct (get_return self w ticker ref_date_str) as [[self' evs] r'] eqn:E.
    cbn in H. subst r'.
    pose proof (get_return_memo_ok _ _ _ _ _ _ _ (reachable_memo_ok _ Hreach) E) as Hok.
    rewrite get_return_unfold in E. cbv zeta in E.
    destruct (lru_cache _ _ _) as [[c' evs'] r'] eqn:El.
    cbn [fst snd] in E. injection E as <- _ ->.
    apply lru_cache_remembers in El. apply cache_find_in in El.
    unfold memo_ok in Hok. rewrite Forall_forall in Hok.
    apply (computed_jointly (ticker, ref_date_str)), (Hok _ El).
Qed.

Lemma results_are_joint_witness :
  reachable Sample.fresh
  /\ jointly (Some 0x1.4000000000005p+3%float, Some (mkdate 2023 3 1),
              Some (mkdate 2024 2 15),
              Some [ (mkdate 2023 3 1, Num 100%float);
                     (mkdate 2023 6 1, Num 105%float);
                     (mkdate 2024 2 15, Num 110%float) ]).
Proof.
  split; [constructor|].
  apply (results_are_joint Sample.fresh (Sample.world (Table Sample.table))
                           "spy.us" "2024-03-15");
    [constructor | right; vm_compute; reflexivity].
Defined.

(* ================================================================== *)
(** * Proofs: repeated calls and expiry *)

Lemma get_return_remembers (self self' : StooqDataFetcher) (w : env)
  (ticker ref_date_str : string) (evs : list event) (v : ReturnTuple) :
  get_return self w ticker ref_date_str = (self', evs, Returned v) ->
  cache_find (ticker, ref_date_str) (memo self') = Some v.
Proof.
  rewrite get_return_unfold. cbv zeta.
  destruct (lru_cache _ _ _) as [[c' evs'] r'] eqn:El. cbn [fst snd].
  intros [= <- _ ->]. cbn [memo]. eapply lru_cache_remembers, El.
Qed.

(** A call within the TTL for a key of the memo table: the stored value, no
    event at all. *)
Lemma get_return_hit (self : StooqDataFetcher) (w : env)
  (ticker ref_date_str : string) (v : ReturnTuple) :
  expired self (now_checked w) = false ->
  cache_find (ticker, ref_date_str) (memo self) = Some v ->
  get_return self w ticker ref_date_str
  = (mkfetcher (CACHE_TTL self) (last_cache_reset self)
               (cache_touch (ticker, ref_date_str) v (memo self)),
     [], Returned v).
Proof.
  intros He Hf. rewrite get_return_unfold. cbv zeta. rewrite He.
  rewrite (lru_cache_hit _ _ _ _ Hf). reflexivity.
Qed.

(** C5 (as amended).  If a call of [get_return] returns a result (does not
    raise), the next call with the same arguments, within the TTL, returns
    the same result without any event: no request is sent to the quote
    source. *)
Theorem second_call_served_from_memo (self self1 : StooqDataFetcher)
  (w1 w2 : env) (ticker ref_date_str : string) (evs1 : list event)
  (v : ReturnTuple) :
  get_return self w1 ticker ref_date_str = (self1, evs1, Returned v) ->
  expired self1 (now_checked w2) = false ->
  exists self2 evs2,
    get_return self1 w2 ticker ref_date_str = (self2, evs2, Returned v)
    /\ evs2 = [] /\ fetches evs2 = 0%nat.
Proof.
  intros Hcall Hfresh. apply get_return_remembers in Hcall.
  rewrite (get_return_hit _ _ _ _ _ Hfresh Hcall). eauto.
Qed.

Lemma second_call_served_from_memo_witness :
  exists self2 evs2,
    get_return (fst (fst (get_return Sample.fresh (Sample.world (Table Sample.table))
                                     "spy.us" "2024-03-15")))
               (Sample.world_at (hours 1) (ParserFailure "no data"))
               "spy.us" "2024-03-15"
    = (self2, evs2,
       Returned (Some 0x1.4000000000005p+3%float, Some (mkdate 2023 3 1),
                 Some (mkdate 2024 2 15),
                 Some [ (mkdate 2023 3 1, Num 100%float);
                        (mkdate 2023 6 1, Num 105%float);
                        (mkdate 2024 2 15, Num 110%float) ]))
    /\ evs2 = [] /\ fetches evs2 = 0%nat.
Proof.
  eapply (second_call_served_from_memo Sample.fresh _
            (Sample.world (Table Sample.table)));
    vm_compute; reflexivity.
Defined.

(** C5, counterexample.  For the valid reference date "0001-01-15" and a
    usable table, the first call sends its request and then raises (the
    window leaves the range of dates); nothing is stored, so the second
    call, within the TTL, sends a request again. *)
Lemma second_call_fetches_after_raise :
  ~ idempotence_claim Sample.fresh (Sample.world (Table Sample.table))
      (Sample.world (Table Sample.table)) "spy.us" "0001-01-15".
Proof.
  intros H.
  edestruct H as [_ Hf];
    [vm_compute; reflexivity | vm_compute; reflexivity
     | vm_compute; reflexivity |].
  vm_compute in Hf. discriminate.
Qed.

Lemma reachable_step (self : StooqDataFetcher) (c : call) :
  reachable self -> reachable (step self c).
Proof.
  intros H. unfold step.
  destruct (get_return self (fst c) (fst (snd c)) (snd (snd c)))
    as [[self' evs] r] eqn:E.
  eapply reach_call; eassumption.
Qed.

Lemma fetches_app (a b : list event) : fetches (a ++ b) = (fetches a + fetches b)%nat.
Proof. unfold fetches. rewrite filter_app, length_app. reflexivity. Qed.

(** C6 (as amended).  On a call that finds the TTL strictly exceeded, the
    memo table is cleared and [last_cache_reset] set to the time read at the
    reset before the table is consulted: after the call the table holds this
    call's entry and nothing older.  The call sends exactly one request if
    the ticker and the date string pass validation, and none if one of them
    fails it. *)
Theorem expiry_clears_first (self : StooqDataFetcher) (w : env)
  (ticker ref_date_str : string) :
  expired self (now_checked w) = true ->
  expiry_claim
    (if validate_ticker ticker && validate_date_string ref_date_str
     then 1%nat else 0%nat)
    self w ticker ref_date_str.
Proof.
  intros He self' evs r. rewrite get_return_unfold. cbv zeta. rewrite He.
  unfold lru_cache. cbn [cache_find]. cbv beta. cbn [fst snd].
  destruct (_get_12m_return_stooq w ticker ref_date_str) as [evs0 r0] eqn:Eb.
  assert (Hn : fetches evs0
               = if validate_ticker ticker && validate_date_string ref_date_str
                 then 1%nat else 0%nat).
  { destruct (validate_ticker ticker) eqn:Et; cbn [andb].
    - destruct (validate_date_string ref_date_str) eqn:Ed.
      + pose proof (accepted_fetches_once w _ _ Et Ed) as H.
        rewrite Eb in H. exact H.
      + destruct (rejected_without_fetch w ticker ref_date_str (or_intror Ed))
          as [msg Hr].
        rewrite Hr in Eb. injection Eb as <- _. reflexivity.
    - destruct (rejected_without_fetch w ticker ref_date_str (or_introl Et))
        as [msg Hr].
      rewrite Hr in Eb. injection Eb as <- _. reflexivity. }
  destruct r0 as [v|e]; cbn [fst snd]; intros [= <- <- <-]; cbn [memo last_cache_reset];
    (split; [reflexivity|]); (split; [reflexivity|]); exact Hn.
Qed.

Lemma expiry_clears_first_witness :
  expired (fst (fst (get_return Sample.fresh (Sample.world (Table Sample.table))
                                "spy.us" "2024-03-15")))
          (hours 5) = true
  /\ expiry_claim 1%nat
       (fst (fst (get_return Sample.fresh (Sample.world (Table Sample.table))
                             "spy.us" "2024-03-15")))
       (Sample.world_at (hours 5) (Table Sample.table)) "spy.us" "2024-03-15".
Proof.
  split; [reflexivity|].
  apply (expiry_clears_first _ (Sample.world_at (hours 5) (Table Sample.table))
                             "spy.us" "2024-03-15").
  reflexivity.
Defined.

(** C6, counterexample.  The key ("ABC$", "2024-01-15") is in the memo table
    (with the absent result) of a reachable fetcher; the call for it after
    the TTL has elapsed clears the table and sends no request at all. *)
Lemma expired_invalid_key_fetches_nothing :
  let cached :=
    fst (fst (get_return Sample.fresh (Sample.world (Table Sample.table))
                         "ABC$" "2024-01-15")) in
  let late := Sample.world_at (hours 5) (Table Sample.table) in
  reachable cached
  /\ cache_find ("ABC$", "2024-01-15") (memo cached) = Some absent
  /\ expired cached (now_checked late) = true
  /\ ~ expiry_claim 1%nat cached late "ABC$" "2024-01-15".
Proof.
  cbv zeta. split; [|split; [reflexivity|split; [reflexivity|]]].
  - apply (reachable_step Sample.fresh
             (Sample.world (Table Sample.table), ("ABC$", "2024-01-15"))).
    apply reach_init.
  - intros H.
    edestruct H as (_ & _ & Hf); [vm_compute; reflexivity|].
    vm_compute in Hf. discriminate.
Qed.

(* ================================================================== *)
(** * Proofs: what [validate_ticker] accepts *)

Lemma greedy_class_all (p : ascii -> bool) (s : string) :
  all_chars p s = true -> greedy_class p s = (String.length s, EmptyString).
Proof.
  induction s as [|c s IH]; cbn; [reflexivity|].
  intros H. apply andb_true_iff in H as [Hc Hs]. rewrite Hc, (IH Hs). reflexivity.
Qed.

Lemma greedy_class_app (p : ascii -> bool) (s : string) (c : ascii) (rest : string) :
  all_chars p s = true -> p c = false ->
  greedy_class p (s ++ String c rest)%string = (String.length s, String c rest).
Proof.
  intros Hs Hc. induction s as [|a s IH]; cbn.
  - rewrite Hc. reflexivity.
  - cbn in Hs. apply andb_true_iff in Hs as [Ha Hs]. rewrite Ha, (IH Hs).
    reflexivity.
Qed.

Lemma append_empty (s : string) : (s ++ EmptyString)%string = s.
Proof. induction s as [|c s IH]; cbn; [reflexivity|]. rewrite IH. reflexivity. Qed.

(** The greedy match splits a string into a prefix within the class and a
    rest that is empty or starts outside the class. *)
Lemma greedy_class_split (p : ascii -> bool) (s : string) :
  exists pre,
    s = (pre ++ snd (greedy_class p s))%string
    /\ fst (greedy_class p s) = String.length pre
    /\ all_chars p pre = true.
Proof.
  induction s as [|c s (pre & Hs & Hn & Hp)]; cbn.
  - exists EmptyString. auto.
  - destruct (p c) eqn:Ec.
    + destruct (greedy_class p s) as [n r]. cbn [fst snd] in *.
      exists (String c pre). cbn. rewrite Ec, Hp, <- Hs, Hn. auto.
    + exists EmptyString. auto.
Qed.

(** X22.  [validate_ticker] accepts the well-formed tickers (one or more
    letters, digits and dots), and the well-formed tickers followed by one
    newline, and nothing else. *)
Lemma validate_ticker_accepts (ticker : string) :
  validate_ticker ticker = true <->
  well_formed_ticker ticker = true
  \/ exists t, ticker = (t ++ newline_string)%string /\ well_formed_ticker t = true.
Proof.
  split.
  - destruct ticker as [|c s]; [discriminate|].
    unfold validate_ticker, re_match_ticker.
    destruct (greedy_class_split ticker_char (String c s)) as (pre & Hs & Hn & Hp).
    destruct (greedy_class ticker_char (String c s)) as [n r]. cbn [fst snd] in *.
    intros H. apply andb_true_iff in H as [Hpos Hr]. apply Nat.leb_le in Hpos.
    assert (Hwf : well_formed_ticker pre = true).
    { destruct pre; [cbn in Hn; lia|exact Hp]. }
    destruct r as [|a [|b r]]; cbn in Hr; try discriminate.
    + left. rewrite Hs, append_empty. exact Hwf.
    + right. exists pre. split; [|exact Hwf].
      unfold is_char, code in Hr.
      apply Nat.eqb_eq in Hr. apply (f_equal ascii_of_nat) in Hr.
      rewrite !ascii_nat_embedding in Hr. subst a. exact Hs.
  - intros [H|(t & -> & H)].
    + destruct ticker as [|c s]; [discriminate|].
      unfold validate_ticker, re_match_ticker.
      rewrite (greedy_class_all _ _ H). reflexivity.
    + destruct t as [|c s]; [discriminate|].
      change (validate_ticker (String c s ++ newline_string)%string)
        with (re_match_ticker (String c s ++ newline_string)%string).
      unfold re_match_ticker, newline_string.
      rewrite (greedy_class_app _ _ _ _ H) by reflexivity. reflexivity.
Qed.

(* ================================================================== *)
(** * Proofs: validation and failures *)

(** On an empty memo table the events of a call are those of the
    computation, after the record of the reset if there was one. *)
Lemma get_return_on_empty (self : StooqDataFetcher) (w : env)
  (ticker ref_date_str : string) :
  memo self = [] ->
  fetches (snd (fst (get_return self w ticker ref_date_str)))
  = fetches (fst (_get_12m_return_stooq w ticker ref_date_str))
  /\ snd (get_return self w ticker ref_date_str)
     = snd (_get_12m_return_stooq w ticker ref_date_str).
Proof.
  intros Hm. rewrite get_return_unfold. cbv zeta. rewrite Hm.
  assert (Hc : (if expired self (now_checked w) then [] else [])
               = ([] : memo_table)) by (destruct (expired _ _); reflexivity).
  rewrite Hc. unfold lru_cache. cbn [cache_find]. cbv beta. cbn [fst snd].
  destruct (_get_12m_return_stooq w ticker ref_date_str) as [evs [v|e]];
    cbn [fst snd]; rewrite fetches_app;
    destruct (expired self (now_checked w)); auto.
Qed.

(** C7 (code defect).  The ticker "ABC" followed by a newline is not made of
    letters, digits and dots only, yet [validate_ticker] accepts it: [$]
    matches before a final newline.  A call with it on a fresh fetcher sends
    a request to the quote source, whatever the world. *)
Theorem newline_ticker_is_fetched :
  well_formed_ticker Sample.abc_newline = false
  /\ validate_ticker Sample.abc_newline = true
  /\ forall w : env,
       fetches (snd (fst (get_return Sample.fresh w Sample.abc_newline "2024-01-15")))
       = 1%nat.
Proof.
  split; [reflexivity|]. split; [reflexivity|]. intros w.
  destruct (get_return_on_empty Sample.fresh w Sample.abc_newline "2024-01-15"
              eq_refl) as [-> _].
  apply accepted_fetches_once; reflexivity.
Qed.

(** A failed fetch: the request, one error report, the absent result. *)
Lemma failed_fetch_reported (w : env) (ticker reference_date_str : string) :
  validate_ticker ticker = true ->
  validate_date_string reference_date_str = true ->
  fetch_failure (stooq w (url_of ticker)) = true ->
  _get_12m_return_stooq w ticker reference_date_str
  = ([ Log DEBUG (FetchingData ticker (url_of ticker));
       HttpGet (url_of ticker);
       Log ERROR (failure_report ticker (stooq w (url_of ticker))) ],
     Returned absent).
Proof.
  unfold _get_12m_return_stooq. intros -> Hd. rewrite Hd. cbn [negb].
  apply validate_strptime in Hd as [d ->].
  destruct (stooq w (url_of ticker)) as [[] e|[] e|e|df];
    cbn [fetch_failure failure_report app]; try reflexivity.
  intros ->. reflexivity.
Qed.

Lemma shows_failure (c : failure_condition) (o : fetch_outcome) :
  shows c o -> fetch_failure o = true.
Proof.
  destruct c; cbn.
  - intros (b & e & ->). reflexivity.
  - intros (b & e & ->). reflexivity.
  - intros (e & ->). reflexivity.
  - intros (df & -> & _ & H1 & H2). cbn. unfold unusable.
    rewrite H1, H2. apply orb_true_r.
  - intros (df & -> & H). cbn. unfold unusable. rewrite H. reflexivity.
Qed.

(** C9 (as amended).  Each of the five fetch failure conditions (network
    error, bad status, unparseable body, missing price column, empty result)
    ends the call, after its request, with one error-level report and the
    absent result: it is reported and not fatal.  The report depends only on
    the ticker and on the kind of outcome: a network error for an exception
    that is a [RequestException], a data processing error for any other
    exception, and one and the same "no data or invalid format" for an empty
    table and for a table without price column. *)
Theorem fetch_failures_reported (c : failure_condition) (w : env)
  (ticker reference_date_str : string) :
  validate_ticker ticker = true ->
  validate_date_string reference_date_str = true ->
  shows c (stooq w (url_of ticker)) ->
  _get_12m_return_stooq w ticker reference_date_str
  = ([ Log DEBUG (FetchingData ticker (url_of ticker));
       HttpGet (url_of ticker);
       Log ERROR (failure_report ticker (stooq w (url_of ticker))) ],
     Returned absent)
  /\ (c = MissingPriceColumn \/ c = EmptyResult ->
      failure_report ticker (stooq w (url_of ticker))
      = NoDataOrInvalidFormat ticker).
Proof.
  intros Ht Hd Hs. split.
  - apply failed_fetch_reported; [assumption..|]. eapply shows_failure, Hs.
  - intros [->| ->]; cbn [shows] in Hs.
    + destruct Hs as (df & -> & _). reflexivity.
    + destruct Hs as (df & -> & _). reflexivity.
Qed.

Lemma fetch_failures_reported_witness :
  _get_12m_return_stooq (Sample.world (Table Sample.empty_table))
                        "spy.us" "2024-03-15"
  = ([ Log DEBUG (FetchingData "spy.us" (url_of "spy.us"));
       HttpGet (url_of "spy.us");
       Log ERROR (failure_report "spy.us" (Table Sample.empty_table)) ],
     Returned absent)
  /\ (EmptyResult = MissingPriceColumn \/ EmptyResult = EmptyResult ->
      failure_report "spy.us" (Table Sample.empty_table)
      = NoDataOrInvalidFormat "spy.us").
Proof.
  apply (fetch_failures_reported EmptyResult
           (Sample.world (Table Sample.empty_table)) "spy.us" "2024-03-15");
    [reflexivity | reflexivity |].
  exists Sample.empty_table. split; reflexivity.
Defined.

(** C9, counterexample.  An empty table and a table without price column
    are two of the five failure conditions, and the call ends the same way
    for both: same trace, same report, same result. *)
Lemma empty_and_missing_column_coincide : ~ distinct_outcomes_claim.
Proof.
  intros H.
  apply (H MissingPriceColumn EmptyResult
           (Sample.world (Table Sample.volume_table))
           (Sample.world (Table Sample.empty_table)) "spy.us" "2024-03-15");
    try reflexivity; try discriminate.
  - exists Sample.volume_table. repeat split.
  - exists Sample.empty_table. repeat split.
Qed.

(* ================================================================== *)
(** * Proofs: binary64 numbers other than NaN are totally ordered *)

Ltac finite_compare :=
  repeat match goal with
    | |- context [Pos.compare_cont Eq ?a ?b] =>
        change (Pos.compare_cont Eq a b) with (Pos.compare a b)
    end;
  repeat match goal with
    | |- context [Z.compare ?a ?b] => destruct (Z.compare_spec a b)
    end;
  repeat match goal with
    | |- context [Pos.compare ?a ?b] => destruct (Pos.compare_spec a b)
    end;
  cbn; intros; try discriminate; try reflexivity; try lia.

Ltac by_float_cases x y z :=
  destruct x as [?s|?s| |?s ?m ?e], y as [?s|?s| |?s ?m ?e],
           z as [?s|?s| |?s ?m ?e]; cbn;
  repeat match goal with s : bool |- _ => destruct s end;
  try discriminate; try reflexivity; auto; finite_compare.

Lemma SFcompare_lt_trans (x y z : spec_float) :
  SFcompare x y = Some Lt -> SFcompare y z = Some Lt -> SFcompare x z = Some Lt.
Proof. by_float_cases x y z. Qed.

Lemma SFcompare_eq_lt_trans (x y z : spec_float) :
  SFcompare x y = Some Eq -> SFcompare y z = Some Lt -> SFcompare x z = Some Lt.
Proof. by_float_cases x y z. Qed.

Lemma ltb_trans (x y z : float) :
  PrimFloat.ltb x y = true -> PrimFloat.ltb y z = true -> PrimFloat.ltb x z = true.
Proof. rewrite !FloatOrder.ltb_cmp. apply SFcompare_lt_trans. Qed.

Lemma leb_ltb_trans (x y z : float) :
  PrimFloat.leb x y = true -> PrimFloat.ltb y z = true -> PrimFloat.ltb x z = true.
Proof.
  rewrite FloatOrder.leb_cmp, !FloatOrder.ltb_cmp. intros [H|H].
  - apply SFcompare_lt_trans, H.
  - apply SFcompare_eq_lt_trans, H.
Qed.

Lemma not_nan_cmp (x : float) : is_nan x = false -> Prim2SF x <> S754_nan.
Proof.
  unfold is_nan. intros H. apply negb_false_iff in H.
  apply FloatOrder.eqb_cmp in H. unfold cmp in H.
  intros E. rewrite E in H. discriminate.
Qed.

Lemma SFcompare_defined (x y : spec_float) :
  x <> S754_nan -> y <> S754_nan -> exists c, SFcompare x y = Some c.
Proof.
  destruct x as [sx|sx| |sx mx ex], y as [sy|sy| |sy my ey]; cbn;
    intros; try congruence; eauto.
Qed.

(** Of two numbers, neither of them NaN, one is below or equal to the
    other. *)
Lemma leb_total (x y : float) :
  is_nan x = false -> is_nan y = false ->
  PrimFloat.ltb x y = false -> PrimFloat.leb y x = true.
Proof.
  intros Hx Hy Hlt. apply not_nan_cmp in Hx, Hy.
  apply FloatOrder.leb_cmp. rewrite (FloatOrder.cmp_antisym x y).
  assert (Hn : PrimFloat.ltb x y <> true) by congruence.
  rewrite FloatOrder.ltb_cmp in Hn. unfold cmp in *.
  destruct (SFcompare_defined _ _ Hx Hy) as [c Hc]. rewrite Hc in *.
  destruct c; cbn; auto. congruence.
Qed.

(* ================================================================== *)
(** * Proofs: the selector *)

Lemma present_returns_well_formed (names : list string) (m : returns_map) :
  present_returns names (as_results m) = Returned (present names m).
Proof.
  unfold as_results, present.
  induction m as [|[k [r|]] m IH]; cbn; [reflexivity| |].
  - destruct (member k names); cbn; rewrite IH; reflexivity.
  - destruct (member k names); exact IH.
Qed.

(** The comprehension raises only [KeyError], for an entry without
    ["return"] under a name of the list. *)
Lemma present_returns_raises (names : list string) (rs : results) (e : exn) :
  present_returns names rs = Raised e ->
  e = KeyError "return"
  /\ exists name, In (name, NoReturnKey) rs /\ member name names = true.
Proof.
  induction rs as [|[k v] rs IH]; cbn; [discriminate|].
  destruct (member k names) eqn:Em.
  - destruct v as [[r|]|].
    + destruct (present_returns names rs) as [l|e'] eqn:E; cbn; [discriminate|].
      intros [= <-]. destruct (IH eq_refl) as [-> (n & Hin & Hn)].
      split; [reflexivity|]. exists n. auto.
    + intros H. destruct (IH H) as [-> (n & Hin & Hn)].
      split; [reflexivity|]. exists n. auto.
    + intros [= <-]. split; [reflexivity|]. exists k. auto.
  - intros H. destruct (IH H) as [-> (n & Hin & Hn)].
    split; [reflexivity|]. exists n. auto.
Qed.

Lemma gem_decision_raises (rs : results) (equity_etfs bond_etfs : list string)
  (e : exn) :
  gem_decision rs equity_etfs bond_etfs = Raised e ->
  e = KeyError "return" /\ exists name, In (name, NoReturnKey) rs.
Proof.
  unfold gem_decision.
  destruct (present_returns equity_etfs rs) as [eqs|e'] eqn:E1; cbn.
  - destruct eqs as [|x xs]; [discriminate|].
    destruct (PrimFloat.ltb _ _); [discriminate|].
    destruct (present_returns bond_etfs rs) as [bs|e'] eqn:E2; cbn.
    + destruct bs; discriminate.
    + intros [= <-]. apply present_returns_raises in E2 as [-> (n & Hin & _)].
      eauto.
  - intros [= <-]. apply present_returns_raises in E1 as [-> (n & Hin & _)].
    eauto.
Qed.

(** C8.  Whatever the state reached, the world and the arguments: when the
    ticker or the date string fails validation, or the fetch ends in one of
    its failures (network error, bad status, unparseable body, missing price
    column, empty data), [get_return] returns and does not raise; what it
    returns is the absent result, unless the call sent no request and
    answered from the memo table, and it is the absent result in any case
    when validation fails.  The selector raises nothing but
    [StrategyCalculationError], and only on an input map with an entry that
    has no ["return"]; on a well-formed map it returns. *)
Theorem failures_are_absorbed (self : StooqDataFetcher) (w : env)
  (ticker ref_date_str : string) :
  reachable self ->
  validate_ticker ticker = false
  \/ validate_date_string ref_date_str = false
  \/ fetch_failure (stooq w (url_of ticker)) = true ->
  (exists self' evs v,
      get_return self w ticker ref_date_str = (self', evs, Returned v)
      /\ (v = absent
          \/ (fetches evs = 0%nat
              /\ cache_find (ticker, ref_date_str) (memo self) = Some v))
      /\ (validate_ticker ticker = false
          \/ validate_date_string ref_date_str = false ->
          v = absent /\ fetches evs = 0%nat))
  /\ (forall rs equity_etfs bond_etfs e,
         calculate_gem_strategy rs equity_etfs bond_etfs = Raised e ->
         e = StrategyCalculationError
               "Error calculating GEM strategy: 'return'" "GEM"
         /\ exists name, In (name, NoReturnKey) rs)
  /\ (forall m equity_set bond_set,
         returns (calculate_gem_strategy (as_results m) equity_set bond_set)
         = true).
Proof.
  intros Hreach Hfail. split; [|split].
  - pose proof (reachable_memo_ok _ Hreach) as Hok.
    rewrite get_return_unfold. cbv zeta.
    set (c := if expired self (now_checked w) then [] else memo self).
    assert (Hc : memo_ok c)
      by (subst c; destruct (expired _ _); [constructor|exact Hok]).
    assert (Hpre : forall evs,
               fetches ((if expired self (now_checked w)
                         then [Log INFO CacheHasBeenReset] else []) ++ evs)
               = fetches evs)
      by (intros evs; destruct (expired _ _); reflexivity).
    unfold lru_cache.
    destruct (cache_find (ticker, ref_date_str) c) as [v|] eqn:Ef.
    + (* answered from the memo table *)
      cbn [fst snd]. do 3 eexists. split; [reflexivity|].
      assert (Hv : validate_ticker ticker = false
                   \/ validate_date_string ref_date_str = false -> v = absent).
      { intros Hbad. apply (computed_rejected (ticker, ref_date_str)); [exact Hbad|].
        unfold memo_ok in Hc. rewrite Forall_forall in Hc.
        apply (Hc (ticker, ref_date_str, v)), cache_find_in, Ef. }
      split.
      * right. split; [apply Hpre|].
        subst c. destruct (expired self (now_checked w)); [discriminate|exact Ef].
      * intros Hbad. split; [auto|apply Hpre].
    + (* computed *)
      cbv beta. cbn [fst snd].
      destruct (validate_ticker ticker) eqn:Et;
        [destruct (validate_date_string ref_date_str) eqn:Ed|].
      * destruct Hfail as [H|[H|H]]; try discriminate.
        rewrite (failed_fetch_reported w _ _ Et Ed H). cbn [fst snd].
        do 3 eexists. split; [reflexivity|]. split; [auto|].
        intros [?|?]; discriminate.
      * destruct (rejected_without_fetch w ticker ref_date_str (or_intror Ed))
          as [msg ->].
        cbn [fst snd]. do 3 eexists. split; [reflexivity|]. split; [auto|].
        intros _. split; [reflexivity|apply Hpre].
      * destruct (rejected_without_fetch w ticker ref_date_str (or_introl Et))
          as [msg ->].
        cbn [fst snd]. do 3 eexists. split; [reflexivity|]. split; [auto|].
        intros _. split; [reflexivity|apply Hpre].
  - intros rs eq_ bonds e. unfold calculate_gem_strategy.
    destruct (gem_decision rs eq_ bonds) as [r|e'] eqn:E; [discriminate|].
    apply gem_decision_raises in E as [-> Hin]. intros [= <-]. auto.
  - intros m eq_ bonds. unfold calculate_gem_strategy, gem_decision.
    rewrite present_returns_well_formed. cbn [bind].
    destruct (present eq_ m) as [|x xs]; [reflexivity|].
    destruct (PrimFloat.ltb _ _); [reflexivity|].
    rewrite present_returns_well_formed. cbn [bind].
    destruct (present bonds m); reflexivity.
Qed.

Lemma failures_are_absorbed_witness :
  reachable Sample.fresh
  /\ fetch_failure (TransportFailure true "timed out") = true
  /\ exists self' evs v,
       get_return Sample.fresh (Sample.world (TransportFailure true "timed out"))
                  "spy.us" "2024-03-15"
       = (self', evs, Returned v)
       /\ (v = absent
           \/ (fetches evs = 0%nat
               /\ cache_find ("spy.us", "2024-03-15") (memo Sample.fresh) = Some v))
       /\ (validate_ticker "spy.us" = false
           \/ validate_date_string "2024-03-15" = false ->
           v = absent /\ fetches evs = 0%nat).
Proof.
  split; [constructor|]. split; [reflexivity|].
  apply (failures_are_absorbed Sample.fresh
           (Sample.world (TransportFailure true "timed out"))
           "spy.us" "2024-03-15");
    [constructor | right; right; reflexivity].
Defined.

(* ------------------------------------------------------------------ *)

(** On numbers, [max_from] finds the maximum, the first one among equals. *)
Lemma max_from_first_maximum (l before between : list (string * float))
  (best : string * float) :
  not_nan (best :: between ++ l) ->
  Forall (fun x => PrimFloat.ltb (snd x) (snd best) = true) before ->
  Forall (fun x => PrimFloat.leb (snd x) (snd best) = true) between ->
  first_maximum (before ++ best :: between ++ l) (max_from best l).
Proof.
  revert before between best.
  induction l as [|x l IH]; intros before between best Hn Hb Hm; cbn [max_from].
  - exists before, between. rewrite app_nil_r. auto.
  - unfold not_nan in Hn.
    assert (Hbest : is_nan (snd best) = false) by (inversion Hn; assumption).
    assert (Hx : is_nan (snd x) = false).
    { rewrite Forall_forall in Hn. apply Hn. right. apply in_or_app. right.
      left. reflexivity. }
    destruct (PrimFloat.ltb (snd best) (snd x)) eqn:E.
    + specialize (IH (before ++ best :: between) [] x).
      cbn [app] in IH. rewrite <- app_assoc in IH. cbn [app] in IH.
      apply IH.
      * inversion Hn as [|? ? _ Hrest]; subst.
        apply Forall_app in Hrest as [_ Hrest]. exact Hrest.
      * apply Forall_app. split.
        -- eapply Forall_impl; [|exact Hb]. cbn. intros y Hy.
           eapply ltb_trans; eassumption.
        -- constructor; [exact E|].
           eapply Forall_impl; [|exact Hm]. cbn. intros y Hy.
           eapply leb_ltb_trans; eassumption.
      * constructor.
    + specialize (IH before (between ++ [x]) best).
      rewrite <- app_assoc in IH. cbn [app] in IH.
      apply IH.
      * exact Hn.
      * exact Hb.
      * apply Forall_app. split; [exact Hm|].
        constructor; [|constructor].
        apply leb_total; assumption.
Qed.

Lemma max_from_maximum (l : list (string * float)) (x : string * float) :
  not_nan (x :: l) -> first_maximum (x :: l) (max_from x l).
Proof.
  intros H. apply (max_from_first_maximum l [] [] x); [exact H|constructor..].
Qed.

Lemma present_not_nan (names : list string) (m : returns_map) :
  numeric m -> not_nan (present names m).
Proof.
  unfold numeric, not_nan, present.
  induction 1 as [|[k [r|]] m Hk Hm IH]; cbn; [constructor| |exact IH].
  destruct (member k names); cbn; [constructor; assumption|exact IH].
Qed.

(** C2 (as amended).  For every mapping of instrument names to returns in
    which no present return is NaN, and every equity set and bond set: if no
    equity-set entry has a present return the selector returns the
    no-equity-data outcome, whatever the bond data; otherwise, with the
    maximum present equity return (the first one among equals), it
    recommends that equity if its return is strictly greater than 0, and
    otherwise the bond-set entry with the maximum present return if there is
    one, and the no-bond-data-negative-equity outcome if there is none. *)
Theorem selector_correct (m : returns_map) (equity_set bond_set : list string) :
  numeric m -> selector_claim m equity_set bond_set.
Proof.
  intros Hnum. unfold selector_claim, calculate_gem_strategy, gem_decision.
  rewrite !present_returns_well_formed. cbn [bind].
  pose proof (present_not_nan equity_set m Hnum) as Heq.
  pose proof (present_not_nan bond_set m Hnum) as Hbond.
  destruct (present equity_set m) as [|e es].
  - split; [reflexivity|]. intros H. contradiction H. reflexivity.
  - split; [discriminate|]. intros _.
    exists (max_from e es). split; [apply max_from_maximum, Heq|].
    destruct (PrimFloat.ltb 0 (snd (max_from e es))) eqn:E.
    + split; [reflexivity|discriminate].
    + split; [discriminate|]. intros _.
      destruct (present bond_set m) as [|b bs].
      * split; [reflexivity|]. intros H. contradiction H. reflexivity.
      * split; [discriminate|]. intros _.
        exists (max_from b bs). split; [apply max_from_maximum, Hbond|reflexivity].
Qed.

Lemma selector_correct_witness :
  numeric [("A", Some (-5)%float); ("B", Some (-3)%float);
           ("C", Some 1%float); ("D", Some 2%float)]
  /\ selector_claim [("A", Some (-5)%float); ("B", Some (-3)%float);
                     ("C", Some 1%float); ("D", Some 2%float)]
                    ["A"; "B"] ["C"; "D"].
Proof.
  assert (H : numeric [("A", Some (-5)%float); ("B", Some (-3)%float);
                       ("C", Some 1%float); ("D", Some 2%float)])
    by (repeat constructor).
  split; [exact H|]. apply selector_correct. exact H.
Defined.

(** C2, counterexample.  Equity returns A: NaN, B: 5.0 and no bond data.
    [max] keeps A, since [5.0 > NaN] is false; [NaN > 0] is false as well, so
    the selector answers "no bond data, negative equity" although B has a
    present return of 5.  No entry of the equity returns is their maximum in
    the sense of the claim, and the claim fails. *)
Lemma selector_misled_by_nan :
  calculate_gem_strategy
    (as_results [("A", Some nan); ("B", Some 5%float)]) ["A"; "B"] ["C"]
  = Returned NoBondDataNegativeEquity
  /\ ~ selector_claim [("A", Some nan); ("B", Some 5%float)] ["A"; "B"] ["C"].
Proof.
  split; [reflexivity|].
  intros [_ H]. destruct H as (best & (before & after & Hl & Hb & Ha) & _).
  { discriminate. }
  cbn in Hl.
  destruct before as [|x [|y before]]; cbn in Hl.
  - injection Hl as <- <-. inversion Ha as [|? ? H5 _]; subst.
    vm_compute in H5. discriminate.
  - injection Hl as <- <- <-. inversion Hb as [|? ? Hn _]; subst.
    vm_compute in Hn. discriminate.
  - injection Hl as _ _ Hl. destruct before; discriminate.
Qed.

(* ================================================================== *)
(** * Proofs: least-recently-used eviction *)

Lemma cache_find_none (k : key) (c : memo_table) :
  cache_find k c = None -> ~ In k (keys c).
Proof.
  induction c as [|[k' v'] c IH]; cbn; [auto|].
  destruct (key_eqb k k') eqn:E; [discriminate|].
  apply key_eqb_neq in E. intros H [Hk|Hk]; [congruence|]. exact (IH H Hk).
Qed.

Lemma keys_cache_remove_in (k k' : key) (c : memo_table) :
  In k (keys (cache_remove k' c)) -> In k (keys c).
Proof.
  unfold keys. rewrite !in_map_iff. intros ([k0 v0] & <- & H).
  exists (k0, v0). split; [reflexivity|]. eapply cache_remove_in, H.
Qed.

Lemma cache_remove_nodup (k' : key) (c : memo_table) :
  NoDup (keys c) ->
  NoDup (keys (cache_remove k' c)) /\ ~ In k' (keys (cache_remove k' c)).
Proof.
  induction c as [|[k0 v0] c IH]; cbn.
  - intros _. split; [constructor|auto].
  - intros H. inversion H as [|? ? Hnotin Hnd]; subst.
    destruct (key_eqb k' k0) eqn:E.
    + apply key_eqb_eq in E as ->. auto.
    + apply key_eqb_neq in E. destruct (IH Hnd) as [H1 H2]. cbn. split.
      * constructor; [|exact H1]. intros Hin. apply Hnotin.
        eapply keys_cache_remove_in, Hin.
      * intros [Hk|Hk]; [congruence|auto].
Qed.

Lemma cache_find_remove_other (k k' : key) (c : memo_table) :
  k <> k' -> cache_find k (cache_remove k' c) = cache_find k c.
Proof.
  intros Hne. induction c as [|[k0 v0] c IH]; cbn; [reflexivity|].
  destruct (key_eqb k' k0) eqn:E.
  - apply key_eqb_eq in E as <-.
    assert (key_eqb k k' = false) as -> by (apply key_eqb_neq, Hne).
    reflexivity.
  - cbn. destruct (key_eqb k k0); [reflexivity|exact IH].
Qed.

Lemma ahead_remove_other (k k' : key) (c : memo_table) :
  k <> k' -> incl (ahead k (cache_remove k' c)) (ahead k c).
Proof.
  intros Hne. induction c as [|[k0 v0] c IH]; cbn; [apply incl_refl|].
  destruct (key_eqb k' k0) eqn:E.
  - apply key_eqb_eq in E as <-.
    assert (key_eqb k k' = false) as -> by (apply key_eqb_neq, Hne).
    apply incl_tl, incl_refl.
  - cbn. destruct (key_eqb k k0); [apply incl_refl|].
    apply incl_cons; [left; reflexivity|apply incl_tl, IH].
Qed.

Lemma ahead_keys (k : key) (c : memo_table) : incl (ahead k c) (keys c).
Proof.
  induction c as [|[k0 v0] c IH]; cbn; [apply incl_refl|].
  destruct (key_eqb k k0); [intros x []|].
  apply incl_cons; [left; reflexivity|apply incl_tl, IH].
Qed.

Lemma ahead_nodup (k : key) (c : memo_table) :
  NoDup (keys c) -> NoDup (ahead k c).
Proof.
  induction c as [|[k0 v0] c IH]; cbn; [auto|].
  intros H. inversion H as [|? ? Hnotin Hnd]; subst.
  destruct (key_eqb k k0); [constructor|].
  constructor; [|apply IH, Hnd]. intros Hin. apply Hnotin, (ahead_keys k c), Hin.
Qed.

(** Dropping the last entry does not touch an entry that is not the last. *)
Lemma removelast_keeps (k : key) (v : ReturnTuple) (c : memo_table) :
  cache_find k c = Some v ->
  (List.length (ahead k c) + 1 < List.length c)%nat ->
  cache_find k (removelast c) = Some v /\ ahead k (removelast c) = ahead k c.
Proof.
  induction c as [|[k0 v0] c IH]; [discriminate|].
  destruct c as [|x c'].
  - cbn. intros _ H. destruct (key_eqb k k0); cbn in H; lia.
  - remember (x :: c') as tl eqn:Etl.
    assert (Hr : removelast ((k0, v0) :: tl) = (k0, v0) :: removelast tl)
      by (subst tl; reflexivity).
    rewrite Hr. cbn [cache_find ahead List.length].
    destruct (key_eqb k k0); [auto|].
    intros Hf Hlen. cbn [List.length] in Hlen.
    destruct IH as [H1 H2]; [exact Hf|lia|].
    rewrite H1, H2. auto.
Qed.

Lemma keys_removelast (c : memo_table) : keys (removelast c) = removelast (keys c).
Proof.
  unfold keys. induction c as [|x c IH]; [reflexivity|].
  destruct c as [|y c]; [reflexivity|].
  cbn [removelast map] in *. rewrite IH. reflexivity.
Qed.

Lemma removelast_nodup {A : Type} (l : list A) : NoDup l -> NoDup (removelast l).
Proof.
  induction l as [|a l IH]; [auto|].
  intros H. inversion H as [|? ? Hnotin Hnd]; subst.
  destruct l as [|b l]; [constructor|].
  cbn [removelast]. constructor; [|apply IH, Hnd].
  intros Hin. apply Hnotin. apply removelast_in. exact Hin.
Qed.

(** What a call through [lru_cache] makes of the table. *)
Lemma lru_cache_table (f : key -> list event * result ReturnTuple)
  (c : memo_table) (k : key) :
  let c' := fst (fst (lru_cache f c k)) in
  (exists v, cache_find k c = Some v /\ c' = cache_touch k v c)
  \/ (cache_find k c = None
      /\ ((exists v, c' = cache_store k v c) \/ c' = c)).
Proof.
  unfold lru_cache. destruct (cache_find k c) as [v|] eqn:E.
  - left. eauto.
  - right. split; [reflexivity|].
    destruct (f k) as [evs [v|e]]; cbn; eauto.
Qed.

Lemma cache_store_nodup (k : key) (v : ReturnTuple) (c : memo_table) :
  NoDup (keys c) -> ~ In k (keys c) -> NoDup (keys (cache_store k v c)).
Proof.
  intros Hnd Hnotin. unfold cache_store.
  destruct (maxsize <=? List.length c)%nat; cbn; constructor; try assumption.
  - rewrite keys_removelast. intros Hin. apply Hnotin, removelast_in, Hin.
  - rewrite keys_removelast. apply removelast_nodup, Hnd.
Qed.

Lemma lru_cache_nodup (f : key -> list event * result ReturnTuple)
  (c : memo_table) (k : key) :
  NoDup (keys c) -> NoDup (keys (fst (fst (lru_cache f c k)))).
Proof.
  intros Hnd.
  destruct (lru_cache_table f c k) as [(v & Hf & ->)|(Hf & [(v & ->)| ->])].
  - unfold cache_touch. cbn. destruct (cache_remove_nodup k c Hnd).
    constructor; assumption.
  - apply cache_store_nodup; [exact Hnd|apply cache_find_none, Hf].
  - exact Hnd.
Qed.

Lemma step_memo (self : StooqDataFetcher) (c : call) :
  memo (step self c)
  = fst (fst (lru_cache (fun k => _get_12m_return_stooq (fst c) (fst k) (snd k))
                        (if expired self (now_checked (fst c)) then []
                         else memo self)
                        (snd c))).
Proof.
  unfold step. rewrite get_return_unfold. cbv zeta. cbn [fst memo].
  destruct (snd c). reflexivity.
Qed.

Lemma reachable_nodup (self : StooqDataFetcher) :
  reachable self -> NoDup (keys (memo self)).
Proof.
  induction 1 as [h now|self w t d self' evs r _ IH Hcall].
  - constructor.
  - assert (Hs : self' = step self (w, (t, d)))
      by (unfold step; cbn [fst snd]; rewrite Hcall; reflexivity).
    rewrite Hs, step_memo. apply lru_cache_nodup.
    destruct (expired _ _); [constructor|exact IH].
Qed.

(** One call for [k] or for a key among [others], without a reset, keeps the
    entry of [k], provided [others] has at most 31 keys. *)
Lemma lru_cache_keeps (f : key -> list event * result ReturnTuple)
  (c : memo_table) (k k' : key) (v : ReturnTuple) (others : list key) :
  (List.length others <= 31)%nat ->
  k' = k \/ In k' others ->
  kept k v others c ->
  kept k v others (fst (fst (lru_cache f c k'))).
Proof.
  intros Hlen Hk' (Hfind & Hnd & Hahead). unfold kept.
  split; [|split; [apply lru_cache_nodup, Hnd|]].
  - (* the entry is still there *)
    destruct (lru_cache_table f c k') as [(v' & Hf & ->)|(Hf & [(v' & ->)| ->])].
    + unfold cache_touch. cbn. destruct (key_eqb k k') eqn:E.
      * apply key_eqb_eq in E as <-. congruence.
      * apply key_eqb_neq in E. rewrite cache_find_remove_other; assumption.
    + assert (Hne : k <> k') by congruence.
      assert (Hin : In k' others) by (destruct Hk'; congruence).
      unfold cache_store. destruct (maxsize <=? List.length c)%nat eqn:Efull; cbn;
        (assert (key_eqb k k' = false) as -> by (apply key_eqb_neq, Hne));
        [|exact Hfind].
      apply removelast_keeps; [exact Hfind|].
      apply Nat.leb_le in Efull. unfold maxsize in Efull.
      assert (Hshort : (List.length (k' :: ahead k c) <= List.length others)%nat).
      { apply NoDup_incl_length.
        - constructor; [|apply ahead_nodup, Hnd].
          intros Hx. apply (cache_find_none _ _ Hf), (ahead_keys k c), Hx.
        - apply incl_cons; assumption. }
      cbn [List.length] in Hshort. lia.
    + exact Hfind.
  - (* the keys ahead of it are among the others *)
    destruct (lru_cache_table f c k') as [(v' & Hf & ->)|(Hf & [(v' & ->)| ->])].
    + unfold cache_touch. cbn. destruct (key_eqb k k') eqn:E; [intros x []|].
      apply key_eqb_neq in E.
      apply incl_cons; [destruct Hk'; congruence|].
      eapply incl_tran; [apply ahead_remove_other, E|exact Hahead].
    + assert (Hne : k <> k') by congruence.
      assert (Hin : In k' others) by (destruct Hk'; congruence).
      unfold cache_store. destruct (maxsize <=? List.length c)%nat eqn:Efull; cbn;
        (assert (key_eqb k k' = false) as -> by (apply key_eqb_neq, Hne));
        [|apply incl_cons; assumption].
      apply incl_cons; [exact Hin|].
      assert (Hkeep : ahead k (removelast c) = ahead k c).
      { apply (removelast_keeps k v c Hfind).
        apply Nat.leb_le in Efull. unfold maxsize in Efull.
        assert (Hshort : (List.length (k' :: ahead k c) <= List.length others)%nat).
        { apply NoDup_incl_length.
          - constructor; [|apply ahead_nodup, Hnd].
            intros Hx. apply (cache_find_none _ _ Hf), (ahead_keys k c), Hx.
          - apply incl_cons; assumption. }
        cbn [List.length] in Hshort. lia. }
      rewrite Hkeep. exact Hahead.
    + exact Hahead.
Qed.

Lemma run_keeps (calls : list call) (self : StooqDataFetcher) (k : key)
  (v : ReturnTuple) (others : list key) :
  (List.length others <= 31)%nat ->
  keys_among k others calls ->
  no_clear self calls ->
  kept k v others (memo self) ->
  kept k v others (memo (run self calls)).
Proof.
  intros Hlen. revert self.
  induction calls as [|c calls IH]; intros self Hkeys Hclear Hkept; [exact Hkept|].
  cbn [run fold_left]. cbn [no_clear] in Hclear. destruct Hclear as [Hfresh Hclear].
  inversion Hkeys as [|? ? Hc Hrest]; subst.
  apply (IH (step self c) Hrest Hclear).
  rewrite step_memo, Hfresh.
  apply lru_cache_keeps; assumption.
Qed.

Lemma get_return_front (self self' : StooqDataFetcher) (w : env)
  (ticker ref_date_str : string) (evs : list event) (v : ReturnTuple) :
  get_return self w ticker ref_date_str = (self', evs, Returned v) ->
  ahead (ticker, ref_date_str) (memo self') = [].
Proof.
  rewrite get_return_unfold. cbv zeta. unfold lru_cache.
  destruct (cache_find _ _) as [v0|].
  - cbn [fst snd]. intros [= <- _ _]. cbn. rewrite key_eqb_refl. reflexivity.
  - cbv beta. cbn [fst snd].
    destruct (_get_12m_return_stooq w ticker ref_date_str) as [evs0 [v0|e]];
      cbn [fst snd]; [|discriminate].
    intros [= <- _ _]. cbn [memo]. unfold cache_store.
    destruct (maxsize <=? _)%nat; cbn; rewrite key_eqb_refl; reflexivity.
Qed.

(** C10 (as amended).  The memo table stores the absent result like any
    other: after a call of [get_return] on a reachable fetcher that returned
    the absent result (validation failure, failed fetch, empty or invalid
    window), and after any further calls that clear nothing and use, besides
    that key, no more than 31 other keys, a call with the same arguments
    within the TTL returns the absent result again without any event: no
    validation, no request. *)
Theorem absent_result_is_remembered (self : StooqDataFetcher) (w1 w2 : env)
  (calls : list call) (ticker ref_date_str : string) (others : list key) :
  reachable self ->
  keys_among (ticker, ref_date_str) others calls ->
  (List.length others <= 31)%nat ->
  negative_caching_claim self w1 calls w2 ticker ref_date_str.
Proof.
  intros Hreach Hkeys Hlen self1 evs1 Hcall Hclear Hfresh.
  assert (Hkept : kept (ticker, ref_date_str) absent others (memo self1)).
  { split; [eapply get_return_remembers, Hcall|]. split.
    - apply reachable_nodup. eapply reach_call; eassumption.
    - rewrite (get_return_front _ _ _ _ _ _ _ Hcall). intros x []. }
  destruct (run_keeps calls self1 _ _ _ Hlen Hkeys Hclear Hkept) as [Hfind _].
  rewrite (get_return_hit _ _ _ _ _ Hfresh Hfind). eauto.
Qed.

Lemma absent_result_is_remembered_witness :
  reachable Sample.fresh
  /\ keys_among ("spy.us", "2024-03-15") [("iwda.uk", "2024-03-15")]
       [ (Sample.world (Table Sample.table), ("iwda.uk", "2024-03-15")) ]
  /\ (List.length [("iwda.uk", "2024-03-15")] <= 31)%nat
  /\ negative_caching_claim Sample.fresh
       (Sample.world (ParserFailure "no data"))
       [ (Sample.world (Table Sample.table), ("iwda.uk", "2024-03-15")) ]
       (Sample.world (Table Sample.table)) "spy.us" "2024-03-15".
Proof.
  assert (H1 : reachable Sample.fresh) by constructor.
  assert (H2 : keys_among ("spy.us", "2024-03-15") [("iwda.uk", "2024-03-15")]
                 [ (Sample.world (Table Sample.table), ("iwda.uk", "2024-03-15")) ])
    by (repeat constructor; right; left; reflexivity).
  assert (H3 : (List.length [("iwda.uk", "2024-03-15")] <= 31)%nat) by (cbn; lia).
  repeat split; try assumption.
  apply (absent_result_is_remembered Sample.fresh _ _ _ _ _ _ H1 H2 H3).
Defined.

(** C10, counterexample.  After the failed lookup of ("spy.us",
    "2024-03-15"), calls for 32 other keys within the TTL push its entry out
    of the memo table, which holds 32 entries; the table is never cleared,
    and yet the next call for the key validates and fetches again, and this
    time returns a present result. *)
Lemma failed_lookup_retried_after_eviction :
  no_clear (step Sample.fresh
              (Sample.world (ParserFailure "no data"), ("spy.us", "2024-03-15")))
           Sample.thirty_two_keys
  /\ fetches (snd (fst (get_return
                          (run (step Sample.fresh
                                  (Sample.world (ParserFailure "no data"),
                                   ("spy.us", "2024-03-15")))
                               Sample.thirty_two_keys)
                          (Sample.world (Table Sample.table))
                          "spy.us" "2024-03-15"))) = 1%nat
  /\ ~ negative_caching_claim Sample.fresh
         (Sample.world (ParserFailure "no data")) Sample.thirty_two_keys
         (Sample.world (Table Sample.table)) "spy.us" "2024-03-15".
Proof.
  assert (Hclear : no_clear (step Sample.fresh
              (Sample.world (ParserFailure "no data"), ("spy.us", "2024-03-15")))
           Sample.thirty_two_keys)
    by (vm_compute; repeat split).
  split; [exact Hclear|]. split; [vm_compute; reflexivity|].
  intros H.
  edestruct H as [self2 Hcall];
    [vm_compute; reflexivity | exact Hclear | vm_compute; reflexivity |].
  vm_compute in Hcall. discriminate.
Qed.

(* ================================================================== *)
(** * Proofs: size of the memo table, requests of a call *)

Lemma removelast_shorter {A : Type} (x : A) (l : list A) :
  List.length (removelast (x :: l)) = List.length l.
Proof.
  revert x. induction l as [|y l IH]; intro x; [reflexivity|].
  change (removelast (x :: y :: l)) with (x :: removelast (y :: l)).
  cbn [List.length]. now rewrite IH.
Qed.

Lemma cache_remove_length (k : key) (c : memo_table) (v : ReturnTuple) :
  cache_find k c = Some v ->
  S (List.length (cache_remove k c)) = List.length c.
Proof.
  induction c as [|[k' v'] c IH]; cbn [cache_find cache_remove]; [discriminate|].
  destruct (key_eqb k k'); intro H; [reflexivity|].
  cbn [List.length]. now rewrite (IH H).
Qed.

Lemma cache_store_length (k : key) (v : ReturnTuple) (c : memo_table) :
  (List.length c <= maxsize)%nat ->
  (List.length (cache_store k v c) <= maxsize)%nat.
Proof.
  intro H. unfold cache_store.
  destruct (Nat.leb_spec maxsize (List.length c)) as [Hfull|Hroom].
  - destruct c as [|x c]; [cbn; unfold maxsize; lia|].
    cbn [List.length]. rewrite removelast_shorter. cbn [List.length] in H. lia.
  - cbn [List.length]. lia.
Qed.

Lemma lru_cache_length (f : key -> list event * result ReturnTuple)
  (c : memo_table) (k : key) :
  (List.length c <= maxsize)%nat ->
  (List.length (fst (fst (lru_cache f c k))) <= maxsize)%nat.
Proof.
  intro H.
  destruct (lru_cache_table f c k) as [[v [Hf Hc]]|[_ [[v Hc]|Hc]]];
    cbv zeta in Hc; rewrite Hc.
  - unfold cache_touch. cbn [List.length]. now rewrite (cache_remove_length _ _ _ Hf).
  - now apply cache_store_length.
  - exact H.
Qed.

Lemma get_return_memo (self : StooqDataFetcher) (w : env)
  (ticker ref_date_str : string) :
  memo (fst (fst (get_return self w ticker ref_date_str)))
  = fst (fst (lru_cache (fun k => _get_12m_return_stooq w (fst k) (snd k))
                        (if expired self (now_checked w) then [] else memo self)
                        (ticker, ref_date_str))).
Proof. rewrite get_return_unfold. reflexivity. Qed.

(** X1.  The memo table of a fetcher never holds more than [maxsize] = 32
    entries, and never holds a key twice, whatever calls were made. *)
Theorem memo_is_bounded (self : StooqDataFetcher) :
  reachable self ->
  (List.length (memo self) <= maxsize)%nat /\ NoDup (keys (memo self)).
Proof.
  intro Hr. split; [|now apply reachable_nodup].
  induction Hr as [ttl now|self w ticker ref_date_str self' evs r _ IH Hcall].
  - cbn. unfold maxsize. lia.
  - replace self' with (fst (fst (get_return self w ticker ref_date_str)))
      by now rewrite Hcall.
    rewrite get_return_memo. apply lru_cache_length.
    destruct (expired self (now_checked w)); [cbn; unfold maxsize; lia|exact IH].
Qed.

Lemma memo_is_bounded_witness :
  reachable (run Sample.fresh Sample.thirty_two_keys)
  /\ (List.length (memo (run Sample.fresh Sample.thirty_two_keys)) <= maxsize)%nat
  /\ NoDup (keys (memo (run Sample.fresh Sample.thirty_two_keys))).
Proof.
  assert (Hr : reachable (run Sample.fresh Sample.thirty_two_keys)).
  { unfold run. generalize Sample.thirty_two_keys.
    assert (H0 : reachable Sample.fresh) by constructor.
    revert H0. generalize Sample.fresh.
    intros s Hs l. revert s Hs.
    induction l as [|c l IH]; intros s Hs; [exact Hs|].
    cbn [fold_left]. apply IH. now apply reachable_step. }
  split; [exact Hr|]. exact (memo_is_bounded _ Hr).
Defined.

Lemma body_fetches (w : env) (ticker reference_date_str : string) :
  fetches (fst (_get_12m_return_stooq w ticker reference_date_str))
  = if validate_ticker ticker && validate_date_string reference_date_str
    then 1%nat else 0%nat.
Proof.
  destruct (validate_ticker ticker) eqn:Ht;
    [destruct (validate_date_string reference_date_str) eqn:Hd|].
  - now apply accepted_fetches_once.
  - destruct (rejected_without_fetch w ticker reference_date_str) as [m Hm];
      [now right|]. now rewrite Hm.
  - destruct (rejected_without_fetch w ticker reference_date_str) as [m Hm];
      [now left|]. now rewrite Hm.
Qed.

(** The number of requests of a call. *)
Lemma get_return_fetches (self : StooqDataFetcher) (w : env)
  (ticker ref_date_str : string) :
  fetches (snd (fst (get_return self w ticker ref_date_str)))
  = if validate_ticker ticker && validate_date_string ref_date_str
       && (expired self (now_checked w)
           || match cache_find (ticker, ref_date_str) (memo self) with
              | Some _ => false
              | None => true
              end)
    then 1%nat else 0%nat.
Proof.
  rewrite get_return_unfold. cbv zeta. cbn [fst snd].
  rewrite fetches_app.
  assert (Hpre : fetches (if expired self (now_checked w)
                          then [Log INFO CacheHasBeenReset] else []) = 0%nat)
    by now destruct (expired self (now_checked w)).
  rewrite Hpre. cbn [Nat.add].
  unfold lru_cache.
  pose proof (body_fetches w ticker ref_date_str) as Hb.
  destruct (expired self (now_checked w)) eqn:He.
  - cbn [cache_find orb]. cbv beta. cbn [fst snd]. rewrite andb_true_r.
    destruct (_get_12m_return_stooq w ticker ref_date_str) as [evs [v|e]];
      exact Hb.
  - cbn [orb].
    destruct (cache_find (ticker, ref_date_str) (memo self)) as [v|] eqn:Hf.
    + rewrite andb_false_r. reflexivity.
    + cbv beta. cbn [fst snd]. rewrite andb_true_r.
      destruct (_get_12m_return_stooq w ticker ref_date_str) as [evs [v|e]];
        exact Hb.
Qed.

Lemma get_return_fetches_le (self : StooqDataFetcher) (w : env)
  (ticker ref_date_str : string) :
  (fetches (snd (fst (get_return self w ticker ref_date_str))) <= 1)%nat.
Proof.
  rewrite get_return_fetches.
  destruct (validate_ticker ticker && validate_date_string ref_date_str
            && (expired self (now_checked w)
                || match cache_find (ticker, ref_date_str) (memo self) with
                   | Some _ => false
                   | None => true
                   end)); lia.
Qed.

(** X2.  A call of [get_return] sends at most one request to the quote
    source; it sends one exactly when the ticker and the date string pass
    validation and the answer is not taken from the memo table (the table
    was just cleared, or has no entry for the key). *)
Theorem at_most_one_request (self : StooqDataFetcher) (w : env)
  (ticker ref_date_str : string) :
  let evs := snd (fst (get_return self w ticker ref_date_str)) in
  (fetches evs <= 1)%nat
  /\ (fetches evs = 1%nat <->
      validate_ticker ticker = true
      /\ validate_date_string ref_date_str = true
      /\ (expired self (now_checked w) = true
          \/ cache_find (ticker, ref_date_str) (memo self) = None)).
Proof.
  cbv zeta. split; [apply get_return_fetches_le|].
  rewrite get_return_fetches.
  destruct (validate_ticker ticker), (validate_date_string ref_date_str),
    (expired self (now_checked w)),
    (cache_find (ticker, ref_date_str) (memo self));
    cbn; split; intros; try discriminate; try tauto;
    repeat match goal with
      | H : _ /\ _ |- _ => destruct H
      | H : _ \/ _ |- _ => destruct H
      end; try discriminate; auto.
Qed.

(** X3.  An answer taken from the memo table is an answer the computation
    itself once returned for the very same ticker and date string: within
    the TTL a key of the table is answered with its stored value, without
    any event, and that value was computed for this key. *)
Theorem memo_answers_are_genuine (self : StooqDataFetcher) (w : env)
  (ticker ref_date_str : string) (v : ReturnTuple) :
  reachable self ->
  expired self (now_checked w) = false ->
  cache_find (ticker, ref_date_str) (memo self) = Some v ->
  snd (get_return self w ticker ref_date_str) = Returned v
  /\ snd (fst (get_return self w ticker ref_date_str)) = []
  /\ exists w0 evs0,
       _get_12m_return_stooq w0 ticker ref_date_str = (evs0, Returned v).
Proof.
  intros Hr He Hf. rewrite (get_return_hit _ _ _ _ _ He Hf). cbn [fst snd].
  repeat split.
  pose proof (reachable_memo_ok _ Hr) as Hok. unfold memo_ok in Hok.
  rewrite Forall_forall in Hok.
  exact (Hok _ (cache_find_in _ _ _ Hf)).
Qed.

Lemma memo_answers_are_genuine_witness :
  let cached :=
    fst (fst (get_return Sample.fresh (Sample.world (Table Sample.table))
                         "spy.us" "2024-03-15")) in
  let v := (Some 0x1.4000000000005p+3%float, Some (mkdate 2023 3 1),
            Some (mkdate 2024 2 15),
            Some [ (mkdate 2023 3 1, Num 100%float);
                   (mkdate 2023 6 1, Num 105%float);
                   (mkdate 2024 2 15, Num 110%float) ]) in
  reachable cached
  /\ expired cached (now_checked (Sample.world (ParserFailure "no data"))) = false
  /\ cache_find ("spy.us", "2024-03-15") (memo cached) = Some v
  /\ snd (get_return cached (Sample.world (ParserFailure "no data"))
                     "spy.us" "2024-03-15") = Returned v
  /\ snd (fst (get_return cached (Sample.world (ParserFailure "no data"))
                          "spy.us" "2024-03-15")) = []
  /\ exists w0 evs0,
       _get_12m_return_stooq w0 "spy.us" "2024-03-15" = (evs0, Returned v).
Proof.
  cbv zeta.
  assert (Hr : reachable
                 (fst (fst (get_return Sample.fresh
                                       (Sample.world (Table Sample.table))
                                       "spy.us" "2024-03-15")))).
  { apply (reachable_step Sample.fresh
             (Sample.world (Table Sample.table), ("spy.us", "2024-03-15"))).
    constructor. }
  split; [exact Hr|].
  split; [vm_compute; reflexivity|].
  split; [vm_compute; reflexivity|].
  apply (memo_answers_are_genuine _ _ _ _ _ Hr); vm_compute; reflexivity.
Defined.

(** X4.  While the memo table has room (fewer than [maxsize] entries) a call
    within the TTL forgets nothing: every key of the table is still there
    after the call, with the same value. *)
Theorem nothing_forgotten_below_capacity (self : StooqDataFetcher) (w : env)
  (ticker ref_date_str : string) (k : key) (v : ReturnTuple) :
  expired self (now_checked w) = false ->
  (List.length (memo self) < maxsize)%nat ->
  cache_find k (memo self) = Some v ->
  cache_find k (memo (fst (fst (get_return self w ticker ref_date_str))))
  = Some v.
Proof.
  intros He Hlen Hf. rewrite get_return_memo, He.
  destruct (lru_cache_table (fun k => _get_12m_return_stooq w (fst k) (snd k))
              (memo self) (ticker, ref_date_str))
    as [[v' [Hf' Hc]]|[Hnone [[v' Hc]|Hc]]]; cbv zeta in Hc; rewrite Hc.
  - unfold cache_touch. cbn [cache_find].
    destruct (key_eqb k (ticker, ref_date_str)) eqn:Hk.
    + apply key_eqb_eq in Hk. subst k. congruence.
    + apply key_eqb_neq in Hk. now rewrite cache_find_remove_other.
  - unfold cache_store.
    destruct (Nat.leb_spec maxsize (List.length (memo self))); [lia|].
    cbn [cache_find].
    destruct (key_eqb k (ticker, ref_date_str)) eqn:Hk; [|exact Hf].
    apply key_eqb_eq in Hk. subst k. congruence.
  - exact Hf.
Qed.

Lemma nothing_forgotten_below_capacity_witness :
  let cached :=
    fst (fst (get_return Sample.fresh (Sample.world (ParserFailure "no data"))
                         "spy.us" "2024-03-15")) in
  expired cached (now_checked (Sample.world (Table Sample.table))) = false
  /\ (List.length (memo cached) < maxsize)%nat
  /\ cache_find ("spy.us", "2024-03-15") (memo cached) = Some absent
  /\ cache_find ("spy.us", "2024-03-15")
       (memo (fst (fst (get_return cached (Sample.world (Table Sample.table))
                                   "iwda.uk" "2024-03-15"))))
     = Some absent.
Proof.
  cbv zeta.
  split; [vm_compute; reflexivity|].
  split; [vm_compute; lia|].
  split; [vm_compute; reflexivity|].
  apply nothing_forgotten_below_capacity;
    [vm_compute; reflexivity | vm_compute; lia | vm_compute; reflexivity].
Defined.

(* ================================================================== *)
(** * Proofs: the shape of a present result *)

Lemma window_shape (reference_date start_date end_date : date) :
  valid_date reference_date = true ->
  window reference_date = Returned (start_date, end_date) ->
  2 <= year (month_before reference_date)
  /\ end_date = month_before reference_date
  /\ start_date = day_after (year_before end_date).
Proof.
  intros Hv Hw.
  destruct (Z_lt_le_dec (year (month_before reference_date)) 2) as [Hlt|Hge].
  - destruct (window_raises _ Hv Hlt) as [msg Hr]. congruence.
  - rewrite (window_returns _ Hv Hge) in Hw. inversion Hw. auto.
Qed.

Lemma month_before_earlier (d : date) :
  valid_date d = true -> date_ltb (month_before d) d = true.
Proof.
  intro Hv. apply valid_date_bounds in Hv. destruct Hv as [_ [Hm _]].
  unfold date_ltb, month_before. cbn [year month day].
  destruct (Z.ltb_spec (month d - 1) 1).
  - apply orb_true_iff. left. apply Z.ltb_lt. lia.
  - apply orb_true_iff. right. rewrite Z.eqb_refl. cbn [andb].
    apply orb_true_iff. left. apply Z.ltb_lt. lia.
Qed.

Lemma window_start_before_end (d : date) :
  valid_date d = true -> 2 <= year d ->
  date_leb (day_after (year_before d)) d = true.
Proof.
  intros Hv Hy. apply valid_date_bounds in Hv.
  destruct Hv as [_ [Hm Hd]].
  pose proof (days_in_month_bounds (year d - 1) (month d)) as Hb.
  apply date_leb_iff. unfold day_after, year_before. cbn [year month day].
  destruct (Z.ltb_spec (Z.min (days_in_month (year d - 1) (month d)) (day d))
                       (days_in_month (year d - 1) (month d))).
  - cbn [year month day]. lia.
  - destruct (Z.ltb_spec (month d) 12); cbn [year month day]; lia.
Qed.

(** X5.  Whenever the window of a reference date exists, it ends strictly
    before the reference date (one calendar month before it), and it starts
    on or before its end: the day after the day one calendar year before the
    end.  The window exists exactly for the reference dates from 0002-02-01
    on; for an earlier date its computation raises [ValueError]. *)
Theorem window_lies_before_reference (reference_date : date) :
  valid_date reference_date = true ->
  (2 <= year (month_before reference_date) ->
   exists start_date end_date,
     window reference_date = Returned (start_date, end_date)
     /\ end_date = month_before reference_date
     /\ start_date = day_after (year_before end_date)
     /\ date_ltb end_date reference_date = true
     /\ date_leb start_date end_date = true)
  /\ (year (month_before reference_date) < 2 ->
      exists msg, window reference_date = Raised (ValueError msg)).
Proof.
  intro Hv. split.
  - intro Hge. exists (day_after (year_before (month_before reference_date))).
    exists (month_before reference_date).
    split; [now apply window_returns|].
    split; [reflexivity|]. split; [reflexivity|].
    split; [now apply month_before_earlier|].
    apply window_start_before_end; [|exact Hge].
    apply month_before_valid; [exact Hv|lia].
  - intro Hlt. now apply window_raises.
Qed.

Lemma window_lies_before_reference_witness :
  valid_date (mkdate 2024 3 31) = true
  /\ (2 <= year (month_before (mkdate 2024 3 31)) ->
      exists start_date end_date,
        window (mkdate 2024 3 31) = Returned (start_date, end_date)
        /\ end_date = month_before (mkdate 2024 3 31)
        /\ start_date = day_after (year_before end_date)
        /\ date_ltb end_date (mkdate 2024 3 31) = true
        /\ date_leb start_date end_date = true)
  /\ (year (month_before (mkdate 2024 3 31)) < 2 ->
      exists msg, window (mkdate 2024 3 31) = Raised (ValueError msg)).
Proof.
  split; [reflexivity|].
  apply (window_lies_before_reference (mkdate 2024 3 31)). reflexivity.
Defined.

Lemma last_in {A : Type} (x : A) (l : list A) : In (last (x :: l) x) (x :: l).
Proof.
  revert x. induction l as [|y l IH]; intro x; [now left|].
  change (last (x :: y :: l) x) with (last (y :: l) x).
  right. destruct l as [|z l]; [now left|].
  specialize (IH y).
  change (last (y :: z :: l) x) with (last (z :: l) x).
  change (last (y :: z :: l) y) with (last (z :: l) y) in IH.
  replace (last (z :: l) x) with (last (z :: l) y); [exact IH|].
  clear. revert z. induction l as [|a l IH]; intro z; [reflexivity|].
  change (last (z :: a :: l) y) with (last (a :: l) y).
  change (last (z :: a :: l) x) with (last (a :: l) x). apply IH.
Qed.

Lemma last_map {A B : Type} (f : A -> B) (x : A) (l : list A) :
  last (map f (x :: l)) (f x) = f (last (x :: l) x).
Proof.
  revert x. induction l as [|y l IH]; intro x; [reflexivity|].
  change (map f (x :: y :: l)) with (f x :: map f (y :: l)).
  change (last (f x :: map f (y :: l)) (f x)) with (last (map f (y :: l)) (f x)).
  change (last (x :: y :: l) x) with (last (y :: l) x).
  specialize (IH y).
  assert (E1 : forall d d' : B, last (map f (y :: l)) d = last (map f (y :: l)) d').
  { clear. intros d d'. revert y. induction l as [|a l IH]; intro y; [reflexivity|].
    change (map f (y :: a :: l)) with (f y :: map f (a :: l)).
    change (last (f y :: map f (a :: l)) d) with (last (map f (a :: l)) d).
    change (last (f y :: map f (a :: l)) d') with (last (map f (a :: l)) d').
    apply IH. }
  assert (E2 : forall d d' : A, last (y :: l) d = last (y :: l) d').
  { clear. intros d d'. revert y. induction l as [|a l IH]; intro y; [reflexivity|].
    change (last (y :: a :: l) d) with (last (a :: l) d).
    change (last (y :: a :: l) d') with (last (a :: l) d'). apply IH. }
  rewrite (E1 (f x) (f y)), IH. f_equal. apply E2.
Qed.

(** What a present result of the window computation is made of. *)
Lemma return_over_window_present (ticker col : string) (series : list dated)
  (reference_date : date) (evs : list event) (p : float)
  (s e : option date) (h : option (list (date * cell))) :
  return_over_window ticker col series reference_date
  = (evs, Returned (Some p, s, e, h)) ->
  exists start_date end_date first rest,
    window reference_date = Returned (start_date, end_date)
    /\ select_window start_date end_date series = first :: rest
    /\ PrimFloat.leb (price_of col first) 0%float = false
    /\ PrimFloat.leb (price_of col (last (first :: rest) first)) 0%float = false
    /\ p = PrimFloat.mul
             (PrimFloat.sub
                (safe_divide (price_of col (last (first :: rest) first))
                             (price_of col first) 1%float) 1%float) 100%float
    /\ s = Some (fst first)
    /\ e = Some (fst (last (first :: rest) first))
    /\ h = Some (to_records col (first :: rest)).
Proof.
  unfold return_over_window.
  destruct (window reference_date) as [[start_date end_date]|err];
    [|discriminate].
  destruct (select_window start_date end_date series) as [|first rest] eqn:Hsel;
    [discriminate|].
  fold (price_of col first). fold (price_of col (last (first :: rest) first)).
  destruct (PrimFloat.leb (price_of col first) 0
            || PrimFloat.leb (price_of col (last (first :: rest) first)) 0)
    eqn:Hguard; [discriminate|].
  apply orb_false_iff in Hguard. destruct Hguard as [H1 H2].
  intro H. inversion H. subst.
  exists start_date, end_date, first, rest. repeat split; auto.
Qed.

(** What a present result of the computation is made of. *)
Lemma body_present (w : env) (ticker reference_date_str : string)
  (evs : list event) (p : float) (s e : option date)
  (h : option (list (date * cell))) :
  _get_12m_return_stooq w ticker reference_date_str
  = (evs, Returned (Some p, s, e, h)) ->
  exists reference_date df sorted evs',
    strptime reference_date_str = Returned reference_date
    /\ stooq w (url_of ticker) = Table df
    /\ normalize df = Returned sorted
    /\ return_over_window ticker (close_col df) sorted reference_date
       = (evs', Returned (Some p, s, e, h)).
Proof.
  unfold _get_12m_return_stooq.
  destruct (negb (validate_ticker ticker)); [discriminate|].
  destruct (negb (validate_date_string reference_date_str)); [discriminate|].
  destruct (strptime reference_date_str) as [reference_date|err]; [|discriminate].
  destruct (stooq w (url_of ticker)) as [[|] msg|[|] msg|msg|df];
    try discriminate.
  destruct (unusable df); [discriminate|].
  destruct (normalize df) as [sorted|err] eqn:Hnorm; [|discriminate].
  destruct (return_over_window ticker (close_col df) sorted reference_date)
    as [evs' r] eqn:Hrow.
  intro H. inversion H. subst.
  exists reference_date, df, sorted, evs'. auto.
Qed.

Lemma computed_of_call (self self' : StooqDataFetcher) (w : env)
  (ticker ref_date_str : string) (evs : list event) (v : ReturnTuple) :
  reachable self ->
  get_return self w ticker ref_date_str = (self', evs, Returned v) ->
  computed (ticker, ref_date_str) v.
Proof.
  intros Hr Hcall.
  assert (Hr' : reachable self') by (econstructor; eassumption).
  pose proof (reachable_memo_ok _ Hr') as Hok. unfold memo_ok in Hok.
  rewrite Forall_forall in Hok.
  exact (Hok _ (cache_find_in _ _ _ (get_return_remembers _ _ _ _ _ _ _ Hcall))).
Qed.

Lemma ascending_head_le (x : date) (l : list date) (y : date) :
  ascending (x :: l) -> In y (x :: l) -> date_leb x y = true.
Proof.
  intros Hs [->|Hin]; [apply date_leb_refl|].
  apply StronglySorted_inv in Hs. destruct Hs as [_ Hall].
  rewrite Forall_forall in Hall. now apply Hall.
Qed.

Lemma date_ltb_iff (a b : date) :
  date_ltb a b = true <->
  year a < year b
  \/ (year a = year b
      /\ (month a < month b \/ (month a = month b /\ day a < day b))).
Proof.
  unfold date_ltb.
  rewrite orb_true_iff, andb_true_iff, orb_true_iff, andb_true_iff.
  rewrite !Z.ltb_lt, !Z.eqb_eq. tauto.
Qed.

Lemma date_leb_ltb_trans (a b c : date) :
  date_leb a b = true -> date_ltb b c = true -> date_ltb a c = true.
Proof. rewrite date_leb_iff, !date_ltb_iff. lia. Qed.

Lemma to_records_fst (col : string) (l : list (date * quote)) :
  map fst (to_records col l) = map fst l.
Proof. unfold to_records. rewrite map_map. reflexivity. Qed.

Lemma not_leb_zero_not_zero (x : float) :
  PrimFloat.leb x 0%float = false -> PrimFloat.eqb x 0%float = false.
Proof.
  intro H. destruct (PrimFloat.eqb x 0%float) eqn:E; [|reflexivity].
  apply FloatOrder.eqb_cmp in E.
  assert (PrimFloat.leb x 0%float = true)
    by (apply FloatOrder.leb_cmp; now right).
  congruence.
Qed.

(** X6.  A present result is consistent in itself and lies in the window:
    when a call returns a percentage, it returns a start, an end and a
    history as well; the history is not empty and in ascending order of
    date, begins at the start and ends at the end returned, and all of it
    lies within the window (start <= end, the start not before the window's
    first day, the end not after its last day, which is strictly before the
    reference date). *)
Theorem present_result_within_window (self self' : StooqDataFetcher) (w : env)
  (ticker ref_date_str : string) (evs : list event) (p : float)
  (s e : option date) (h : option (list (date * cell))) :
  reachable self ->
  get_return self w ticker ref_date_str = (self', evs, Returned (Some p, s, e, h)) ->
  exists reference_date first rest,
    strptime ref_date_str = Returned reference_date
    /\ h = Some (first :: rest)
    /\ s = Some (fst first)
    /\ e = Some (fst (last (first :: rest) first))
    /\ ascending (map fst (first :: rest))
    /\ date_leb (fst first) (fst (last (first :: rest) first)) = true
    /\ date_leb (day_after (year_before (month_before reference_date)))
                (fst first) = true
    /\ date_leb (fst (last (first :: rest) first)) (month_before reference_date)
       = true
    /\ date_ltb (fst (last (first :: rest) first)) reference_date = true.
Proof.
  intros Hr Hcall.
  destruct (computed_of_call _ _ _ _ _ _ _ Hr Hcall) as [w0 [evs0 Hbody]].
  cbn [fst snd] in Hbody.
  destruct (body_present _ _ _ _ _ _ _ _ Hbody)
    as [reference_date [df [sorted [evs' [Hparse [_ [Hnorm Hrow]]]]]]].
  destruct (return_over_window_present _ _ _ _ _ _ _ _ _ Hrow)
    as [start_date [end_date [first [rest [Hw [Hsel [_ [_ [_ [Hs [He Hh]]]]]]]]]]].
  pose proof (strptime_valid _ _ Hparse) as Hv.
  destruct (window_shape _ _ _ Hv Hw) as [Hge [Hend Hstart]].
  subst end_date start_date.
  set (col := close_col df) in *.
  set (f := fun r : date * quote => (fst r, price_in col (snd r))).
  assert (Hasc : ascending (map fst (first :: rest))).
  { rewrite <- Hsel. apply select_window_ascending.
    exact (normalize_chronological _ _ Hnorm). }
  assert (Hlast_in : In (last (first :: rest) first) (first :: rest))
    by apply last_in.
  assert (Hin : forall x, In x (first :: rest) ->
                date_leb (day_after (year_before (month_before reference_date)))
                         (fst x) = true
                /\ date_leb (fst x) (month_before reference_date) = true).
  { intros [d q] Hx. rewrite <- Hsel in Hx. apply select_window_in in Hx.
    cbn [fst]. tauto. }
  assert (Hlast : fst (last (f first :: map f rest) (f first))
                  = fst (last (first :: rest) first)).
  { change (f first :: map f rest) with (map f (first :: rest)).
    rewrite last_map. reflexivity. }
  exists reference_date, (f first), (map f rest).
  split; [exact Hparse|].
  split; [exact Hh|].
  split; [exact Hs|].
  rewrite Hlast.
  split; [exact He|].
  split.
  { change (f first :: map f rest) with (to_records col (first :: rest)).
    rewrite to_records_fst. exact Hasc. }
  change (fst (f first)) with (fst first).
  split.
  { apply (ascending_head_le (fst first) (map fst rest)); [exact Hasc|].
    change (fst first :: map fst rest) with (map fst (first :: rest)).
    now apply in_map. }
  split; [apply Hin; now left|].
  split; [now apply Hin|].
  apply (date_leb_ltb_trans _ (month_before reference_date));
    [now apply Hin|now apply month_before_earlier].
Qed.

Lemma present_result_within_window_witness :
  exists reference_date first rest,
    strptime "2024-03-15" = Returned reference_date
    /\ Some [ (mkdate 2023 3 1, Num 100%float);
              (mkdate 2023 6 1, Num 105%float);
              (mkdate 2024 2 15, Num 110%float) ] = Some (first :: rest)
    /\ Some (mkdate 2023 3 1) = Some (fst first)
    /\ Some (mkdate 2024 2 15) = Some (fst (last (first :: rest) first))
    /\ ascending (map fst (first :: rest))
    /\ date_leb (fst first) (fst (last (first :: rest) first)) = true
    /\ date_leb (day_after (year_before (month_before reference_date)))
                (fst first) = true
    /\ date_leb (fst (last (first :: rest) first)) (month_before reference_date)
       = true
    /\ date_ltb (fst (last (first :: rest) first)) reference_date = true.
Proof.
  apply (present_result_within_window Sample.fresh
           (fst (fst (get_return Sample.fresh (Sample.world (Table Sample.table))
                                 "spy.us" "2024-03-15")))
           (Sample.world (Table Sample.table)) "spy.us" "2024-03-15"
           (snd (fst (get_return Sample.fresh (Sample.world (Table Sample.table))
                                 "spy.us" "2024-03-15")))
           0x1.4000000000005p+3%float).
  - constructor.
  - vm_compute. reflexivity.
Defined.

(** X7.  The percentage of a present result always agrees with the history
    returned with it: it is [(last / first - 1) * 100] of the prices of the
    first and the last record of the history, neither of which is [<= 0].
    The fallback value of [safe_divide] never enters a result (this holds
    for NaN prices as well, which pass the price guard). *)
Theorem present_return_agrees_with_history (self self' : StooqDataFetcher)
  (w : env) (ticker ref_date_str : string) (evs : list event) (p : float)
  (s e : option date) (h : option (list (date * cell))) :
  reachable self ->
  get_return self w ticker ref_date_str = (self', evs, Returned (Some p, s, e, h)) ->
  exists first rest,
    h = Some (first :: rest)
    /\ let first_price := safe_float_conversion (snd first) 0%float in
       let last_price :=
         safe_float_conversion (snd (last (first :: rest) first)) 0%float in
       PrimFloat.leb first_price 0%float = false
       /\ PrimFloat.leb last_price 0%float = false
       /\ p = percentage_return first_price last_price.
Proof.
  intros Hr Hcall.
  destruct (computed_of_call _ _ _ _ _ _ _ Hr Hcall) as [w0 [evs0 Hbody]].
  cbn [fst snd] in Hbody.
  destruct (body_present _ _ _ _ _ _ _ _ Hbody)
    as [reference_date [df [sorted [evs' [_ [_ [_ Hrow]]]]]]].
  destruct (return_over_window_present _ _ _ _ _ _ _ _ _ Hrow)
    as [start_date [end_date [first [rest [_ [_ [H1 [H2 [Hp [_ [_ Hh]]]]]]]]]]].
  set (col := close_col df) in *.
  set (f := fun r : date * quote => (fst r, price_in col (snd r))).
  exists (f first), (map f rest).
  split; [exact Hh|]. cbv zeta.
  change (f first :: map f rest) with (map f (first :: rest)).
  rewrite last_map.
  change (safe_float_conversion (snd (f first)) 0) with (price_of col first).
  change (safe_float_conversion (snd (f (last (first :: rest) first))) 0)
    with (price_of col (last (first :: rest) first)).
  split; [exact H1|]. split; [exact H2|].
  rewrite Hp. unfold percentage_return, safe_divide.
  now rewrite (not_leb_zero_not_zero _ H1).
Qed.

Lemma present_return_agrees_with_history_witness :
  exists first rest,
    Some [ (mkdate 2023 3 1, Num nan);
           (mkdate 2023 6 1, Num 105%float);
           (mkdate 2024 2 15, Num 110%float) ] = Some (first :: rest)
    /\ let first_price := safe_float_conversion (snd first) 0%float in
       let last_price :=
         safe_float_conversion (snd (last (first :: rest) first)) 0%float in
       PrimFloat.leb first_price 0%float = false
       /\ PrimFloat.leb last_price 0%float = false
       /\ nan = percentage_return first_price last_price.
Proof.
  apply (present_return_agrees_with_history Sample.fresh
           (fst (fst (get_return Sample.fresh
                                 (Sample.world (Table Sample.blank_table))
                                 "spy.us" "2024-03-15")))
           (Sample.world (Table Sample.blank_table)) "spy.us" "2024-03-15"
           (snd (fst (get_return Sample.fresh
                                 (Sample.world (Table Sample.blank_table))
                                 "spy.us" "2024-03-15")))
           nan (Some (mkdate 2023 3 1)) (Some (mkdate 2024 2 15))).
  - constructor.
  - vm_compute. reflexivity.
Defined.

(* ================================================================== *)
(** * Proofs: the table after [normalize] *)

Lemma to_datetime_lines (rows : list quote) (ts : list dated) :
  to_datetime rows = Returned ts ->
  map snd ts = rows
  /\ Forall (fun p => to_datetime_cell (Data (snd p)) = Returned (fst p)) ts.
Proof.
  revert ts. induction rows as [|q rows IH]; intros ts H; cbn [to_datetime] in H.
  - inversion H. split; [reflexivity|constructor].
  - destruct (to_datetime_cell (Data q)) as [t|err] eqn:Hq; [|discriminate].
    destruct (to_datetime rows) as [ts'|err]; [|discriminate].
    cbn [bind] in H. inversion H. subst ts.
    destruct (IH ts' eq_refl) as [Hm Hf].
    split; [cbn [map snd]; now rewrite Hm|].
    constructor; [exact Hq|exact Hf].
Qed.


(** X8.  Sorting loses and invents nothing: when [normalize] returns, its
    result holds exactly the lines of the table, each as often as the table
    has it, the lines without a date included; each line carries the date
    read from its own date cell; and the lines are in ascending order of
    date, the undated ones last. *)
Theorem normalize_keeps_every_line (df : DataFrame) (series : list dated) :
  normalize df = Returned series ->
  chronological series
  /\ Permutation (records df) (map snd series)
  /\ Forall (fun p => to_datetime_cell (Data (snd p)) = Returned (fst p)) series.
Proof.
  intro H. split; [exact (normalize_chronological _ _ H)|].
  unfold normalize in H.
  destruct (has_column "Data" df); [|discriminate].
  destruct (to_datetime (records df)) as [ts|err] eqn:Hts; [|discriminate].
  cbn [bind] in H. inversion H. subst series.
  destruct (to_datetime_lines _ _ Hts) as [Hm Hf].
  split.
  - rewrite <- Hm at 1. apply Permutation_map. apply sort_values_perm.
  - rewrite Forall_forall in *. intros x Hx. apply Hf.
    apply (Permutation_in x (Permutation_sym (sort_values_perm ts))). exact Hx.
Qed.

Lemma normalize_keeps_every_line_witness :
  chronological Sample.series
  /\ Permutation (records Sample.table) (map snd Sample.series)
  /\ Forall (fun p => to_datetime_cell (Data (snd p)) = Returned (fst p))
            Sample.series.
Proof.
  apply (normalize_keeps_every_line Sample.table Sample.series). reflexivity.
Defined.


(* ================================================================== *)
(** * Proofs: what the selector can recommend *)

Lemma present_returns_in (names : list string) (rs : results)
  (l : list (string * float)) :
  present_returns names rs = Returned l ->
  forall n x, In (n, x) l <->
              In (n, Entry (Some x)) rs /\ member n names = true.
Proof.
  revert l. induction rs as [|[k v] rs IH]; intros l H n x;
    cbn [present_returns] in H.
  - inversion H. cbn. tauto.
  - destruct (member k names) eqn:Hk.
    + destruct v as [[r|]|]; [| |discriminate].
      * destruct (present_returns names rs) as [more|err]; [|discriminate].
        cbn [bind] in H. inversion H. subst l.
        specialize (IH more eq_refl n x). cbn [In]. rewrite IH.
        split.
        -- intros [E|[H1 H2]]; [inversion E; subst; auto|auto].
        -- intros [[E|H1] H2]; [inversion E; subst; auto|auto].
      * specialize (IH l H n x). cbn [In]. rewrite IH.
        split; [tauto|]. intros [[E|H1] H2]; [discriminate|auto].
    + specialize (IH l H n x). cbn [In]. rewrite IH.
      split; [tauto|]. intros [[E|H1] H2]; [|auto].
      inversion E; subst. congruence.
Qed.

Lemma max_from_in (best : string * float) (l : list (string * float)) :
  In (max_from best l) (best :: l).
Proof.
  revert best. induction l as [|x l IH]; intro best; cbn [max_from].
  - now left.
  - destruct (PrimFloat.ltb (snd best) (snd x)).
    + right. apply IH.
    + destruct (IH best) as [E|Hin]; [now left|right; now right].
Qed.

Lemma gem_decision_cases (rs : results) (equity_etfs bond_etfs : list string)
  (r : recommendation) :
  calculate_gem_strategy rs equity_etfs bond_etfs = Returned r ->
  exists equity_returns,
    present_returns equity_etfs rs = Returned equity_returns
    /\ match equity_returns with
       | [] => r = NoEquityData
       | e :: es =>
           if PrimFloat.ltb 0%float (snd (max_from e es))
           then r = InvestInEquity (fst (max_from e es))
           else exists bond_returns,
               present_returns bond_etfs rs = Returned bond_returns
               /\ match bond_returns with
                  | b :: bs => r = InvestInBond (fst (max_from b bs))
                  | [] => r = NoBondDataNegativeEquity
                  end
       end.
Proof.
  unfold calculate_gem_strategy, gem_decision.
  destruct (present_returns equity_etfs rs) as [equity_returns|err];
    cbn [bind]; [|discriminate].
  intro H. exists equity_returns. split; [reflexivity|].
  destruct equity_returns as [|e es]; [congruence|].
  destruct (PrimFloat.ltb 0 (snd (max_from e es))); [congruence|].
  destruct (present_returns bond_etfs rs) as [bond_returns|err];
    cbn [bind] in H; [|discriminate].
  exists bond_returns. split; [reflexivity|].
  destruct bond_returns; congruence.
Qed.

(** X10.  What the selector recommends is always backed by the data, for
    every input it returns on (NaN returns included): a recommended equity
    is in the equity set and has a present return [> 0]; a recommended bond
    is in the bond set and has a present return, and then some equity with
    a present return has one that is not [> 0]; "no equity data" means no
    instrument of the equity set has a present return; "no bond data" means
    no instrument of the bond set has one. *)
Theorem recommendation_is_backed_by_data (rs : results)
  (equity_etfs bond_etfs : list string) (r : recommendation) :
  calculate_gem_strategy rs equity_etfs bond_etfs = Returned r ->
  match r with
  | InvestInEquity n =>
      member n equity_etfs = true
      /\ exists x, In (n, Entry (Some x)) rs /\ PrimFloat.ltb 0%float x = true
  | InvestInBond n =>
      member n bond_etfs = true
      /\ (exists x, In (n, Entry (Some x)) rs)
      /\ exists m y, member m equity_etfs = true
                     /\ In (m, Entry (Some y)) rs
                     /\ PrimFloat.ltb 0%float y = false
  | NoEquityData =>
      forall n x, In (n, Entry (Some x)) rs -> member n equity_etfs = false
  | NoBondDataNegativeEquity =>
      (forall n x, In (n, Entry (Some x)) rs -> member n bond_etfs = false)
      /\ exists m y, member m equity_etfs = true
                     /\ In (m, Entry (Some y)) rs
                     /\ PrimFloat.ltb 0%float y = false
  end.
Proof.
  intro H. destruct (gem_decision_cases _ _ _ _ H) as [eqs [He Hcase]].
  pose proof (present_returns_in _ _ _ He) as Hin.
  destruct eqs as [|e es].
  - subst r. intros n x Hx.
    destruct (member n equity_etfs) eqn:Hm; [|reflexivity].
    destruct (proj2 (Hin n x) (conj Hx Hm)).
  - pose proof (max_from_in e es) as Hbest.
    destruct (max_from e es) as [bn bx] eqn:Hmax. cbn [fst snd] in Hcase.
    apply Hin in Hbest. destruct Hbest as [Hb1 Hb2].
    destruct (PrimFloat.ltb 0 bx) eqn:Hpos.
    + subst r. split; [exact Hb2|]. now exists bx.
    + destruct Hcase as [bs [Hbs Hcase]].
      pose proof (present_returns_in _ _ _ Hbs) as Hinb.
      destruct bs as [|b bs].
      * subst r. split.
        -- intros n x Hx.
           destruct (member n bond_etfs) eqn:Hm; [|reflexivity].
           destruct (proj2 (Hinb n x) (conj Hx Hm)).
        -- exists bn, bx. auto.
      * subst r. pose proof (max_from_in b bs) as Hbb.
        destruct (max_from b bs) as [cn cx]. cbn [fst].
        apply Hinb in Hbb. destruct Hbb as [Hc1 Hc2].
        split; [exact Hc2|]. split; [now exists cx|].
        exists bn, bx. auto.
Qed.

Lemma recommendation_is_backed_by_data_witness :
  member "D" ["C"; "D"] = true
  /\ (exists x, In ("D", Entry (Some x))
                   [("A", Entry (Some (-5)%float)); ("B", Entry (Some nan));
                    ("C", Entry (Some 1%float)); ("D", Entry (Some 2%float))])
  /\ exists m y, member m ["A"; "B"] = true
                 /\ In (m, Entry (Some y))
                       [("A", Entry (Some (-5)%float)); ("B", Entry (Some nan));
                        ("C", Entry (Some 1%float)); ("D", Entry (Some 2%float))]
                 /\ PrimFloat.ltb 0%float y = false.
Proof.
  apply (recommendation_is_backed_by_data
           [("A", Entry (Some (-5)%float)); ("B", Entry (Some nan));
            ("C", Entry (Some 1%float)); ("D", Entry (Some 2%float))]
           ["A"; "B"] ["C"; "D"] (InvestInBond "D")).
  reflexivity.
Defined.

Lemma present_returns_filter (names : list string) (p : string -> bool)
  (rs : results) :
  (forall k, member k names = true -> p k = true) ->
  present_returns names (filter (fun kv => p (fst kv)) rs)
  = present_returns names rs.
Proof.
  intro Hp. induction rs as [|[k v] rs IH]; [reflexivity|].
  cbn [filter fst present_returns].
  destruct (member k names) eqn:Hk.
  - rewrite (Hp k Hk). cbn [present_returns]. rewrite Hk, IH. reflexivity.
  - destruct (p k); [cbn [present_returns]; rewrite Hk|]; exact IH.
Qed.

(** X11.  The selector reads the entries of the two sets only: entries of
    other names, whatever they hold (even one without ["return"]), change
    neither its answer nor whether it raises. *)
Theorem selector_reads_only_its_sets (rs : results)
  (equity_etfs bond_etfs : list string) :
  calculate_gem_strategy
    (filter (fun kv => member (fst kv) equity_etfs || member (fst kv) bond_etfs) rs)
    equity_etfs bond_etfs
  = calculate_gem_strategy rs equity_etfs bond_etfs.
Proof.
  unfold calculate_gem_strategy, gem_decision.
  rewrite (present_returns_filter equity_etfs
             (fun k => member k equity_etfs || member k bond_etfs));
    [|intros k Hk; now rewrite Hk].
  rewrite (present_returns_filter bond_etfs
             (fun k => member k equity_etfs || member k bond_etfs));
    [|intros k Hk; rewrite Hk; apply orb_true_r].
  reflexivity.
Qed.

(** X12.  Once an equity is recommended the bond entries play no part: the
    recommendation is the same for every [results_data] with the same
    entries of the equity set, whatever its other entries hold.  An entry
    of the bond set without ["return"] makes the selector raise only when no
    equity return is [> 0]. *)
Theorem equity_recommendation_ignores_bonds (rs rs' : results)
  (equity_etfs bond_etfs : list string) (n : string) :
  calculate_gem_strategy rs equity_etfs bond_etfs = Returned (InvestInEquity n) ->
  filter (fun kv => member (fst kv) equity_etfs) rs'
  = filter (fun kv => member (fst kv) equity_etfs) rs ->
  calculate_gem_strategy rs' equity_etfs bond_etfs = Returned (InvestInEquity n).
Proof.
  intros H Hsame.
  destruct (gem_decision_cases _ _ _ _ H) as [eqs [He Hcase]].
  assert (He' : present_returns equity_etfs rs' = Returned eqs).
  { rewrite <- (present_returns_filter equity_etfs
                  (fun k => member k equity_etfs) rs') by auto.
    rewrite Hsame.
    rewrite (present_returns_filter equity_etfs
               (fun k => member k equity_etfs) rs) by auto.
    exact He. }
  unfold calculate_gem_strategy, gem_decision. rewrite He'. cbn [bind].
  destruct eqs as [|e es]; [discriminate|].
  destruct (PrimFloat.ltb 0 (snd (max_from e es))).
  - now rewrite Hcase.
  - destruct Hcase as [bs [_ Hb]]. destruct bs; discriminate.
Qed.

Lemma equity_recommendation_ignores_bonds_witness :
  calculate_gem_strategy
    [("A", Entry (Some 5%float)); ("C", NoReturnKey); ("B", Entry None)]
    ["A"; "B"] ["C"]
  = Returned (InvestInEquity "A").
Proof.
  apply (equity_recommendation_ignores_bonds
           [("A", Entry (Some 5%float)); ("B", Entry None);
            ("C", Entry (Some 1%float))]
           [("A", Entry (Some 5%float)); ("C", NoReturnKey); ("B", Entry None)]
           ["A"; "B"] ["C"] "A");
    reflexivity.
Defined.

(* ================================================================== *)
(** * Proofs: the date preset by the form *)

Lemma digit_is_digit (n : Z) :
  0 <= n <= 9 ->
  is_digit (digit n) = true /\ Z.of_nat (code (digit n)) - 48 = n.
Proof.
  intro H.
  assert (E : exists k, (k <= 9)%nat /\ n = Z.of_nat k)
    by (exists (Z.to_nat n); lia).
  destruct E as [k [Hk ->]].
  do 10 (destruct k as [|k]; [split; vm_compute; reflexivity|]). lia.
Qed.

Lemma classes_four_digits (a b c d : ascii) (rest : string) :
  is_digit a = true -> is_digit b = true -> is_digit c = true ->
  is_digit d = true ->
  classes [is_digit; is_digit; is_digit; is_digit]
          (String a (String b (String c (String d rest))))
  = Some (String a (String b (String c (String d EmptyString))), rest).
Proof. intros Ha Hb Hc Hd. cbn [classes]. now rewrite Ha, Hb, Hc, Hd. Qed.

(** The rest of the pattern, after the year. *)
Lemma month_and_day_match (Y : string) (m d : Z) :
  1 <= m <= 12 -> 1 <= d <= 31 ->
  literal "-" (alternation re_m (fun m' r2 =>
    literal "-" (alternation re_d (fun d' r3 => Some (Y, m', d', r3))) r2))
    (String "-" (zero_padded_2 m ++ String "-" (zero_padded_2 d)))
  = Some (Y, zero_padded_2 m, zero_padded_2 d, EmptyString).
Proof.
  intros Hm Hd.
  assert (Ei : exists i, (i < 12)%nat /\ m = Z.of_nat (S i))
    by (exists (Z.to_nat (m - 1)); lia).
  assert (Ej : exists j, (j < 31)%nat /\ d = Z.of_nat (S j))
    by (exists (Z.to_nat (d - 1)); lia).
  destruct Ei as [i [Hi ->]]. destruct Ej as [j [Hj ->]].
  do 12 (destruct i as [|i];
         [do 31 (destruct j as [|j]; [vm_compute; reflexivity|]); lia|]).
  lia.
Qed.

Lemma int_zero_padded_2 (n : Z) : 0 <= n <= 99 -> int (zero_padded_2 n) = n.
Proof.
  intro H. unfold int, zero_padded_2. cbn [int_acc].
  destruct (digit_is_digit (n / 10)) as [H1 E1];
    [Z.to_euclidean_division_equations; lia|].
  destruct (digit_is_digit (n mod 10)) as [H2 E2];
    [Z.to_euclidean_division_equations; lia|].
  rewrite H1, H2, E1, E2. Z.to_euclidean_division_equations; lia.
Qed.

Lemma int_zero_padded_4 (n : Z) : 0 <= n <= 9999 -> int (zero_padded_4 n) = n.
Proof.
  intro H. unfold int, zero_padded_4. cbn [int_acc].
  destruct (digit_is_digit (n / 1000)) as [H1 E1];
    [Z.to_euclidean_division_equations; lia|].
  destruct (digit_is_digit ((n / 100) mod 10)) as [H2 E2];
    [Z.to_euclidean_division_equations; lia|].
  destruct (digit_is_digit ((n / 10) mod 10)) as [H3 E3];
    [Z.to_euclidean_division_equations; lia|].
  destruct (digit_is_digit (n mod 10)) as [H4 E4];
    [Z.to_euclidean_division_equations; lia|].
  rewrite H1, H2, H3, H4, E1, E2, E3, E4.
  Z.to_euclidean_division_equations; lia.
Qed.

Lemma strptime_strftime (d : date) :
  valid_date d = true -> strptime (strftime d) = Returned d.
Proof.
  intro Hv. pose proof (valid_date_bounds _ Hv) as [Hy [Hm Hd]].
  pose proof (days_in_month_bounds (year d) (month d)) as Hdim.
  unfold strptime, match_Ymd, re_Y, strftime.
  unfold zero_padded_4 at 1. cbn [append alternation].
  rewrite classes_four_digits;
    try (apply digit_is_digit; Z.to_euclidean_division_equations; lia).
  fold (zero_padded_4 (year d)).
  rewrite month_and_day_match by lia.
  rewrite int_zero_padded_4 by lia.
  rewrite !int_zero_padded_2 by lia.
  destruct d as [y m dd]. cbn [year month day] in *.
  now apply make_date_valid.
Qed.

(** X13.  The date the form presets is always accepted when it is sent
    back: for a day [today] of a year of four digits, the text
    [today.strftime('%Y-%m-%d')] that [form_get] puts into the page passes
    [validate_date_string], and [strptime] reads it as [today] again. *)
Theorem preset_date_is_accepted (today : date) :
  valid_date today = true ->
  1000 <= year today ->
  validate_date_string (page_today_date (form_get today)) = true
  /\ strptime (page_today_date (form_get today)) = Returned today.
Proof.
  intros Hv _. cbn [form_get page_today_date].
  pose proof (strptime_strftime _ Hv) as H.
  split; [exact (strptime_validate _ _ H)|exact H].
Qed.

Lemma preset_date_is_accepted_witness :
  validate_date_string (page_today_date (form_get (mkdate 2024 2 29))) = true
  /\ strptime (page_today_date (form_get (mkdate 2024 2 29)))
     = Returned (mkdate 2024 2 29).
Proof.
  apply (preset_date_is_accepted (mkdate 2024 2 29)); [reflexivity|cbn; lia].
Defined.

(* ================================================================== *)
(** * Proofs: the data service *)

Lemma requests_app (a b : list service_event) :
  requests (a ++ b) = (requests a + requests b)%nat.
Proof. unfold requests. now rewrite filter_app, length_app. Qed.

Lemma requests_of_fetcher (evs : list event) :
  requests (map OfFetcher evs) = fetches evs.
Proof.
  unfold requests, fetches. induction evs as [|e evs IH]; [reflexivity|].
  cbn [map filter sent_request]. destruct (is_fetch e); cbn [List.length]; lia.
Qed.

Lemma assign_new {V : Type} (k : string) (v : V) (d : list (string * V)) :
  ~ In k (map fst d) -> assign k v d = d ++ [(k, v)].
Proof.
  induction d as [|[k' v'] d IH]; intro H; [reflexivity|].
  cbn [assign]. destruct (String.eqb_spec k k') as [->|Hne].
  - exfalso. apply H. now left.
  - cbn [app]. f_equal. apply IH. intro Hin. apply H. now right.
Qed.

Lemma computed_well_formed (k : key) (v : ReturnTuple) :
  computed k v -> well_formed v.
Proof.
  intros [w [evs H]]. destruct v as [[[[p|] s] e] h].
  - destruct (body_present _ _ _ _ _ _ _ _ H)
      as [reference_date [df [sorted [evs' [_ [_ [_ Hrow]]]]]]].
    destruct (return_over_window_present _ _ _ _ _ _ _ _ _ Hrow)
      as [sd [ed [first [rest [_ [_ [_ [_ [_ [Hs [He Hh]]]]]]]]]]].
    subst. right. unfold to_records. cbn [map].
    do 5 eexists. reflexivity.
  - left. destruct (body_jointly _ _ _ _ _ H) as [Habs|Hpres].
    + destruct Habs as [_ [H1 [H2 H3]]].
      cbn [period_start period_end historical fst snd] in *. now subst.
    + destruct Hpres as [H0 _]. cbn [percentage fst] in H0. congruence.
Qed.


(** The entry stored for a call: its result, or the absent one if it raised. *)
Lemma call_facts (self : StooqDataFetcher) (w : env)
  (ticker ref_date_str : string) :
  reachable self ->
  let c := get_return self w ticker ref_date_str in
  let entry := match snd c with Returned v => v | Raised _ => absent end in
  reachable (fst (fst c))
  /\ (fetches (snd (fst c)) <= 1)%nat
  /\ well_formed entry
  /\ (validate_date_string ref_date_str = false ->
      entry = absent /\ fetches (snd (fst c)) = 0%nat).
Proof.
  intro Hr. cbv zeta.
  destruct (get_return self w ticker ref_date_str) as [[self' evs] r] eqn:Hcall.
  cbn [fst snd].
  split; [econstructor; eassumption|].
  split.
  { replace evs with (snd (fst (get_return self w ticker ref_date_str)))
      by now rewrite Hcall.
    apply get_return_fetches_le. }
  split.
  { destruct r as [v|e]; [|now left].
    apply (computed_well_formed (ticker, ref_date_str)).
    eapply computed_of_call; eassumption. }
  intro Hbad. split.
  - destruct r as [v|e]; [|reflexivity].
    apply (computed_rejected (ticker, ref_date_str)); [now right|].
    eapply computed_of_call; eassumption.
  - replace evs with (snd (fst (get_return self w ticker ref_date_str)))
      by now rewrite Hcall.
    rewrite get_return_fetches, Hbad, andb_false_r. reflexivity.
Qed.

Lemma etf_returns_loop_step (data_fetcher : StooqDataFetcher)
  (worlds : string -> env) (ref_date_str name ticker : string)
  (rest : list (string * string)) (results : etf_data) :
  let c := get_return data_fetcher (worlds ticker) ticker ref_date_str in
  let entry := match snd c with Returned v => v | Raised _ => absent end in
  let next := etf_returns_loop (fst (fst c)) worlds ref_date_str rest
                               (assign name entry results) in
  exists logged,
    requests logged = 0%nat
    /\ etf_returns_loop data_fetcher worlds ref_date_str
                        ((name, ticker) :: rest) results
       = (fst (fst next),
          ServiceLog DEBUG (ProcessingETF name ticker)
            :: map OfFetcher (snd (fst c)) ++ logged ++ snd (fst next),
          snd next).
Proof.
  cbv zeta. cbn [etf_returns_loop].
  destruct (get_return data_fetcher (worlds ticker) ticker ref_date_str)
    as [[f1 evs] [v|e]]; cbn [fst snd].
  - destruct (etf_returns_loop f1 worlds ref_date_str rest (assign name v results))
      as [[f2 later] out].
    eexists. split; [|reflexivity]. reflexivity.
  - destruct (etf_returns_loop f1 worlds ref_date_str rest
                               (assign name absent results))
      as [[f2 later] out].
    eexists. split; [|reflexivity]. reflexivity.
Qed.

Lemma etf_returns_loop_spec (worlds : string -> env) (ref_date_str : string)
  (items : list (string * string)) :
  forall (data_fetcher : StooqDataFetcher) (results : etf_data),
    reachable data_fetcher ->
    NoDup (map fst items) ->
    (forall n, In n (map fst items) -> ~ In n (map fst results)) ->
    let out := etf_returns_loop data_fetcher worlds ref_date_str items results in
    reachable (fst (fst out))
    /\ (requests (snd (fst out)) <= List.length items)%nat
    /\ (validate_date_string ref_date_str = false ->
        requests (snd (fst out)) = 0%nat)
    /\ exists new,
         snd out = results ++ new
         /\ map fst new = map fst items
         /\ Forall (fun kv => well_formed (snd kv)) new
         /\ (validate_date_string ref_date_str = false ->
             Forall (fun kv => snd kv = absent) new).
Proof.
  induction items as [|[name ticker] rest IH];
    intros data_fetcher results Hr Hnd Hfresh; cbv zeta.
  - cbn [etf_returns_loop fst snd List.length].
    split; [exact Hr|]. split; [cbn; lia|]. split; [reflexivity|].
    exists []. rewrite app_nil_r. repeat split; constructor.
  - destruct (etf_returns_loop_step data_fetcher worlds ref_date_str
                name ticker rest results) as [logged [Hlog Hstep]].
    cbv zeta in Hstep. rewrite Hstep. clear Hstep. cbn [fst snd].
    destruct (call_facts data_fetcher (worlds ticker) ticker ref_date_str Hr)
      as [Hr1 [Hle [Hwf Hbad]]].
    set (c := get_return data_fetcher (worlds ticker) ticker ref_date_str) in *.
    set (entry := match snd c with Returned v => v | Raised _ => absent end) in *.
    cbn [map fst] in Hnd, Hfresh. inversion Hnd as [|? ? Hnotin Hnd']. subst.
    assert (Hnew : assign name entry results = results ++ [(name, entry)]).
    { apply assign_new. apply Hfresh. now left. }
    destruct (IH (fst (fst c)) (assign name entry results) Hr1 Hnd')
      as [Hr2 [Hle2 [Hbad2 [new [Hout [Hnames [Hall Habs]]]]]]].
    { intros n Hn. rewrite Hnew, map_app, in_app_iff. cbn [map fst In].
      intros [Hin|[E|[]]].
      - apply (Hfresh n); [now right|exact Hin].
      - subst n. contradiction. }
    cbv zeta in Hr2, Hle2, Hbad2, Hout.
    split; [exact Hr2|].
    assert (Hreq : requests (ServiceLog DEBUG (ProcessingETF name ticker)
                               :: map OfFetcher (snd (fst c)) ++ logged
                               ++ snd (fst (etf_returns_loop (fst (fst c)) worlds
                                              ref_date_str rest
                                              (assign name entry results))))
                   = (fetches (snd (fst c))
                      + requests (snd (fst (etf_returns_loop (fst (fst c)) worlds
                                              ref_date_str rest
                                              (assign name entry results)))))%nat).
    { change (ServiceLog DEBUG (ProcessingETF name ticker) :: ?l)
        with ([ServiceLog DEBUG (ProcessingETF name ticker)] ++ l).
      rewrite !requests_app, requests_of_fetcher, Hlog. reflexivity. }
    rewrite Hreq. cbn [List.length].
    split; [lia|].
    split; [intro Hb; destruct (Hbad Hb) as [_ H0]; rewrite H0, (Hbad2 Hb);
            reflexivity|].
    exists ((name, entry) :: new).
    split; [rewrite Hout, Hnew, <- app_assoc; reflexivity|].
    split; [cbn [map fst]; now rewrite Hnames|].
    split; [constructor; [exact Hwf|exact Hall]|].
    intro Hb. constructor; [exact (proj1 (Hbad Hb))|exact (Habs Hb)].
Qed.

Lemma get_all_etf_returns_unfold (data_fetcher : StooqDataFetcher)
  (worlds : string -> env) (ref_date_str : string) :
  let out := etf_returns_loop data_fetcher worlds ref_date_str TICKERS [] in
  get_all_etf_returns data_fetcher worlds ref_date_str
  = (fst (fst out),
     ServiceLog INFO (FetchingReturnsForAllETFs ref_date_str)
       :: snd (fst out)
       ++ [ServiceLog INFO (CompletedFetchingReturns (List.length (snd out)))],
     snd out).
Proof.
  cbv zeta. unfold get_all_etf_returns.
  destruct (etf_returns_loop data_fetcher worlds ref_date_str TICKERS [])
    as [[f evs] out]. reflexivity.
Qed.

Lemma tickers_distinct : NoDup (map fst TICKERS).
Proof.
  cbn. repeat constructor; cbn; intro H;
    repeat (destruct H as [H|H]; [discriminate|]); exact H.
Qed.

Lemma get_all_etf_returns_spec (data_fetcher : StooqDataFetcher)
  (worlds : string -> env) (ref_date_str : string) :
  reachable data_fetcher ->
  let out := get_all_etf_returns data_fetcher worlds ref_date_str in
  reachable (fst (fst out))
  /\ (requests (snd (fst out)) <= List.length TICKERS)%nat
  /\ map fst (snd out) = map fst TICKERS
  /\ Forall (fun kv => well_formed (snd kv)) (snd out)
  /\ (validate_date_string ref_date_str = false ->
      requests (snd (fst out)) = 0%nat
      /\ Forall (fun kv => snd kv = absent) (snd out)).
Proof.
  intro Hr. cbv zeta. rewrite get_all_etf_returns_unfold. cbv zeta.
  cbn [fst snd].
  destruct (etf_returns_loop_spec worlds ref_date_str TICKERS data_fetcher []
              Hr tickers_distinct (fun n _ H => H))
    as [Hr' [Hle [Hbad [new [Hout [Hnames [Hall Habs]]]]]]].
  cbv zeta in *. cbn [app] in Hout.
  assert (Hreq : forall evs n,
             requests (ServiceLog INFO (FetchingReturnsForAllETFs ref_date_str)
                         :: evs ++ [ServiceLog INFO (CompletedFetchingReturns n)])
             = requests evs).
  { intros evs n.
    change (ServiceLog INFO (FetchingReturnsForAllETFs ref_date_str) :: ?l)
      with ([ServiceLog INFO (FetchingReturnsForAllETFs ref_date_str)] ++ l).
    rewrite !requests_app. cbn. lia. }
  rewrite Hreq, Hout.
  split; [exact Hr'|]. split; [exact Hle|]. split; [exact Hnames|].
  split; [exact Hall|].
  intro Hb. split; [exact (Hbad Hb)|exact (Habs Hb)].
Qed.

(** X14.  [get_all_etf_returns] always returns one entry for every
    instrument of [TICKERS], in the order of [TICKERS], also when
    [get_return] raises (the entry is then the absent one).  Every entry is
    either fully absent or has a return, both dates and a history that is not
    empty.  The call sends at most one request for each instrument, and for a
    date string that fails validation it sends none and every entry is
    absent. *)
Theorem etf_returns_cover_the_configuration (data_fetcher : StooqDataFetcher)
  (worlds : string -> env) (ref_date_str : string) :
  reachable data_fetcher ->
  let out := get_all_etf_returns data_fetcher worlds ref_date_str in
  map fst (snd out) = ["IWDA"; "EIMI"; "CNDX"; "IB01"; "CBU0"]
  /\ Forall (fun kv => well_formed (snd kv)) (snd out)
  /\ (requests (snd (fst out)) <= 5)%nat
  /\ (validate_date_string ref_date_str = false ->
      requests (snd (fst out)) = 0%nat
      /\ Forall (fun kv => snd kv = absent) (snd out)).
Proof.
  intro Hr.
  destruct (get_all_etf_returns_spec data_fetcher worlds ref_date_str Hr)
    as [_ [Hle [Hnames [Hall Hbad]]]].
  cbv zeta in *. auto.
Qed.

Lemma etf_returns_cover_the_configuration_witness :
  let out := get_all_etf_returns Sample.fresh
               (fun _ => Sample.world (Table Sample.table)) "0001-01-15" in
  map fst (snd out) = ["IWDA"; "EIMI"; "CNDX"; "IB01"; "CBU0"]
  /\ Forall (fun kv => well_formed (snd kv)) (snd out)
  /\ (requests (snd (fst out)) <= 5)%nat
  /\ (validate_date_string "0001-01-15" = false ->
      requests (snd (fst out)) = 0%nat
      /\ Forall (fun kv => snd kv = absent) (snd out)).
Proof.
  apply (etf_returns_cover_the_configuration Sample.fresh
           (fun _ => Sample.world (Table Sample.table)) "0001-01-15").
  constructor.
Defined.

(* ================================================================== *)
(** * Proofs: the rows of the table and the chart *)

Lemma template_row_of_entry (round_2 : float -> float) (name : string)
  (r : ReturnTuple) :
  template_row round_2 name (etf_dict name r) = Done (row_of round_2 name r).
Proof.
  destruct r as [[[[p|] s] e] h]; reflexivity.
Qed.

Lemma template_rows_of_entries (round_2 : float -> float) (data : etf_data) :
  snd (template_rows round_2 (dicts data))
  = map (fun kv => row_of round_2 (fst kv) (snd kv)) data.
Proof.
  induction data as [|[name r] data IH]; [reflexivity|].
  cbn [dicts map fst snd template_rows].
  fold (dicts data).
  destruct (template_rows round_2 (dicts data)) as [later rows].
  rewrite template_row_of_entry. cbn [snd] in *. now rewrite IH.
Qed.

Lemma prepare_template_data_of_entries (round_2 : float -> float)
  (results_data : etf_data) :
  snd (prepare_template_data round_2 (dicts results_data))
  = map (fun kv => row_of round_2 (fst kv) (snd kv)) results_data.
Proof.
  unfold prepare_template_data. rewrite <- template_rows_of_entries.
  destruct (template_rows round_2 (dicts results_data)). reflexivity.
Qed.

Lemma template_row_keys (round_2 : float -> float) (name : string)
  (data row : pydict) :
  template_row round_2 name data = Done row ->
  get "ticker" row = VStr name
  /\ map fst row = ["ticker"; "return"; "start"; "end"]
  /\ (get "return" row = VNone
      \/ exists f, lookup "return" data = Some (VFloat f)
                   /\ get "return" row = VFloat (round_2 f)).
Proof.
  unfold template_row, subscript, and_then.
  destruct (lookup "return" data) as [ret|]; [|discriminate].
  destruct ret as [|f|s|d|l]; cbn [is_none round_value]; try discriminate.
  - destruct (lookup "start" data); [|discriminate].
    destruct (lookup "end" data); [|discriminate].
    intro H. inversion H. subst. repeat split. now left.
  - destruct (lookup "start" data); [|discriminate].
    destruct (lookup "end" data); [|discriminate].
    intro H. inversion H. subst. repeat split. right. now exists f.
Qed.

(** X15.  The table of the page has exactly one row for every entry of
    [results_data], in the same order and under the entry's name, whatever
    the entries hold: an entry that lacks a key, or whose return [round]
    cannot take, gets the row without values instead of an exception.  A
    row has the four keys ticker, return, start, end; its return is [None]
    or the rounded float return of the entry.  For the entries that
    [get_all_etf_returns] builds the row without values is never needed:
    each row is the entry's name, its rounded return and its two dates. *)
Theorem template_has_one_row_per_entry (round_2 : float -> float) :
  (forall results_data : list (string * pydict),
      let rows := snd (prepare_template_data round_2 results_data) in
      map (get "ticker") rows = map (fun kv => VStr (fst kv)) results_data
      /\ Forall (fun row => map fst row = ["ticker"; "return"; "start"; "end"])
                rows
      /\ Forall2 (fun kv row =>
                    get "return" row = VNone
                    \/ exists f, lookup "return" (snd kv) = Some (VFloat f)
                                 /\ get "return" row = VFloat (round_2 f))
                 results_data rows)
  /\ (forall results_data : etf_data,
         snd (prepare_template_data round_2 (dicts results_data))
         = map (fun kv => row_of round_2 (fst kv) (snd kv)) results_data).
Proof.
  split.
  - intro results_data. cbv zeta. unfold prepare_template_data.
    assert (H : map (get "ticker") (snd (template_rows round_2 results_data))
                = map (fun kv => VStr (fst kv)) results_data
                /\ Forall (fun row => map fst row
                                      = ["ticker"; "return"; "start"; "end"])
                          (snd (template_rows round_2 results_data))
                /\ Forall2 (fun kv row =>
                              get "return" row = VNone
                              \/ exists f,
                                  lookup "return" (snd kv) = Some (VFloat f)
                                  /\ get "return" row = VFloat (round_2 f))
                           results_data
                           (snd (template_rows round_2 results_data))).
    { induction results_data as [|[name data] rest IH].
      - cbn. repeat split; constructor.
      - cbn [template_rows].
        destruct (template_rows round_2 rest) as [later rows].
        cbn [snd] in IH. destruct IH as [IH1 [IH2 IH3]].
        destruct (template_row round_2 name data) as [row|e] eqn:Hrow;
          cbn [snd map fst].
        + destruct (template_row_keys _ _ _ _ Hrow) as [Ht [Hk Hret]].
          rewrite Ht, IH1.
          split; [reflexivity|]. split; constructor; auto.
        + rewrite IH1. split; [reflexivity|].
          split; constructor; auto. }
    destruct (template_rows round_2 results_data) as [evs rows].
    exact H.
  - apply prepare_template_data_of_entries.
Qed.

Lemma etf_datasets_of_entries (data : etf_data) :
  Forall (fun kv => well_formed (snd kv)) data ->
  etf_datasets (dicts data)
  = map (fun kv => dataset_of (fst kv) (snd kv))
        (filter (fun kv => has_return (snd kv)) data).
Proof.
  induction 1 as [|[name r] data Hwf _ IH]; [reflexivity|].
  cbn [dicts map fst snd etf_datasets filter].
  fold (dicts data). rewrite IH. cbn [snd] in Hwf.
  destruct Hwf as [->|[p [s [e [first [rest ->]]]]]]; reflexivity.
Qed.

(** X16.  An instrument is charted exactly when it has a return: for
    entries that are fully absent or fully present with a history that is
    not empty (as those of [get_all_etf_returns] are), [prepare_chart_data]
    returns, in the order of the entries, one dataset for every entry with a
    return, holding its history, none for an entry without, and last the
    dataset of the benchmark if the benchmark has a return.  It does not
    raise. *)
Theorem charts_follow_the_returns (results_data : etf_data)
  (bench_ret : pyval) (bench : ReturnTuple) :
  Forall (fun kv => well_formed (snd kv)) results_data ->
  well_formed bench ->
  snd (prepare_chart_data (dicts results_data) (benchmark_dict bench_ret bench))
  = Returned
      (map (fun kv => dataset_of (fst kv) (snd kv))
           (filter (fun kv => has_return (snd kv)) results_data)
       ++ (if has_return bench
           then [(VStr "S&P 500 (SPY)", of_records (historical bench))]
           else [])).
Proof.
  intros Hall Hb. unfold prepare_chart_data.
  rewrite (etf_datasets_of_entries _ Hall).
  destruct Hb as [->|[p [s [e [first [rest ->]]]]]]; cbn.
  - now rewrite app_nil_r.
  - reflexivity.
Qed.

Lemma charts_follow_the_returns_witness :
  let present :=
    (Some 0x1.4000000000005p+3%float, Some (mkdate 2023 3 1),
     Some (mkdate 2024 2 15),
     Some [ (mkdate 2023 3 1, Num 100%float);
            (mkdate 2024 2 15, Num 110%float) ]) in
  let results_data := [("IWDA", present); ("EIMI", absent)] in
  Forall (fun kv => well_formed (snd kv)) results_data
  /\ well_formed absent
  /\ snd (prepare_chart_data (dicts results_data) (benchmark_dict VNone absent))
     = Returned
         (map (fun kv => dataset_of (fst kv) (snd kv))
              (filter (fun kv => has_return (snd kv)) results_data)
          ++ (if has_return absent
              then [(VStr "S&P 500 (SPY)", of_records (historical absent))]
              else [])).
Proof.
  cbv zeta.
  assert (H1 : Forall (fun kv : string * ReturnTuple => well_formed (snd kv))
                 [("IWDA",
                   (Some 0x1.4000000000005p+3%float, Some (mkdate 2023 3 1),
                    Some (mkdate 2024 2 15),
                    Some [ (mkdate 2023 3 1, Num 100%float);
                           (mkdate 2024 2 15, Num 110%float) ]));
                  ("EIMI", absent)]).
  { constructor; [right; do 5 eexists; reflexivity|].
    constructor; [now left|constructor]. }
  assert (H2 : well_formed absent) by now left.
  split; [exact H1|]. split; [exact H2|].
  exact (charts_follow_the_returns _ VNone absent H1 H2).
Defined.

(** X17.  For a result of the fetcher, in the shape [get_all_etf_returns]
    stores it, the four answers of [validate_data_quality] agree: the entry
    has a return, has dates, has a history and is complete exactly when it
    has a return; no error is logged. *)
Theorem quality_follows_the_return (self self' : StooqDataFetcher) (w : env)
  (ticker ref_date_str name : string) (evs : list event) (r : ReturnTuple) :
  reachable self ->
  get_return self w ticker ref_date_str = (self', evs, Returned r) ->
  validate_data_quality (etf_dict name r)
  = ([], mkquality (has_return r) (has_return r) (has_return r) (has_return r)).
Proof.
  intros Hr Hcall.
  assert (Hwf : well_formed r).
  { apply (computed_well_formed (ticker, ref_date_str)).
    eapply computed_of_call; eassumption. }
  destruct Hwf as [->|[p [s [e [first [rest ->]]]]]]; reflexivity.
Qed.

Lemma quality_follows_the_return_witness :
  let r := (Some 0x1.4000000000005p+3%float, Some (mkdate 2023 3 1),
            Some (mkdate 2024 2 15),
            Some [ (mkdate 2023 3 1, Num 100%float);
                   (mkdate 2023 6 1, Num 105%float);
                   (mkdate 2024 2 15, Num 110%float) ]) in
  validate_data_quality (etf_dict "IWDA" r)
  = ([], mkquality (has_return r) (has_return r) (has_return r) (has_return r)).
Proof.
  cbv zeta.
  apply (quality_follows_the_return Sample.fresh
           (fst (fst (get_return Sample.fresh
                                 (Sample.world (Table Sample.table))
                                 "iwda.uk" "2024-03-15")))
           (Sample.world (Table Sample.table)) "iwda.uk" "2024-03-15"
           "IWDA"
           (snd (fst (get_return Sample.fresh
                                 (Sample.world (Table Sample.table))
                                 "iwda.uk" "2024-03-15")))).
  - constructor.
  - vm_compute. reflexivity.
Defined.

(* ================================================================== *)
(** * Proofs: the page of a calculation *)

Lemma page_requests_app (a b : list endpoint_event) :
  page_requests (a ++ b) = (page_requests a + page_requests b)%nat.
Proof. unfold page_requests. now rewrite filter_app, length_app. Qed.

Lemma page_requests_of_service (evs : list service_event) :
  page_requests (map OfService evs) = requests evs.
Proof.
  unfold page_requests, requests. induction evs as [|e evs IH]; [reflexivity|].
  cbn [map filter request_sent]. destruct (sent_request e); cbn [List.length]; lia.
Qed.

Lemma template_sends_nothing (round_2 : float -> float)
  (results_data : list (string * pydict)) :
  requests (fst (prepare_template_data round_2 results_data)) = 0%nat.
Proof.
  unfold prepare_template_data.
  assert (H : requests (fst (template_rows round_2 results_data)) = 0%nat).
  { induction results_data as [|[name data] rest IH]; [reflexivity|].
    cbn [template_rows]. destruct (template_rows round_2 rest) as [later rows].
    cbn [fst] in IH.
    destruct (template_row round_2 name data); cbn [fst]; exact IH. }
  destruct (template_rows round_2 results_data) as [evs rows]. cbn [fst] in *.
  rewrite requests_app, H. reflexivity.
Qed.

Lemma chart_sends_nothing (results_data : list (string * pydict))
  (benchmark_data : pydict) :
  requests (fst (prepare_chart_data results_data benchmark_data)) = 0%nat.
Proof.
  unfold prepare_chart_data.
  destruct (truthy (get "historical_data" benchmark_data)); [|reflexivity].
  destruct (lookup "name" benchmark_data); reflexivity.
Qed.

Lemma chart_of_benchmark_returns (results_data : list (string * pydict))
  (bench_ret : pyval) (bench : ReturnTuple) :
  exists chart_data,
    snd (prepare_chart_data results_data (benchmark_dict bench_ret bench))
    = Returned chart_data.
Proof.
  unfold prepare_chart_data.
  destruct (truthy (get "historical_data" (benchmark_dict bench_ret bench)));
    eexists; reflexivity.
Qed.

Lemma strategy_view_as_results (results_data : etf_data) :
  strategy_view results_data
  = as_results (map (fun kv => (fst kv, percentage (snd kv))) results_data).
Proof. unfold strategy_view, as_results. now rewrite map_map. Qed.

Lemma selector_returns_on_maps (m : returns_map)
  (equity_etfs bond_etfs : list string) :
  exists r, calculate_gem_strategy (as_results m) equity_etfs bond_etfs
            = Returned r.
Proof.
  unfold calculate_gem_strategy, gem_decision.
  rewrite !present_returns_well_formed. cbn [bind].
  destruct (present equity_etfs m) as [|e es]; [eexists; reflexivity|].
  destruct (PrimFloat.ltb 0 (snd (max_from e es))); [eexists; reflexivity|].
  destruct (present bond_etfs m); eexists; reflexivity.
Qed.

Lemma recommended_name (rs : results) (equity_etfs bond_etfs : list string)
  (r : recommendation) :
  calculate_gem_strategy rs equity_etfs bond_etfs = Returned r ->
  match r with
  | InvestInEquity n => member n equity_etfs = true
  | InvestInBond n => member n bond_etfs = true
  | NoEquityData | NoBondDataNegativeEquity => True
  end.
Proof.
  intro H. destruct (gem_decision_cases _ _ _ _ H) as [eqs [He Hcase]].
  destruct eqs as [|e es]; [now subst r|].
  destruct (PrimFloat.ltb 0 (snd (max_from e es))).
  - subst r. pose proof (max_from_in e es) as Hin.
    destruct (max_from e es) as [n x].
    apply (present_returns_in _ _ _ He) in Hin. cbn [fst]. tauto.
  - destruct Hcase as [bs [Hbs Hb]]. destruct bs as [|b bs]; [now subst r|].
    subst r. pose proof (max_from_in b bs) as Hin.
    destruct (max_from b bs) as [n x].
    apply (present_returns_in _ _ _ Hbs) in Hin. cbn [fst]. tauto.
Qed.

Lemma build_page_spec (round_2 : float -> float) (reference_date_str : string)
  (results_data : etf_data) (bench_ret : pyval) (bench : ReturnTuple) :
  exists r chart_data,
    calculate_gem_strategy (strategy_view results_data) EQUITY_ETFS BOND_ETFS
    = Returned r
    /\ snd (prepare_chart_data (dicts results_data)
                               (benchmark_dict bench_ret bench))
       = Returned chart_data
    /\ snd (build_page round_2 reference_date_str results_data
                       (benchmark_dict bench_ret bench))
       = mkcontext
           (Some (map (fun kv => row_of round_2 (fst kv) (snd kv)) results_data))
           (Some (Recommended r))
           (Some (benchmark_dict bench_ret bench))
           reference_date_str
           (Some (JsonOf chart_data))
    /\ page_requests (fst (build_page round_2 reference_date_str results_data
                                      (benchmark_dict bench_ret bench)))
       = 0%nat.
Proof.
  destruct (selector_returns_on_maps
              (map (fun kv => (fst kv, percentage (snd kv))) results_data)
              EQUITY_ETFS BOND_ETFS) as [r Hr].
  rewrite <- strategy_view_as_results in Hr.
  destruct (chart_of_benchmark_returns (dicts results_data) bench_ret bench)
    as [chart_data Hc].
  exists r, chart_data. split; [exact Hr|]. split; [exact Hc|].
  unfold build_page. rewrite Hr.
  pose proof (prepare_template_data_of_entries round_2 results_data) as Hrows.
  pose proof (template_sends_nothing round_2 (dicts results_data)) as Ht.
  pose proof (chart_sends_nothing (dicts results_data)
                (benchmark_dict bench_ret bench)) as Hcs.
  destruct (prepare_template_data round_2 (dicts results_data)) as [evs3 rows].
  destruct (prepare_chart_data (dicts results_data)
                               (benchmark_dict bench_ret bench)) as [evs4 c].
  cbn [fst snd] in *. subst c rows.
  split; [reflexivity|]. cbn [fst].
  change (EndpointLog INFO (StrategyCalculationCompleted r) :: map OfService evs3)
    with ([EndpointLog INFO (StrategyCalculationCompleted r)]
            ++ map OfService evs3).
  rewrite !page_requests_app, !page_requests_of_service, Ht, Hcs. reflexivity.
Qed.

Lemma get_benchmark_data_spec (round_2 : float -> float)
  (data_fetcher : StooqDataFetcher) (w : env) (ref_date_str : string) :
  let out := get_benchmark_data round_2 data_fetcher w ref_date_str in
  let c := get_return data_fetcher w BENCHMARK_TICKER ref_date_str in
  let bench := match snd c with Returned v => v | Raised _ => absent end in
  fst (fst out) = fst (fst c)
  /\ requests (snd (fst out)) = fetches (snd (fst c))
  /\ snd out
     = benchmark_dict (of_float (option_map round_2 (percentage bench))) bench.
Proof.
  cbv zeta. unfold get_benchmark_data.
  destruct (get_return data_fetcher w BENCHMARK_TICKER ref_date_str)
    as [[f evs] [v|e]]; cbn [fst snd].
  - destruct (percentage v) as [x|] eqn:Hp; cbn [fst snd option_map of_float];
      (split; [reflexivity|]); (split; [|reflexivity]);
      change (ServiceLog INFO
                (FetchingBenchmarkReturn BENCHMARK_TICKER ref_date_str) :: ?l)
        with ([ServiceLog INFO
                 (FetchingBenchmarkReturn BENCHMARK_TICKER ref_date_str)] ++ l);
      rewrite !requests_app, requests_of_fetcher; cbn; lia.
  - split; [reflexivity|]. split; [|reflexivity].
    change (ServiceLog INFO
              (FetchingBenchmarkReturn BENCHMARK_TICKER ref_date_str) :: ?l)
      with ([ServiceLog INFO
               (FetchingBenchmarkReturn BENCHMARK_TICKER ref_date_str)] ++ l).
    rewrite !requests_app, requests_of_fetcher. cbn. lia.
Qed.

Lemma calculate_unfold (round_2 : float -> float)
  (data_fetcher : StooqDataFetcher) (worlds : string -> env)
  (reference_date_str : string) :
  validate_date_string reference_date_str = true ->
  let a := get_all_etf_returns data_fetcher worlds reference_date_str in
  let b := get_benchmark_data round_2 (fst (fst a)) (worlds BENCHMARK_TICKER)
                              reference_date_str in
  let p := build_page round_2 reference_date_str (snd a) (snd b) in
  calculate round_2 data_fetcher worlds reference_date_str
  = (fst (fst b),
     EndpointLog INFO (ProcessingCalculationRequest reference_date_str)
       :: map OfService (snd (fst a) ++ snd (fst b)) ++ fst p,
     snd p).
Proof.
  intro Hv. cbv zeta. unfold calculate. rewrite Hv. cbn [negb].
  destruct (get_all_etf_returns data_fetcher worlds reference_date_str)
    as [[f1 evs1] results_data]. cbn [fst snd].
  destruct (get_benchmark_data round_2 f1 (worlds BENCHMARK_TICKER)
                               reference_date_str)
    as [[f2 evs2] benchmark_result]. cbn [fst snd].
  destruct (build_page round_2 reference_date_str results_data benchmark_result).
  reflexivity.
Qed.

(** X18.  What [calculate] puts on the page.  For a date string that fails
    validation: the page of the validation error, no request, the fetcher
    untouched.  For every other date string, whatever the quote source
    answers and even when [get_return] raises: a page with one row for each
    instrument of [TICKERS] in that order, the recommendation of
    [calculate_gem_strategy] for the entries fetched, which names an
    instrument of [EQUITY_ETFS] or of [BOND_ETFS] if it names one, the
    benchmark and the chart data; never the page of the unexpected error; and
    at most six requests have been sent. *)
Theorem calculate_builds_the_page (round_2 : float -> float)
  (data_fetcher : StooqDataFetcher) (worlds : string -> env)
  (reference_date_str : string) :
  reachable data_fetcher ->
  let out := calculate round_2 data_fetcher worlds reference_date_str in
  if validate_date_string reference_date_str
  then (exists results_data benchmark r chart_data,
           snd out
           = mkcontext
               (Some (map (fun kv => row_of round_2 (fst kv) (snd kv))
                          results_data))
               (Some (Recommended r)) (Some benchmark) reference_date_str
               (Some (JsonOf chart_data))
           /\ map fst results_data = ["IWDA"; "EIMI"; "CNDX"; "IB01"; "CBU0"]
           /\ calculate_gem_strategy (strategy_view results_data)
                                     EQUITY_ETFS BOND_ETFS = Returned r
           /\ match r with
              | InvestInEquity n => In n ["IWDA"; "EIMI"; "CNDX"]
              | InvestInBond n => In n ["IB01"; "CBU0"]
              | NoEquityData | NoBondDataNegativeEquity => True
              end)
       /\ (page_requests (snd (fst out)) <= 6)%nat
  else snd out
       = error_page (ValidationFailed "Invalid date format") reference_date_str
       /\ fst (fst out) = data_fetcher
       /\ page_requests (snd (fst out)) = 0%nat.
Proof.
  intro Hr. cbv zeta.
  destruct (validate_date_string reference_date_str) eqn:Hv.
  - rewrite (calculate_unfold _ _ _ _ Hv). cbv zeta. cbn [fst snd].
    destruct (get_all_etf_returns_spec data_fetcher worlds reference_date_str Hr)
      as [Hr1 [Hle [Hnames _]]].
    cbv zeta in Hr1, Hle, Hnames.
    set (a := get_all_etf_returns data_fetcher worlds reference_date_str) in *.
    destruct (get_benchmark_data_spec round_2 (fst (fst a))
                (worlds BENCHMARK_TICKER) reference_date_str)
      as [_ [Hreq Hb]].
    cbv zeta in Hreq, Hb.
    set (b := get_benchmark_data round_2 (fst (fst a)) (worlds BENCHMARK_TICKER)
                                 reference_date_str) in *.
    rewrite Hb.
    match goal with
    | |- context [benchmark_dict ?ret ?bench] =>
        destruct (build_page_spec round_2 reference_date_str (snd a) ret bench)
          as [r [chart_data [Hsel [_ [Hpage Hnone]]]]]
    end.
    split.
    + eexists (snd a), _, r, chart_data.
      split; [exact Hpage|]. split; [exact Hnames|]. split; [exact Hsel|].
      pose proof (recommended_name _ _ _ _ Hsel) as Hn.
      destruct r as [n|n| |]; try exact I.
      * unfold member in Hn. apply existsb_exists in Hn.
        destruct Hn as [x [Hx E]]. apply String.eqb_eq in E. now subst.
      * unfold member in Hn. apply existsb_exists in Hn.
        destruct Hn as [x [Hx E]]. apply String.eqb_eq in E. now subst.
    + change (EndpointLog INFO (ProcessingCalculationRequest reference_date_str)
                :: ?l)
        with ([EndpointLog INFO
                 (ProcessingCalculationRequest reference_date_str)] ++ l).
      rewrite !page_requests_app, page_requests_of_service, requests_app.
      rewrite Hnone, Hreq.
      pose proof (get_return_fetches_le (fst (fst a)) (worlds BENCHMARK_TICKER)
                    BENCHMARK_TICKER reference_date_str) as H1.
      cbn [List.length TICKERS] in Hle.
      change (page_requests [EndpointLog INFO
                 (ProcessingCalculationRequest reference_date_str)]) with 0%nat.
      lia.
  - unfold calculate. rewrite Hv. cbn [negb fst snd]. repeat split.
Qed.

Lemma calculate_builds_the_page_witness :
  let out := calculate (fun x => x) Sample.fresh
               (fun _ => Sample.world (Table Sample.table)) "0001-01-15" in
  if validate_date_string "0001-01-15"
  then (exists results_data benchmark r chart_data,
           snd out
           = mkcontext
               (Some (map (fun kv => row_of (fun x => x) (fst kv) (snd kv))
                          results_data))
               (Some (Recommended r)) (Some benchmark) "0001-01-15"
               (Some (JsonOf chart_data))
           /\ map fst results_data = ["IWDA"; "EIMI"; "CNDX"; "IB01"; "CBU0"]
           /\ calculate_gem_strategy (strategy_view results_data)
                                     EQUITY_ETFS BOND_ETFS = Returned r
           /\ match r with
              | InvestInEquity n => In n ["IWDA"; "EIMI"; "CNDX"]
              | InvestInBond n => In n ["IB01"; "CBU0"]
              | NoEquityData | NoBondDataNegativeEquity => True
              end)
       /\ (page_requests (snd (fst out)) <= 6)%nat
  else snd out
       = error_page (ValidationFailed "Invalid date format") "0001-01-15"
       /\ fst (fst out) = Sample.fresh
       /\ page_requests (snd (fst out)) = 0%nat.
Proof.
  apply (calculate_builds_the_page (fun x => x) Sample.fresh
           (fun _ => Sample.world (Table Sample.table)) "0001-01-15").
  constructor.
Defined.

(* ================================================================== *)
(** * Proofs: a page asked for twice *)














(* ================================================================== *)
(** * Proofs: when a call raises; a branch that is never taken *)




Lemma return_over_window_events (ticker col : string) (series : list dated)
  (reference_date : date) (s e : string) :
  ~ In (Log ERROR (FailedToParseDate s e))
       (fst (return_over_window ticker col series reference_date)).
Proof.
  unfold return_over_window.
  destruct (window reference_date) as [[start_date end_date]|err];
    [|cbn; tauto].
  destruct (select_window start_date end_date series);
    [cbn; intros [H|[H|[]]]; discriminate|].
  match goal with
  | |- context [if ?b then _ else _] => destruct b
  end; cbn; intros [H|[H|[]]]; discriminate.
Qed.

(** X21.  The branch "Failed to parse date" of the computation is never
    taken: the date string has passed [validate_date_string], which is the
    same [strptime], so no call, whatever its arguments and the world, logs
    that message. *)
Theorem parse_failure_is_never_logged (w : env)
  (ticker reference_date_str s e : string) :
  ~ In (Log ERROR (FailedToParseDate s e))
       (fst (_get_12m_return_stooq w ticker reference_date_str)).
Proof.
  unfold _get_12m_return_stooq.
  destruct (negb (validate_ticker ticker));
    [cbn; intros [H|[]]; discriminate|].
  destruct (validate_date_string reference_date_str) eqn:Hv; cbn [negb];
    [|cbn; intros [H|[]]; discriminate].
  destruct (validate_strptime _ Hv) as [d Hd]. rewrite Hd.
  destruct (stooq w (url_of ticker)) as [[|] msg|[|] msg|msg|df];
    try (cbn [fst app In]; intros [H|[H|[H|[]]]]; discriminate).
  destruct (unusable df);
    [cbn [fst app In]; intros [H|[H|[H|[]]]]; discriminate|].
  destruct (normalize df) as [sorted|err];
    [|cbn [fst app In]; intros [H|[H|[H|[]]]]; discriminate].
  pose proof (return_over_window_events ticker (close_col df) sorted d s e) as Hw.
  destruct (return_over_window ticker (close_col df) sorted d) as [evs r].
  cbn [fst app In] in *. intros [H|[H|H]]; try discriminate. now apply Hw.
Qed.
